(** * AIProcessor: the keyword-based transcript analyzer

    A shallow embedding of [AIProcessor] (the class with [analyzeMeeting],
    [generateSummary], [extractActionItems], [extractTasks] and
    [generateNextSteps]) together with the properties its specification
    states about it.

    Modelling conventions.
    - A JavaScript string is a sequence of code units; the model covers the
      code units 0..255 (Latin-1), carried by [string] / [ascii], with the
      white space and the letter case of that range.
    - [uuidv4()], [Math.random()] and [Date.now()] read from the environment.
      The environment is an explicit [World]: three sources, each with a
      read position.  Every call consumes one reading of its source.
    - [Math.random()] returns a double [m / 2^53] with [0 <= m < 2^53], the
      form the common engines produce.  The product with 14 is rounded to 53
      significant bits, ties to even, as double precision does; the later
      additions and multiplications are exact on the integers involved.
    - [Date.prototype.toISOString] raises a RangeError on an invalid date, so
      the effectful functions live in a state-and-exception monad [M].  The
      calendar date is computed in closed form and proved to be the year,
      month and day of the language standard ([Calendar.civil_spec]). *)

From Stdlib Require Import ZArith List String Ascii Bool Lia Arith.
Import ListNotations.
Open Scope string_scope.

(* ---------------------------------------------------------------------- *)
(** ** Strings: the built-ins the analyzer calls *)
(* ---------------------------------------------------------------------- *)

Module Js.

(** Code unit of a character. *)
Definition code (c : ascii) : N := N_of_ascii c.

(** White space and line terminators below U+0100: TAB, LF, VT, FF, CR,
    SPACE and NO-BREAK SPACE.  This is the set both [\s] and
    [String.prototype.trim] use. *)
Definition isWhiteSpace (c : ascii) : bool :=
  let n := code c in
  ((9 <=? n) && (n <=? 13) || (n =? 32) || (n =? 160))%N.

(** The character class [[.!?]] of the sentence splitter. *)
Definition isSentenceEnd (c : ascii) : bool :=
  let n := code c in
  ((n =? 46) || (n =? 33) || (n =? 63))%N.

(** [toLowerCase] on one code unit below U+0100: A-Z and the Latin-1 capitals
    U+00C0..U+00DE (without the multiplication sign U+00D7) move up by 32. *)
Definition lowerChar (c : ascii) : ascii :=
  let n := code c in
  if ((65 <=? n) && (n <=? 90) ||
      (192 <=? n) && (n <=? 222) && negb (n =? 215))%N
  then ascii_of_N (n + 32) else c.

Fixpoint toLowerCase (s : string) : string :=
  match s with
  | EmptyString => EmptyString
  | String c s' => String (lowerChar c) (toLowerCase s')
  end.

(** [s.startsWith(p)] *)
Fixpoint startsWith (s p : string) {struct p} : bool :=
  match p with
  | EmptyString => true
  | String b p' =>
      match s with
      | EmptyString => false
      | String a s' => Ascii.eqb a b && startsWith s' p'
      end
  end.

(** [s.includes(p)]: [p] occurs in [s] as a substring. *)
Fixpoint includes (s p : string) : bool :=
  startsWith s p ||
  match s with
  | EmptyString => false
  | String _ s' => includes s' p
  end.

(** Removal of leading white space. *)
Fixpoint trimStart (s : string) : string :=
  match s with
  | EmptyString => EmptyString
  | String c s' => if isWhiteSpace c then trimStart s' else s
  end.

(** Removal of trailing white space. *)
Fixpoint trimEnd (s : string) : string :=
  match s with
  | EmptyString => EmptyString
  | String c s' =>
      match trimEnd s' with
      | EmptyString => if isWhiteSpace c then EmptyString else String c EmptyString
      | r => String c r
      end
  end.

(** [s.trim()] *)
Definition trim (s : string) : string := trimEnd (trimStart s).

(** [s.split(/[sep]+/)] for a character class [sep].  The regular expression
    never matches the empty string, so the result is the list of maximal
    separator-free pieces; a separator run at the very start or end leaves an
    empty first or last piece, and the empty string splits into [[""]].
    [cur] is the piece being read, [inRun] tells that the previous character
    was a separator. *)
Fixpoint splitGo (sep : ascii -> bool) (s : string) (cur : string)
         (inRun : bool) : list string :=
  match s with
  | EmptyString => [cur]
  | String c s' =>
      if sep c then
        if inRun then splitGo sep s' EmptyString true
        else cur :: splitGo sep s' EmptyString true
      else splitGo sep s' (cur ++ String c EmptyString) false
  end.

Definition split (sep : ascii -> bool) (s : string) : list string :=
  splitGo sep s EmptyString false.

(** [arr.join(sep)] *)
Fixpoint join (sep : string) (l : list string) : string :=
  match l with
  | [] => EmptyString
  | [x] => x
  | x :: rest => x ++ sep ++ join sep rest
  end.

(** [arr.slice(0, n)] *)
Definition slice0 {A} (n : nat) (l : list A) : list A := firstn n l.

(** [arr.some(p)] *)
Definition some {A} (p : A -> bool) (l : list A) : bool := existsb p l.

(** [arr.includes(x)] on an array of strings. *)
Definition arrayIncludes (l : list string) (x : string) : bool :=
  existsb (String.eqb x) l.

End Js.

(* ---------------------------------------------------------------------- *)
(** ** The data model ([types/index.ts]) *)
(* ---------------------------------------------------------------------- *)

(** ['High' | 'Medium' | 'Low'] *)
Inductive Priority := High | Medium | Low.

(** ['Pending' | 'In Progress' | 'Completed'] *)
Inductive Status := Pending | InProgress | Completed.

Definition Priority_eqb (a b : Priority) : bool :=
  match a, b with
  | High, High | Medium, Medium | Low, Low => true
  | _, _ => false
  end.

Module ActionItem.
Record t := mk {
  id : string;
  description : string;
  priority : Priority;
  category : string
}.
End ActionItem.

Module Task.
Record t := mk {
  id : string;
  description : string;
  assignee : string;
  dueDate : string;
  priority : Priority;
  status : Status
}.
End Task.

Record MeetingAnalysis := mkAnalysis {
  summary : string;
  actionItems : list ActionItem.t;
  tasks : list Task.t;
  keyTopics : list string;
  nextSteps : list string
}.

(* ---------------------------------------------------------------------- *)
(** ** The environment: uuid, random source and clock *)
(* ---------------------------------------------------------------------- *)

(** The [n]-th call of [uuidv4()], [Math.random()] and [Date.now()] returns
    the [n]-th reading of its source.  A random reading is an integer [m];
    its low 53 bits denote the double [(m mod 2^53) / 2^53] of [[0, 1)].  A
    clock reading is a number of milliseconds since the epoch. *)
Record World := mkWorld {
  uuidSource : nat -> string;
  uuidCalls : nat;
  randomSource : nat -> Z;
  randomCalls : nat;
  clockSource : nat -> Z;
  clockCalls : nat
}.

Inductive JsError := RangeError.

Inductive Outcome (A : Type) :=
| Ok (a : A) (w : World)
| Throw (e : JsError).
Arguments Ok {A} a w.
Arguments Throw {A} e.

(** State-and-exception monad over [World]. *)
Definition M (A : Type) : Type := World -> Outcome A.

Definition ret {A} (a : A) : M A := fun w => Ok a w.

Definition bind {A B} (c : M A) (k : A -> M B) : M B :=
  fun w => match c w with
           | Ok a w' => k a w'
           | Throw e => Throw e
           end.

Definition throw {A} (e : JsError) : M A := fun _ => Throw e.

Declare Scope js_scope.
Delimit Scope js_scope with js.
Notation "x <- c ;; k" := (bind c (fun x => k))
  (at level 61, c at next level, right associativity) : js_scope.
Open Scope js_scope.

Definition uuidv4 : M string :=
  fun w => Ok (uuidSource w (uuidCalls w))
              (mkWorld (uuidSource w) (S (uuidCalls w))
                       (randomSource w) (randomCalls w)
                       (clockSource w) (clockCalls w)).

(** [Math.random()], as the numerator over [2^53] of the double returned. *)
Definition Math_random : M Z :=
  fun w => Ok (randomSource w (randomCalls w) mod 2 ^ 53)%Z
              (mkWorld (uuidSource w) (uuidCalls w)
                       (randomSource w) (S (randomCalls w))
                       (clockSource w) (clockCalls w)).

Definition Date_now : M Z :=
  fun w => Ok (clockSource w (clockCalls w))
              (mkWorld (uuidSource w) (uuidCalls w)
                       (randomSource w) (randomCalls w)
                       (clockSource w) (S (clockCalls w))).

(* ---------------------------------------------------------------------- *)
(** ** Numbers and dates: the built-ins behind the due date *)
(* ---------------------------------------------------------------------- *)

Module JsDate.
Open Scope Z_scope.

(** Rounding of a non-negative integer to 53 significant bits, ties to even:
    the rounding of a double-precision product whose exact value is
    [x / 2^53]. *)
Definition roundToDouble (x : Z) : Z :=
  let e := Z.log2 x - 52 in
  if e <=? 0 then x
  else
    let q := x / 2 ^ e in
    let r := x mod 2 ^ e in
    let half := 2 ^ (e - 1) in
    let q' := if (half <? r) || ((r =? half) && Z.odd q) then q + 1 else q in
    q' * 2 ^ e.

(** [Math.floor(r * 14)] for the double [r = m / 2^53]. *)
Definition floorTimes14 (m : Z) : Z := roundToDouble (m * 14) / 2 ^ 53.

(** [24 * 60 * 60 * 1000] *)
Definition msPerDay : Z := 24 * 60 * 60 * 1000.

(** The largest time value a [Date] holds (TimeClip). *)
Definition maxTime : Z := 8640000000000000.

(** Year, month (1..12) and day of month of the day number [days] since
    1970-01-01 in the proleptic Gregorian calendar: YearFromTime,
    MonthFromTime + 1 and DateFromTime of the language standard, computed
    in closed form over 400-year eras starting on 1 March. *)
Definition civilFromDays (days : Z) : Z * Z * Z :=
  let z := days + 719468 in
  let era := z / 146097 in
  let doe := z mod 146097 in
  let yoe := (doe - doe / 1460 + doe / 36524 - doe / 146096) / 365 in
  let doy := doe - (365 * yoe + yoe / 4 - yoe / 100) in
  let mp := (5 * doy + 2) / 153 in
  let d := doy - (153 * mp + 2) / 5 + 1 in
  let m := if mp <? 10 then mp + 3 else mp - 9 in
  let y := yoe + era * 400 + (if m <=? 2 then 1 else 0) in
  (y, m, d).

Definition digitChar (d : Z) : ascii := ascii_of_N (48 + Z.to_N d).

(** Decimal digits of a non-negative integer, most significant first. *)
Fixpoint decimalGo (fuel : nat) (n : Z) (acc : string) : string :=
  match fuel with
  | O => acc
  | S f =>
      let acc' := String (digitChar (n mod 10)) acc in
      if n <? 10 then acc' else decimalGo f (n / 10) acc'
  end.

Definition decimal (n : Z) : string :=
  decimalGo (S (Z.to_nat (Z.log2 n))) n EmptyString.

Fixpoint zeros (n : nat) : string :=
  match n with
  | O => EmptyString
  | S k => String "0" (zeros k)
  end.

(** [s.padStart(width, '0')] *)
Definition padStart0 (width : nat) (s : string) : string :=
  (zeros (width - String.length s)%nat ++ s)%string.

(** The year of an ISO date-time string: four digits for the years 0..9999,
    a sign and six digits otherwise. *)
Definition isoYear (y : Z) : string :=
  if (0 <=? y) && (y <=? 9999) then padStart0 4 (decimal y)
  else ((if (y <? 0)%Z then "-" else "+")
          ++ padStart0 6 (decimal (Z.abs y)))%string.

(** [new Date(t).toISOString().split('T')[0]]: the calendar date of the time
    value [t] ([isoDateString]), or a RangeError when [t] is outside the range
    of [Date]. *)
Definition isoDateString (t : Z) : string :=
  let '(y, m, d) := civilFromDays (t / msPerDay) in
  (isoYear y ++ "-" ++ padStart0 2 (decimal m)
             ++ "-" ++ padStart0 2 (decimal d))%string.

Definition toISODate (t : Z) : M string :=
  if Z.abs t <=? maxTime then ret (isoDateString t) else throw RangeError.

End JsDate.

(* ---------------------------------------------------------------------- *)
(** ** AIProcessor *)
(* ---------------------------------------------------------------------- *)

Module AIProcessor.

(** [topicKeywords], in declaration order ([Object.entries] order). *)
Definition topicKeywords : list (string * list string) :=
  [ ("project management",
     ["project"; "timeline"; "milestone"; "deliverable"; "deadline"]);
    ("budget & finance",
     ["budget"; "cost"; "expense"; "revenue"; "financial"; "funding"]);
    ("team coordination",
     ["team"; "assign"; "responsible"; "collaborate"; "coordinate"]);
    ("client relations",
     ["client"; "customer"; "stakeholder"; "presentation"; "meeting"]);
    ("technical discussion",
     ["technical"; "development"; "implementation"; "architecture";
      "solution"]) ].

Definition keyPhrases : list string :=
  [ "discussed"; "agreed"; "decided"; "concluded"; "reviewed";
    "presented"; "analyzed"; "proposed"; "suggested"; "recommended" ].

Definition actionKeywords : list string :=
  [ "action"; "todo"; "follow up"; "next step"; "need to"; "should";
    "must"; "required"; "implement"; "review"; "analyze"; "prepare";
    "contact" ].

Definition taskKeywords : list string :=
  [ "assign"; "responsible"; "owner"; "lead"; "manage"; "handle";
    "complete"; "deliver"; "finish"; "due"; "deadline" ].

Definition genericSummary : string :=
  "Meeting focused on key business discussions and strategic planning. Participants reviewed current progress, discussed upcoming milestones, and aligned on next steps for continued success.".

Definition defaultAssignees : list string :=
  [ "Team Lead"; "Project Manager"; "Developer"; "Analyst" ].

Definition defaultTasks : list string :=
  [ "Review and finalize project requirements";
    "Prepare client presentation materials";
    "Update project timeline and milestones";
    "Conduct stakeholder feedback session" ].

Definition baselineSteps : list string :=
  [ "Distribute meeting summary to all participants";
    "Set up follow-up meetings for high-priority items";
    "Monitor task completion and provide updates" ].

Definition urgentActionStep : string :=
  "Address high-priority action items immediately".

Definition urgentTaskStep : string :=
  "Ensure high-priority tasks have adequate resources".

(** [keywords.some(keyword => lowerSentence.includes(keyword))] *)
Definition someIncluded (keywords : list string) (lowerSentence : string) : bool :=
  Js.some (fun keyword => Js.includes lowerSentence keyword) keywords.

(** [transcript.split(/[.!?]+/)] *)
Definition splitSentences (transcript : string) : list string :=
  Js.split Js.isSentenceEnd transcript.

(** [s => s.trim().length > 0] *)
Definition nonBlank (s : string) : bool :=
  (0 <? String.length (Js.trim s))%nat.

(** The filter of [generateSummary]. *)
Definition hasKeyPhrase (sentence : string) : bool :=
  someIncluded keyPhrases (Js.toLowerCase sentence).

Definition generateSummary (transcript : string) (sentences : list string) : string :=
  let importantSentences :=
    map (fun sentence => Js.trim sentence)
        (Js.slice0 4 (filter hasKeyPhrase sentences)) in
  if (List.length importantSentences =? 0)%nat then genericSummary
  else Js.join ". " importantSentences ++ ".".

(** Priority of an action item, from the lower-cased sentence. *)
Definition actionPriority (lowerSentence : string) : Priority :=
  if Js.includes lowerSentence "urgent" || Js.includes lowerSentence "asap"
  then High
  else if Js.includes lowerSentence "important" then Medium else Low.

(** Category of an action item, from the lower-cased sentence. *)
Definition actionCategory (lowerSentence : string) : string :=
  if Js.includes lowerSentence "client" then "Client Relations"
  else if Js.includes lowerSentence "budget" then "Budget & Finance"
  else if Js.includes lowerSentence "technical" then "Technical"
  else "General".

(** The [sentences.forEach] of [extractActionItems]; [actionItems] is the
    array the loop pushes to. *)
Fixpoint forEachActionSentence (sentences : list string)
         (actionItems : list ActionItem.t) : M (list ActionItem.t) :=
  match sentences with
  | [] => ret actionItems
  | sentence :: rest =>
      let lowerSentence := Js.toLowerCase sentence in
      if someIncluded actionKeywords lowerSentence then
        let priority := actionPriority lowerSentence in
        let category := actionCategory lowerSentence in
        id <- uuidv4 ;;
        forEachActionSentence rest
          (actionItems ++
             [ActionItem.mk id (Js.trim sentence) priority category])%list
      else forEachActionSentence rest actionItems
  end.

Definition extractActionItems (transcript : string) : M (list ActionItem.t) :=
  let sentences := splitSentences transcript in
  actionItems <- forEachActionSentence sentences [] ;;
  actionItems <-
    (if (List.length actionItems =? 0)%nat then
       id1 <- uuidv4 ;;
       id2 <- uuidv4 ;;
       ret (actionItems ++
              [ ActionItem.mk id1
                  "Schedule follow-up meeting to review progress"
                  Medium "General";
                ActionItem.mk id2
                  "Share meeting summary with all stakeholders"
                  Low "Communication" ])%list
     else ret actionItems) ;;
  ret (Js.slice0 6 actionItems).

(** Priority of a task, from the lower-cased sentence. *)
Definition taskPriority (lowerSentence : string) : Priority :=
  if Js.includes lowerSentence "urgent" || Js.includes lowerSentence "critical"
  then High
  else if Js.includes lowerSentence "important" then Medium else Low.

(** [assignees[index % assignees.length]]; [assignees] is never empty. *)
Definition assigneeAt (assignees : list string) (index : nat) : string :=
  nth (index mod List.length assignees) assignees EmptyString.

(** The [sentences.forEach((sentence, index) => ...)] of [extractTasks]. *)
Fixpoint forEachTaskSentence (assignees : list string)
         (sentences : list string) (index : nat)
         (tasks : list Task.t) : M (list Task.t) :=
  match sentences with
  | [] => ret tasks
  | sentence :: rest =>
      let lowerSentence := Js.toLowerCase sentence in
      if someIncluded taskKeywords lowerSentence then
        let priority := taskPriority lowerSentence in
        let assignee := assigneeAt assignees index in
        now <- Date_now ;;
        r <- Math_random ;;
        dueDate <- JsDate.toISODate
                     (now + (JsDate.floorTimes14 r + 1) * JsDate.msPerDay)%Z ;;
        id <- uuidv4 ;;
        forEachTaskSentence assignees rest (S index)
          (tasks ++
             [Task.mk id (Js.trim sentence) assignee dueDate priority Pending])%list
      else forEachTaskSentence assignees rest (S index) tasks
  end.

(** The [defaultTasks.forEach((taskDesc, index) => ...)] of [extractTasks]. *)
Fixpoint forEachDefaultTask (assignees : list string)
         (descs : list string) (index : nat)
         (tasks : list Task.t) : M (list Task.t) :=
  match descs with
  | [] => ret tasks
  | taskDesc :: rest =>
      id <- uuidv4 ;;
      now <- Date_now ;;
      dueDate <- JsDate.toISODate
                   (now + (Z.of_nat index + 3) * JsDate.msPerDay)%Z ;;
      forEachDefaultTask assignees rest (S index)
        (tasks ++
           [Task.mk id taskDesc (assigneeAt assignees index) dueDate
                    (if (index =? 0)%nat then High else Medium) Pending])%list
  end.

Definition extractTasks (transcript : string) (participants : list string)
  : M (list Task.t) :=
  let sentences := splitSentences transcript in
  let assignees :=
    if (0 <? List.length participants)%nat then participants else defaultAssignees in
  tasks <- forEachTaskSentence assignees sentences 0 [] ;;
  tasks <-
    (if (List.length tasks =? 0)%nat then
       forEachDefaultTask assignees defaultTasks 0 tasks
     else ret tasks) ;;
  ret (Js.slice0 5 tasks).

Definition generateNextSteps (actionItems : list ActionItem.t)
           (tasks : list Task.t) : list string :=
  let steps := baselineSteps in
  let steps :=
    if Js.some (fun item => Priority_eqb (ActionItem.priority item) High)
               actionItems
    then urgentActionStep :: steps else steps in
  let steps :=
    if Js.some (fun task => Priority_eqb (Task.priority task) High) tasks
    then (steps ++ [urgentTaskStep])%list else steps in
  steps.

(** [words]: the lower-cased transcript split on white space. *)
Definition wordsOf (transcript : string) : list string :=
  Js.split Js.isWhiteSpace (Js.toLowerCase transcript).

(** [sentences]: the non-blank pieces of the transcript. *)
Definition sentencesOf (transcript : string) : list string :=
  filter nonBlank (splitSentences transcript).

Definition keyTopicsOf (words : list string) : list string :=
  map (fun entry => fst entry)
      (filter (fun entry =>
                 Js.some (fun keyword => Js.arrayIncludes words keyword)
                         (snd entry))
              topicKeywords).

(** [participants] is [[]] when the caller omits it. *)
Definition analyzeMeeting (transcript : string) (participants : list string)
  : M MeetingAnalysis :=
  let words := wordsOf transcript in
  let sentences := sentencesOf transcript in
  let keyTopics := keyTopicsOf words in
  let summary := generateSummary transcript sentences in
  actionItems <- extractActionItems transcript ;;
  tasks <- extractTasks transcript participants ;;
  let nextSteps := generateNextSteps actionItems tasks in
  ret (mkAnalysis summary actionItems tasks keyTopics nextSteps).

End AIProcessor.

(* ---------------------------------------------------------------------- *)
(** ** The environment, observed *)
(* ---------------------------------------------------------------------- *)

(** The world after [u], [r] and [c] further calls of [uuidv4()],
    [Math.random()] and [Date.now()]. *)
Definition advance (u r c : nat) (w : World) : World :=
  mkWorld (uuidSource w) (u + uuidCalls w)
          (randomSource w) (r + randomCalls w)
          (clockSource w) (c + clockCalls w).

(** The next reading of each source. *)
Definition nextUuid (w : World) : string := uuidSource w (uuidCalls w).
Definition nextRandom (w : World) : Z := randomSource w (randomCalls w).
Definition nextClock (w : World) : Z := clockSource w (clockCalls w).

(** The [k]-th reading after the current one. *)
Definition uuidAt (w : World) (k : nat) : string :=
  uuidSource w (k + uuidCalls w).
Definition randomAt (w : World) (k : nat) : Z :=
  randomSource w (k + randomCalls w).
Definition clockAt (w : World) (k : nat) : Z :=
  clockSource w (k + clockCalls w).

(** Every clock reading is a time value, and so is the reading two weeks
    later: no due date leaves the range of [Date]. *)
Definition clockInRange (w : World) : Prop :=
  forall n, (- JsDate.maxTime <= clockSource w n /\
             clockSource w n + 14 * JsDate.msPerDay <= JsDate.maxTime)%Z.

(** [Math.random()] and [Date.now()] mocked to return fixed values. *)
Definition mockedSources (w : World) : Prop :=
  (forall n k, randomSource w n = randomSource w k) /\
  (forall n k, clockSource w n = clockSource w k).

(** A uuid-shaped string for the [n]-th call. *)
Definition uuidOfNat (n : nat) : string :=
  "00000000-0000-4000-8000-" ++
  JsDate.padStart0 12 (JsDate.decimal (Z.of_nat n)).

(** A world for examples: fresh uuids, [Math.random()] fixed at 0.5 and the
    clock fixed at 2023-11-14T22:13:20Z. *)
Definition sampleWorld : World :=
  mkWorld uuidOfNat 0 (fun _ => 2 ^ 52)%Z 0 (fun _ => 1700000000000%Z) 0.

(* ---------------------------------------------------------------------- *)
(** ** Vocabulary: letter case and white space *)
(* ---------------------------------------------------------------------- *)

(** [u] occurs in [s] up to letter case: some substring of [s] lower-cases
    to [u]. *)
Definition containsIgnoringCase (s u : string) : Prop :=
  exists pre mid post,
    s = (pre ++ mid ++ post)%string /\ Js.toLowerCase mid = u.

(** Only white space. *)
Fixpoint allWhite (s : string) : bool :=
  match s with
  | EmptyString => true
  | String c s' => Js.isWhiteSpace c && allWhite s'
  end.

(** A keyword that has a character other than white space. *)
Definition visible (kw : string) : bool := negb (allWhite kw).

(* ---------------------------------------------------------------------- *)
(** ** Vocabulary: calendar dates *)
(* ---------------------------------------------------------------------- *)

(** Time values of the years 0000..9999. *)
Definition fourDigitYear (t : Z) : Prop :=
  (-62167219200000 <= t <= 253402300799999)%Z.

Definition isDigit (c : ascii) : bool :=
  ((48 <=? Js.code c) && (Js.code c <=? 57))%N.

(** The shape [YYYY-MM-DD]. *)
Definition isIsoDate (s : string) : bool :=
  match s with
  | String y1 (String y2 (String y3 (String y4 (String h1
      (String m1 (String m2 (String h2 (String d1 (String d2
        EmptyString))))))))) =>
      isDigit y1 && isDigit y2 && isDigit y3 && isDigit y4 &&
      Ascii.eqb h1 "-" &&
      isDigit m1 && isDigit m2 &&
      Ascii.eqb h2 "-" &&
      isDigit d1 && isDigit d2
  | _ => false
  end.

Definition fourDigits (s : string) : bool :=
  match s with
  | String a (String b (String c (String d EmptyString))) =>
      isDigit a && isDigit b && isDigit c && isDigit d
  | _ => false
  end.

Definition twoDigits (s : string) : bool :=
  match s with
  | String a (String b EmptyString) => isDigit a && isDigit b
  | _ => false
  end.

(** [p] holds on [fuel] consecutive integers from [z] on. *)
Fixpoint allFrom (fuel : nat) (z : Z) (p : Z -> bool) : bool :=
  match fuel with
  | O => true
  | S k => p z && allFrom k (z + 1)%Z p
  end.

(** DayFromYear of the language standard: the day number of the first of
    January of year [y]. *)
Definition dayFromYear (y : Z) : Z :=
  (365 * (y - 1970) + (y - 1969) / 4 - (y - 1901) / 100
   + (y - 1601) / 400)%Z.

(** InLeapYear of the language standard. *)
Definition inLeapYear (y : Z) : bool :=
  ((y mod 4 =? 0) && negb (y mod 100 =? 0) || (y mod 400 =? 0))%Z.

(** The number of days of a year that lie before its month [m] (1..12;
    13 stands for the end of the year). *)
Definition daysBeforeMonth (leap : bool) (m : Z) : Z :=
  (let l := if leap then 1 else 0 in
   if m =? 1 then 0 else if m =? 2 then 31 else if m =? 3 then 59 + l
   else if m =? 4 then 90 + l else if m =? 5 then 120 + l
   else if m =? 6 then 151 + l else if m =? 7 then 181 + l
   else if m =? 8 then 212 + l else if m =? 9 then 243 + l
   else if m =? 10 then 273 + l else if m =? 11 then 304 + l
   else if m =? 12 then 334 + l else 365 + l)%Z.

(** The day number of the first of March of year [yoe] of the 400-year era
    [era]. *)
Definition marchFirst (era yoe : Z) : Z :=
  (146097 * era + (365 * yoe + yoe / 4 - yoe / 100 + yoe / 400) - 719468)%Z.

(* ---------------------------------------------------------------------- *)
(** ** What the loops compute *)
(* ---------------------------------------------------------------------- *)

Module Trace.
Import AIProcessor.

Definition actionMatches (sentence : string) : bool :=
  someIncluded actionKeywords (Js.toLowerCase sentence).

Definition taskMatches (sentence : string) : bool :=
  someIncluded taskKeywords (Js.toLowerCase sentence).

(** The item the loop of [extractActionItems] pushes for a sentence. *)
Definition actionItemOf (id sentence : string) : ActionItem.t :=
  ActionItem.mk id (Js.trim sentence)
                (actionPriority (Js.toLowerCase sentence))
                (actionCategory (Js.toLowerCase sentence)).

Fixpoint actionItemsFrom (w : World) (matched : list string)
  : list ActionItem.t :=
  match matched with
  | [] => []
  | sentence :: rest =>
      actionItemOf (nextUuid w) sentence
      :: actionItemsFrom (advance 1 0 0 w) rest
  end.

Definition defaultActionItems (id1 id2 : string) : list ActionItem.t :=
  [ ActionItem.mk id1 "Schedule follow-up meeting to review progress"
                  Medium "General";
    ActionItem.mk id2 "Share meeting summary with all stakeholders"
                  Low "Communication" ].

(** A list with the position of every element, counted from [i]. *)
Fixpoint indexedFrom {A} (i : nat) (l : list A) : list (nat * A) :=
  match l with
  | [] => []
  | x :: rest => (i, x) :: indexedFrom (S i) rest
  end.

(** The task-triggering sentences of a list, with their positions. *)
Definition matchedTasks (i : nat) (sentences : list string)
  : list (nat * string) :=
  filter (fun e => taskMatches (snd e)) (indexedFrom i sentences).

(** The number of days added to the clock for the random reading [m]. *)
Definition jitterDays (m : Z) : Z := (JsDate.floorTimes14 (m mod 2 ^ 53) + 1)%Z.

(** The task the loop of [extractTasks] pushes for the sentence at position
    [index], given the readings of the three sources. *)
Definition taskOf (assignees : list string) (id : string) (m now : Z)
           (index : nat) (sentence : string) : Task.t :=
  Task.mk id (Js.trim sentence) (assigneeAt assignees index)
          (JsDate.isoDateString (now + jitterDays m * JsDate.msPerDay)%Z)
          (taskPriority (Js.toLowerCase sentence)) Pending.

Fixpoint tasksFrom (w : World) (assignees : list string)
         (matched : list (nat * string)) : list Task.t :=
  match matched with
  | [] => []
  | (index, sentence) :: rest =>
      taskOf assignees (nextUuid w) (nextRandom w) (nextClock w)
             index sentence
      :: tasksFrom (advance 1 1 1 w) assignees rest
  end.

(** The default task the second loop of [extractTasks] pushes. *)
Definition defaultTaskOf (assignees : list string) (id : string) (now : Z)
           (index : nat) (taskDesc : string) : Task.t :=
  Task.mk id taskDesc (assigneeAt assignees index)
          (JsDate.isoDateString
             (now + (Z.of_nat index + 3) * JsDate.msPerDay)%Z)
          (if (index =? 0)%nat then High else Medium) Pending.

Fixpoint defaultTasksFrom (w : World) (assignees : list string)
         (descs : list (nat * string)) : list Task.t :=
  match descs with
  | [] => []
  | (index, taskDesc) :: rest =>
      defaultTaskOf assignees (nextUuid w) (nextClock w) index taskDesc
      :: defaultTasksFrom (advance 1 0 1 w) assignees rest
  end.

(** The roster of [extractTasks]. *)
Definition rosterOf (participants : list string) : list string :=
  if (0 <? List.length participants)%nat then participants
  else defaultAssignees.

(** The items [extractActionItems] returns in [w]. *)
Definition actionItemsIn (w : World) (transcript : string)
  : list ActionItem.t :=
  match filter actionMatches (splitSentences transcript) with
  | [] => defaultActionItems (nextUuid w) (nextUuid (advance 1 0 0 w))
  | matched => firstn 6 (actionItemsFrom w matched)
  end.

(** The number of uuids [extractActionItems] draws. *)
Definition actionUuids (transcript : string) : nat :=
  match filter actionMatches (splitSentences transcript) with
  | [] => 2
  | matched => List.length matched
  end.

(** The tasks [extractTasks] returns in [w]. *)
Definition tasksIn (w : World) (transcript : string)
           (participants : list string) : list Task.t :=
  let assignees := rosterOf participants in
  match matchedTasks 0 (splitSentences transcript) with
  | [] => defaultTasksFrom w assignees (indexedFrom 0 defaultTasks)
  | matched => firstn 5 (tasksFrom w assignees matched)
  end.

(** The number of readings [extractTasks] takes from the uuid source, the
    random source and the clock. *)
Definition taskReadings (transcript : string) : nat * nat * nat :=
  match matchedTasks 0 (splitSentences transcript) with
  | [] => (4, 0, 4)%nat
  | matched =>
      (List.length matched, List.length matched, List.length matched)
  end.

(** The world [analyzeMeeting] leaves behind. *)
Definition worldAfter (transcript : string) (w : World) : World :=
  let '(u, r, c) := taskReadings transcript in
  advance u r c (advance (actionUuids transcript) 0 0 w).

End Trace.

(* ---------------------------------------------------------------------- *)
(** ** Vocabulary of the properties *)
(* ---------------------------------------------------------------------- *)

Module Props.
Import AIProcessor Trace.

(** No sentence and no token of the transcript matches an entry of a
    trigger table. *)
Definition noTrigger (transcript : string) : Prop :=
  (forall sentence, In sentence (splitSentences transcript) ->
     hasKeyPhrase sentence = false /\
     actionMatches sentence = false /\
     taskMatches sentence = false) /\
  (forall word topic keywords keyword,
     In word (wordsOf transcript) ->
     In (topic, keywords) topicKeywords ->
     In keyword keywords ->
     word <> keyword).

(** Decision procedure for [noTrigger]. *)
Definition noTriggerb (transcript : string) : bool :=
  forallb (fun sentence =>
             negb (hasKeyPhrase sentence) && negb (actionMatches sentence)
             && negb (taskMatches sentence))
          (splitSentences transcript) &&
  forallb (fun word =>
             forallb (fun entry =>
                        forallb (fun keyword => negb (String.eqb word keyword))
                                (snd entry))
                     topicKeywords)
          (wordsOf transcript).

(** The four default tasks, for the roster [assignees]. *)
Definition fallbackTasks (w : World) (assignees : list string)
  : list Task.t :=
  [ Task.mk (uuidAt w 2) "Review and finalize project requirements"
            (assigneeAt assignees 0)
            (JsDate.isoDateString (clockAt w 0 + 3 * JsDate.msPerDay))
            High Pending;
    Task.mk (uuidAt w 3) "Prepare client presentation materials"
            (assigneeAt assignees 1)
            (JsDate.isoDateString (clockAt w 1 + 4 * JsDate.msPerDay))
            Medium Pending;
    Task.mk (uuidAt w 4) "Update project timeline and milestones"
            (assigneeAt assignees 2)
            (JsDate.isoDateString (clockAt w 2 + 5 * JsDate.msPerDay))
            Medium Pending;
    Task.mk (uuidAt w 5) "Conduct stakeholder feedback session"
            (assigneeAt assignees 3)
            (JsDate.isoDateString (clockAt w 3 + 6 * JsDate.msPerDay))
            Medium Pending ].

(** The fallback content the specification describes: the generic summary,
    two default action items, four default tasks, no topic and the three
    baseline steps. *)
Definition specFallback (w : World) (participants : list string)
  : MeetingAnalysis :=
  mkAnalysis genericSummary
             (defaultActionItems (uuidAt w 0) (uuidAt w 1))
             (fallbackTasks w (rosterOf participants))
             []
             baselineSteps.

(** The fallback content the code returns: as [specFallback], with the
    high-priority task step after the baseline steps. *)
Definition codeFallback (w : World) (participants : list string)
  : MeetingAnalysis :=
  mkAnalysis genericSummary
             (defaultActionItems (uuidAt w 0) (uuidAt w 1))
             (fallbackTasks w (rosterOf participants))
             []
             (baselineSteps ++ [urgentTaskStep])%list.

Definition anyHighAction (items : list ActionItem.t) : Prop :=
  exists item, In item items /\ ActionItem.priority item = High.

Definition anyHighTask (tasks : list Task.t) : Prop :=
  exists task, In task tasks /\ Task.priority task = High.

(** The task-triggering sentences of the transcript sit at the positions
    [positions] of [transcript.split(/[.!?]+/)], and nowhere else. *)
Definition taskSentencesAt (transcript : string) (positions : list nat)
  : Prop :=
  forall i,
    (exists sentence,
        nth_error (splitSentences transcript) i = Some sentence /\
        taskMatches sentence = true)
    <-> In i positions.

(** A transcript whose task-triggering sentences are the pieces 0, 2 and 5. *)
Definition transcript025 : string :=
  "Bob will lead the rollout. Thanks all. Ann will manage the launch. Fine. Good. Tom will deliver the report.".

(** The number of pieces of white space only, the empty piece included,
    among the first [i] pieces. *)
Definition whiteBefore (i : nat) (pieces : list string) : nat :=
  List.length (filter allWhite (firstn i pieces)).

(** The number of pieces with a character other than white space among the
    first [i] pieces: the position the piece at raw position [i] has among
    such pieces. *)
Definition visibleBefore (i : nat) (pieces : list string) : nat :=
  List.length (filter visible (firstn i pieces)).

(** The number of task-triggering pieces among the first [i] pieces. *)
Definition matchesBefore (i : nat) (pieces : list string) : nat :=
  List.length (filter taskMatches (firstn i pieces)).

(** A transcript with a blank piece before a task-triggering sentence. *)
Definition transcriptWithBlank : string :=
  "Kickoff went well. . Bob will lead the rollout.".

(** The same sentences with two marks in a row and a mark at the end. *)
Definition transcriptWithMarks : string :=
  "Kickoff went well.. Bob will lead the rollout.".

(** Two calls, one after the other, in the same environment. *)
Definition analyzeTwice (transcript : string) (participants : list string)
  : M (MeetingAnalysis * MeetingAnalysis) :=
  first <- analyzeMeeting transcript participants ;;
  second <- analyzeMeeting transcript participants ;;
  ret (first, second).

Definition eraseDueDate (task : Task.t) : Task.t :=
  Task.mk (Task.id task) (Task.description task) (Task.assignee task)
          "" (Task.priority task) (Task.status task).

(** An analysis with the due dates of its tasks blanked. *)
Definition withoutDueDates (r : MeetingAnalysis) : MeetingAnalysis :=
  mkAnalysis (summary r) (actionItems r) (map eraseDueDate (tasks r))
             (keyTopics r) (nextSteps r).

Definition eraseActionId (item : ActionItem.t) : ActionItem.t :=
  ActionItem.mk "" (ActionItem.description item) (ActionItem.priority item)
                (ActionItem.category item).

Definition eraseTaskIdAndDueDate (task : Task.t) : Task.t :=
  Task.mk "" (Task.description task) (Task.assignee task)
          "" (Task.priority task) (Task.status task).

(** An analysis with the ids of its action items and tasks and the due
    dates of its tasks blanked. *)
Definition withoutIdsAndDueDates (r : MeetingAnalysis) : MeetingAnalysis :=
  mkAnalysis (summary r) (map eraseActionId (actionItems r))
             (map eraseTaskIdAndDueDate (tasks r))
             (keyTopics r) (nextSteps r).

End Props.

(* ---------------------------------------------------------------------- *)
(** ** More vocabulary *)
(* ---------------------------------------------------------------------- *)

Module MoreProps.
Import AIProcessor Trace Props.

(** The value of a decimal digit. *)
Definition digitValue (c : ascii) : Z := (Z.of_N (Js.code c) - 48)%Z.

(** The number a string of decimal digits denotes, read after the number
    [v]. *)
Fixpoint decimalValueFrom (s : string) (v : Z) : Z :=
  match s with
  | EmptyString => v
  | String c s' => decimalValueFrom s' (v * 10 + digitValue c)%Z
  end.

Definition decimalValue (s : string) : Z := decimalValueFrom s 0.

(** The uuid source never returns the same value twice. *)
Definition freshUuids (w : World) : Prop :=
  forall i j, uuidSource w i = uuidSource w j -> i = j.

(** The next clock reading is past the last time value of [Date]. *)
Definition clockTooLate (w : World) : Prop :=
  (JsDate.maxTime < clockSource w (clockCalls w))%Z.

(** No piece of the transcript triggers a task. *)
Definition noTaskTrigger (transcript : string) : Prop :=
  forall sentence,
    In sentence (splitSentences transcript) -> taskMatches sentence = false.

(** The character [c] occurs in [s]. *)
Fixpoint hasChar (c : ascii) (s : string) : bool :=
  match s with
  | EmptyString => false
  | String a s' => Ascii.eqb a c || hasChar c s'
  end.

(** Every character of [s] is white space or a comma. *)
Fixpoint onlyWhiteOrCommas (s : string) : bool :=
  match s with
  | EmptyString => true
  | String c s' => (Js.isWhiteSpace c || Ascii.eqb c ",") && onlyWhiteOrCommas s'
  end.

End MoreProps.

(* ---------------------------------------------------------------------- *)
(** ** The callers: more built-ins *)
(* ---------------------------------------------------------------------- *)

Module JsMore.

(** Truthiness of a string: it is not empty. *)
Definition truthy (s : string) : bool :=
  match s with
  | EmptyString => false
  | String _ _ => true
  end.

(** [s.split(sep)] for a separator string of one character [sep]: the string
    is cut at every occurrence, empty pieces are kept, and the empty string
    splits into [[""]]. *)
Fixpoint splitOnGo (sep : ascii) (s : string) (cur : string) : list string :=
  match s with
  | EmptyString => [cur]
  | String c s' =>
      if Ascii.eqb c sep then cur :: splitOnGo sep s' EmptyString
      else splitOnGo sep s' (cur ++ String c EmptyString)
  end.

Definition splitOn (sep : ascii) (s : string) : list string :=
  splitOnGo sep s EmptyString.

(** [arr[0]] of a split, which always has a first piece. *)
Definition first (l : list string) : string :=
  match l with
  | [] => EmptyString
  | x :: _ => x
  end.

(** [n.toString()] for an integer of less than 22 digits. *)
Definition numberToString (n : Z) : string :=
  if (n <? 0)%Z then "-" ++ JsDate.decimal (Z.abs n) else JsDate.decimal n.

(** The time of day of [toISOString]: [HH:mm:ss.sss]. *)
Definition isoTimeOfDay (t : Z) : string :=
  let ms := (t mod JsDate.msPerDay)%Z in
  JsDate.padStart0 2 (JsDate.decimal (ms / 3600000)) ++ ":" ++
  JsDate.padStart0 2 (JsDate.decimal ((ms / 60000) mod 60)) ++ ":" ++
  JsDate.padStart0 2 (JsDate.decimal ((ms / 1000) mod 60)) ++ "." ++
  JsDate.padStart0 3 (JsDate.decimal (ms mod 1000)).

(** [new Date(t).toISOString()], or a RangeError when [t] is outside the
    range of [Date]. *)
Definition toISOString (t : Z) : M string :=
  if (Z.abs t <=? JsDate.maxTime)%Z
  then ret (JsDate.isoDateString t ++ "T" ++ isoTimeOfDay t ++ "Z")
  else throw RangeError.

End JsMore.

(* ---------------------------------------------------------------------- *)
(** ** InputSection: what the form submits *)
(* ---------------------------------------------------------------------- *)

Module InputSection.

(** ['text' | 'audio' | 'paste'] *)
Inductive Tab := text | audio | paste.

(** [participants.split(',').map(p => p.trim()).filter(p => p)] *)
Definition parseParticipants (participants : string) : list string :=
  filter (fun p => JsMore.truthy p)
         (map (fun p => Js.trim p) (JsMore.splitOn "," participants)).

(** The transcript made up for an audio file of name [name]. *)
Definition simulatedTranscript (name : string) : string :=
  "Audio meeting transcript from " ++ name ++
  ". Discussion covered project milestones, budget allocation, and team assignments. Action items include reviewing client requirements, preparing presentation materials, and scheduling follow-up meetings. Team leads will coordinate with respective departments to ensure timely completion of deliverables.".

(** [handleSubmit]: the arguments [onTranscriptSubmit] is called with, or
    [None] when it is not called.  [audioFile] is the name of the chosen
    file, if one was chosen. *)
Definition handleSubmit (activeTab : Tab) (audioFile : option string)
           (transcript participants : string)
  : option (string * list string) :=
  match activeTab, audioFile with
  | audio, Some name =>
      Some (simulatedTranscript name, parseParticipants participants)
  | _, _ =>
      if JsMore.truthy (Js.trim transcript)
      then Some (transcript, parseParticipants participants)
      else None
  end.

(** The [disabled] attribute of the submit button. *)
Definition submitDisabled (loading : bool) (transcript : string)
           (audioFile : option string) : bool :=
  loading ||
  (negb (JsMore.truthy (Js.trim transcript)) &&
   match audioFile with Some _ => false | None => true end).

End InputSection.

(* ---------------------------------------------------------------------- *)
(** ** DashboardPage: running the analyzer *)
(* ---------------------------------------------------------------------- *)

Module DashboardPage.

(** [Meeting] of [types/index.ts]; the optional fields are absent when left
    out of the object. *)
Record Meeting := mkMeeting {
  id : string;
  title : string;
  date : string;
  duration : string;
  participants : list string;
  transcript : string;
  meetingSummary : option string;
  meetingActionItems : option (list ActionItem.t);
  meetingTasks : option (list Task.t);
  createdAt : string
}.

(** The state of the page: [loading], [currentMeeting] and [analysis]. *)
Record State := mkState {
  loading : bool;
  currentMeeting : option Meeting;
  analysis : option MeetingAnalysis
}.

Definition defaultParticipants : list string :=
  [ "Sarah Johnson"; "Mike Chen"; "Lisa Rodriguez" ].

Section Locale.

(** [new Date(t).toLocaleDateString()] depends on the locale of the browser;
    it is a parameter. *)
Variable toLocaleDateString : Z -> string.

(** The body of the [try] block of [handleTranscriptSubmit], after the
    delay: the meeting and its analysis.  Every [new Date()] reads the
    clock. *)
Definition processMeeting (transcript : string) (participants : list string)
  : M (Meeting * MeetingAnalysis) :=
  id <- uuidv4 ;;
  titleDate <- Date_now ;;
  date <- Date_now ;;
  created <- Date_now ;;
  createdAt <- JsMore.toISOString created ;;
  let meeting :=
    mkMeeting id
              ("Meeting Analysis - " ++ toLocaleDateString titleDate)
              (toLocaleDateString date)
              "45 mins"
              (if (0 <? List.length participants)%nat then participants
               else defaultParticipants)
              transcript None None None createdAt in
  meetingAnalysis <-
    AIProcessor.analyzeMeeting transcript (DashboardPage.participants meeting) ;;
  ret (meeting, meetingAnalysis).

(** [handleTranscriptSubmit]: the state of the page once the handler has
    finished.  An error is caught and logged, and [loading] is reset in
    either case. *)
Definition handleTranscriptSubmit (transcript : string)
           (participants : list string) (st : State) (w : World) : State :=
  match processMeeting transcript participants w with
  | Ok (meeting, meetingAnalysis) _ =>
      mkState false (Some meeting) (Some meetingAnalysis)
  | Throw _ =>
      mkState false (currentMeeting st) (analysis st)
  end.

End Locale.

End DashboardPage.

(* ---------------------------------------------------------------------- *)
(** ** AuthContext: the mock session *)
(* ---------------------------------------------------------------------- *)

Module AuthContext.

(** [User] of [types/index.ts]. *)
Record User := mkUser {
  id : string;
  email : string;
  name : string;
  role : string;
  company : string
}.

(** The session: the [user] of the provider and the item stored under the
    key ['user'] of [localStorage], if there is one. *)
Record Session := mkSession {
  user : option User;
  storedUser : option string
}.

(** [isAuthenticated: !!user] *)
Definition isAuthenticated (s : Session) : bool :=
  match user s with
  | Some _ => true
  | None => false
  end.

Section Json.

(** [JSON.stringify] on a [User]; its text does not matter here. *)
Variable stringify : User -> string.

(** [login], after the delay: the value it resolves to and the session. *)
Definition login (email password : string) (s : Session) : bool * Session :=
  if Js.includes email "@" && (6 <=? String.length password)%nat then
    let userData :=
      mkUser "1" email (JsMore.first (JsMore.splitOn "@" email))
             "Project Manager" "Enterprise Solutions Inc." in
    (true, mkSession (Some userData) (Some (stringify userData)))
  else (false, s).

(** [signup], after the delay.  The clock is read only for a new user. *)
Definition signup (name email password company : string) (s : Session)
  : M (bool * Session) :=
  if JsMore.truthy name && Js.includes email "@"
     && (6 <=? String.length password)%nat && JsMore.truthy company then
    now <- Date_now ;;
    let userData :=
      mkUser (JsMore.numberToString now) email name "Team Member" company in
    ret (true, mkSession (Some userData) (Some (stringify userData)))
  else ret (false, s).

(** [logout] *)
Definition logout (s : Session) : Session := mkSession None None.

End Json.

End AuthContext.

(* ---------------------------------------------------------------------- *)
(** ** Vocabulary: a session over time *)
(* ---------------------------------------------------------------------- *)

Module AuthTrace.
Import AuthContext.

(** What a visitor can do to the session. *)
Inductive Op :=
| Login (email password : string)
| Signup (name email password company : string)
| Logout.

(** One call of the provider, keeping the session it leaves. *)
Definition step (stringify : User -> string) (op : Op) (s : Session)
  : M Session :=
  match op with
  | Login email password => ret (snd (login stringify email password s))
  | Signup name email password company =>
      r <- signup stringify name email password company s ;; ret (snd r)
  | Logout => ret (logout s)
  end.

(** The calls of [ops], one after the other. *)
Fixpoint runOps (stringify : User -> string) (ops : list Op) (s : Session)
  : M Session :=
  match ops with
  | [] => ret s
  | op :: rest => s' <- step stringify op s ;; runOps stringify rest s'
  end.

(** The stored item is the JSON text of the user, and there is none when
    there is no user. *)
Definition consistent (stringify : User -> string) (s : Session) : Prop :=
  storedUser s = option_map stringify (user s).

Definition isSignup (op : Op) : bool :=
  match op with
  | Signup _ _ _ _ => true
  | _ => false
  end.

End AuthTrace.

(** No character of [s] is white space. *)
Fixpoint noWhite (s : string) : bool :=
  match s with
  | EmptyString => true
  | String c s' => negb (Js.isWhiteSpace c) && noWhite s'
  end.

(* ---------------------------------------------------------------------- *)
(** ** The built-ins on concrete inputs *)
(* ---------------------------------------------------------------------- *)

Example split_examples :
  Js.split Js.isSentenceEnd "a. b?! c." = ["a"; " b"; " c"; ""] /\
  Js.split Js.isSentenceEnd "" = [""] /\
  Js.split Js.isSentenceEnd "...x" = [""; "x"] /\
  Js.split Js.isWhiteSpace " We  need to " = [""; "We"; "need"; "to"; ""].
Proof. repeat split; reflexivity. Qed.

Example string_examples :
  Js.trim "  a b  " = "a b" /\
  Js.trim "   " = "" /\
  Js.toLowerCase "Need To, ASAP" = "need to, asap" /\
  Js.includes "we need to go" "need to" = true /\
  Js.includes "we need" "need to" = false /\
  Js.join ". " ["a"; "b"; "c"] = "a. b. c".
Proof. repeat split; reflexivity. Qed.

Example date_examples :
  JsDate.isoDateString 0 = "1970-01-01" /\
  JsDate.isoDateString (-1) = "1969-12-31" /\
  JsDate.isoDateString 951782400000 = "2000-02-29" /\
  JsDate.isoDateString 1700000000000 = "2023-11-14" /\
  JsDate.isoDateString 253402300799999 = "9999-12-31" /\
  JsDate.isoDateString 253402300800000 = "+010000-01-01" /\
  JsDate.isoDateString (-62167219200001) = "-000001-12-31" /\
  JsDate.isoDateString JsDate.maxTime = "+275760-09-13".
Proof. repeat split; vm_compute; reflexivity. Qed.

(** The product [r * 14] is rounded before [Math.floor] sees it: just below
    9 it can round up to 9. *)
Example rounding_examples :
  JsDate.floorTimes14 0 = 0%Z /\
  JsDate.floorTimes14 (2 ^ 52) = 7%Z /\
  JsDate.floorTimes14 (2 ^ 53 - 1) = 13%Z /\
  ((5790342378047780 * 14) / 2 ^ 53 = 8 /\
   JsDate.floorTimes14 5790342378047780 = 9)%Z.
Proof. repeat split; vm_compute; reflexivity. Qed.

(* ---------------------------------------------------------------------- *)
(** ** Substrings, letter case and white space *)
(* ---------------------------------------------------------------------- *)

Module Strings.

Lemma startsWith_iff s p :
  Js.startsWith s p = true <-> exists post, s = p ++ post.
Proof.
  revert s. induction p as [|b p IH]; intros s; simpl.
  - split; [intros _; exists s; reflexivity | reflexivity].
  - destruct s as [|a s].
    + split; [discriminate | intros [post H]; discriminate].
    + rewrite andb_true_iff, Ascii.eqb_eq, IH. split.
      * intros [-> [post ->]]. exists post. reflexivity.
      * intros [post H]. injection H as -> ->. split; [reflexivity|].
        exists post. reflexivity.
Qed.

(** [includes] is the substring relation. *)
Lemma includes_iff s p :
  Js.includes s p = true <-> exists pre post, s = pre ++ p ++ post.
Proof.
  induction s as [|a s IH]; simpl.
  - rewrite orb_false_r, startsWith_iff. split.
    + intros [post H]. exists "", post. exact H.
    + intros [pre [post H]]. destruct pre; [exists post; exact H|discriminate].
  - rewrite orb_true_iff, startsWith_iff, IH. split.
    + intros [[post H]|[pre [post H]]].
      * exists "", post. exact H.
      * exists (String a pre), post. simpl. rewrite H. reflexivity.
    + intros [pre [post H]]. destruct pre as [|c pre].
      * left. exists post. exact H.
      * right. simpl in H. injection H as -> ->. exists pre, post.
        reflexivity.
Qed.

Lemma toLowerCase_app a b :
  Js.toLowerCase (a ++ b) = Js.toLowerCase a ++ Js.toLowerCase b.
Proof.
  induction a as [|c a IH]; simpl; [|rewrite IH]; reflexivity.
Qed.

(** Lower-casing works code unit by code unit, so a decomposition of the
    lower-cased string comes from one of the string itself. *)
Lemma toLowerCase_split s : forall a b,
  Js.toLowerCase s = a ++ b ->
  exists a0 b0, s = a0 ++ b0 /\ Js.toLowerCase a0 = a /\ Js.toLowerCase b0 = b.
Proof.
  induction s as [|c s IH]; intros a b H.
  - destruct a; [|discriminate]. simpl in H. subst b.
    exists "", "". repeat split.
  - destruct a as [|x a].
    + simpl in H. exists "", (String c s). repeat split. simpl. congruence.
    + simpl in H. injection H as Hx Hs. destruct (IH _ _ Hs) as (a0 & b0 & -> & Ha & Hb).
      exists (String c a0), b0. simpl. rewrite Ha, Hx. repeat split. exact Hb.
Qed.

Lemma includes_lower_iff s u :
  Js.includes (Js.toLowerCase s) u = true <-> containsIgnoringCase s u.
Proof.
  rewrite includes_iff. unfold containsIgnoringCase. split.
  - intros (pre & post & H).
    destruct (toLowerCase_split _ _ _ H) as (p0 & r0 & -> & Hp & Hr).
    destruct (toLowerCase_split _ _ _ Hr) as (m0 & q0 & -> & Hm & Hq).
    exists p0, m0, q0. split; [reflexivity | exact Hm].
  - intros (pre & mid & post & -> & <-).
    exists (Js.toLowerCase pre), (Js.toLowerCase post).
    rewrite !toLowerCase_app. reflexivity.
Qed.

Lemma trimEnd_nonwhite c s :
  Js.isWhiteSpace c = false -> Js.trimEnd (String c s) <> "".
Proof.
  intros H. simpl. destruct (Js.trimEnd s); [rewrite H|]; discriminate.
Qed.

Lemma trim_empty s : Js.trim s = "" -> allWhite s = true.
Proof.
  unfold Js.trim. induction s as [|c s IH]; [reflexivity|].
  simpl. destruct (Js.isWhiteSpace c) eqn:Hc.
  - exact IH.
  - intros H. exfalso. revert H. apply trimEnd_nonwhite. exact Hc.
Qed.

Lemma allWhite_trim s : allWhite s = true -> Js.trim s = "".
Proof.
  unfold Js.trim. induction s as [|c s IH]; [reflexivity|].
  cbn. intros H. apply andb_true_iff in H. destruct H as [Hc Hs].
  rewrite Hc. apply IH, Hs.
Qed.

Lemma lowerChar_white c :
  Js.isWhiteSpace (Js.lowerChar c) = Js.isWhiteSpace c.
Proof.
  destruct c as [[] [] [] [] [] [] [] []]; reflexivity.
Qed.

Lemma allWhite_lower s : allWhite (Js.toLowerCase s) = allWhite s.
Proof.
  induction s as [|c s IH]; simpl; [|rewrite lowerChar_white, IH]; reflexivity.
Qed.

Lemma allWhite_app a b : allWhite (a ++ b) = allWhite a && allWhite b.
Proof.
  induction a as [|c a IH]; simpl; [|rewrite IH, andb_assoc]; reflexivity.
Qed.

Lemma includes_allWhite s kw :
  allWhite s = true -> visible kw = true -> Js.includes s kw = false.
Proof.
  intros Hs Hk. destruct (Js.includes s kw) eqn:Hi; [|reflexivity].
  apply includes_iff in Hi. destruct Hi as (pre & post & ->).
  rewrite !allWhite_app in Hs. unfold visible in Hk.
  destruct (allWhite kw); [discriminate|].
  destruct (allWhite pre); discriminate.
Qed.

End Strings.

(* ---------------------------------------------------------------------- *)
(** ** The due-date offset *)
(* ---------------------------------------------------------------------- *)

Module Jitter.
Import Trace.
Open Scope Z_scope.

(** Below [2^57] the rounding drops at most four bits: it moves its argument
    by at most 8. *)
Lemma roundToDouble_near x :
  0 <= x < 2 ^ 57 -> 0 <= JsDate.roundToDouble x <= x + 8.
Proof.
  intros Hx. unfold JsDate.roundToDouble.
  destruct (Z.leb_spec (Z.log2 x - 52) 0) as [He|He]; [lia|].
  assert (Hpos : 0 < x).
  { destruct (Z.eq_dec x 0) as [->|]; [cbn in He; lia | lia]. }
  assert (Hlog : Z.log2 x < 57) by (apply Z.log2_lt_pow2; lia).
  assert (Hcases : Z.log2 x - 52 = 1 \/ Z.log2 x - 52 = 2 \/
                   Z.log2 x - 52 = 3 \/ Z.log2 x - 52 = 4) by lia.
  destruct Hcases as [E|[E|[E|E]]]; rewrite E; cbn;
    match goal with
    | |- context [if ?b then _ else _] => destruct b eqn:Hb
    end;
    try (apply orb_true_iff in Hb; destruct Hb as [Hb|Hb];
         [apply Z.ltb_lt in Hb
         |apply andb_true_iff in Hb; destruct Hb as [Hb _];
          apply Z.eqb_eq in Hb]);
    Z.div_mod_to_equations; lia.
Qed.

(** [Math.floor(Math.random() * 14)] is one of 0..13, also after the
    rounding of the product. *)
Lemma floorTimes14_bounds m :
  0 <= m < 2 ^ 53 -> 0 <= JsDate.floorTimes14 m <= 13.
Proof.
  intros Hm. unfold JsDate.floorTimes14.
  assert (Hx : 0 <= m * 14 < 2 ^ 57) by lia.
  assert (H := roundToDouble_near (m * 14) Hx).
  assert (E53 : 2 ^ 53 = 9007199254740992) by reflexivity.
  rewrite E53 in *.
  Z.div_mod_to_equations; lia.
Qed.

Lemma jitterDays_bounds m : 1 <= jitterDays m <= 14.
Proof.
  unfold jitterDays.
  assert (H : 0 <= m mod 2 ^ 53 < 2 ^ 53) by (apply Z.mod_pos_bound; lia).
  apply floorTimes14_bounds in H. lia.
Qed.

Lemma dueTime_inRange now d :
  - JsDate.maxTime <= now ->
  now + 14 * JsDate.msPerDay <= JsDate.maxTime ->
  0 <= d <= 14 ->
  Z.abs (now + d * JsDate.msPerDay) <= JsDate.maxTime.
Proof.
  unfold JsDate.maxTime, JsDate.msPerDay. intros. lia.
Qed.

End Jitter.

(* ---------------------------------------------------------------------- *)
(** ** The calendar *)
(* ---------------------------------------------------------------------- *)

Module Calendar.
Open Scope Z_scope.

(** A year has 365 days, or 366 when it is a leap year. *)
Lemma leap_length y :
  dayFromYear (y + 1) - dayFromYear y = if inLeapYear y then 366 else 365.
Proof.
  unfold dayFromYear, inLeapYear.
  destruct (Z.eqb_spec (y mod 4) 0); destruct (Z.eqb_spec (y mod 100) 0);
    destruct (Z.eqb_spec (y mod 400) 0); cbn [andb orb negb];
    Z.div_mod_to_equations; lia.
Qed.

(** The first of March is 306 days before the next first of January. *)
Lemma march_first era yoe :
  0 <= yoe <= 400 ->
  marchFirst era yoe = dayFromYear (yoe + era * 400 + 1) - 306.
Proof.
  intros H. unfold dayFromYear, marchFirst.
  replace (yoe + era * 400 + 1 - 1969) with (yoe - 1968 + (100 * era) * 4) by lia.
  replace (yoe + era * 400 + 1 - 1901) with (yoe - 1900 + (4 * era) * 100) by lia.
  replace (yoe + era * 400 + 1 - 1601) with (yoe - 1600 + era * 400) by lia.
  rewrite !Z.div_add by lia.
  assert (E4 : (yoe - 1968) / 4 = yoe / 4 - 492) by (Z.div_mod_to_equations; lia).
  assert (E100 : (yoe - 1900) / 100 = yoe / 100 - 19) by (Z.div_mod_to_equations; lia).
  assert (E400 : (yoe - 1600) / 400 = yoe / 400 - 4)
    by (Z.div_mod_to_equations; lia).
  rewrite E4, E100, E400. lia.
Qed.

(** The year of the era brackets the day of the era. *)
Lemma yoe_bracket doe :
  0 <= doe < 146097 ->
  let yoe := (doe - doe / 1460 + doe / 36524 - doe / 146096) / 365 in
  0 <= yoe <= 399 /\
  365 * yoe + yoe / 4 - yoe / 100 + yoe / 400 <= doe
  < 365 * (yoe + 1) + (yoe + 1) / 4 - (yoe + 1) / 100 + (yoe + 1) / 400.
Proof.
  intros H. cbv zeta. Z.div_mod_to_equations; lia.
Qed.

(** [civilFromDays] computes the year, month and day of the language
    standard: the year is the one whose first of January brackets the day
    (YearFromTime), the month the one whose first day brackets the day within
    the year (MonthFromTime + 1), and the day of month counts from the first
    day of that month (DateFromTime). *)
Lemma civil_spec days :
  let '(y, m, d) := JsDate.civilFromDays days in
  1 <= m <= 12 /\
  1 <= d /\
  dayFromYear y <= days < dayFromYear (y + 1) /\
  days - dayFromYear y = (d - 1) + daysBeforeMonth (inLeapYear y) m /\
  days - dayFromYear y < daysBeforeMonth (inLeapYear y) (m + 1).
Proof.
  unfold JsDate.civilFromDays.
  set (z := days + 719468).
  assert (Hz : days = z - 719468) by (subst z; lia). clearbody z. subst days.
  assert (Hdoe : 0 <= z mod 146097 < 146097) by (apply Z.mod_pos_bound; lia).
  assert (Hz : z = 146097 * (z / 146097) + z mod 146097) by (apply Z.div_mod; lia).
  set (era := z / 146097) in *. set (doe := z mod 146097) in *.
  clearbody era doe. subst z.
  pose proof (yoe_bracket doe Hdoe) as Hb. cbv zeta in Hb.
  set (yoe := (doe - doe / 1460 + doe / 36524 - doe / 146096) / 365) in *.
  clearbody yoe. destruct Hb as [Hyoe Hb].
  pose proof (march_first era yoe) as M0.
  pose proof (march_first era (yoe + 1)) as M1.
  unfold marchFirst in M0, M1.
  replace (yoe + 1 + era * 400 + 1) with (yoe + era * 400 + 1 + 1) in M1 by lia.
  assert (Y400 : yoe / 400 = 0) by (Z.div_mod_to_equations; lia).
  replace (365 * yoe + yoe / 4 - yoe / 100)
    with (365 * yoe + yoe / 4 - yoe / 100 + yoe / 400) by lia.
  clear Y400.
  set (p := 365 * yoe + yoe / 4 - yoe / 100 + yoe / 400) in *.
  set (q := 365 * (yoe + 1) + (yoe + 1) / 4 - (yoe + 1) / 100
            + (yoe + 1) / 400) in *.
  specialize (M0 ltac:(lia)). specialize (M1 ltac:(lia)).
  clearbody p q.
  set (doy := doe - p).
  assert (Hdoy : doe = doy + p) by (subst doy; lia). clearbody doy. subst doe.
  set (mp := (5 * doy + 2) / 153).
  assert (Hmpd : 153 * mp <= 5 * doy + 2 < 153 * mp + 153)
    by (subst mp; Z.div_mod_to_equations; lia).
  clearbody mp.
  pose proof (leap_length (yoe + era * 400)) as L0.
  pose proof (leap_length (yoe + era * 400 + 1)) as L1.
  remember (dayFromYear (yoe + era * 400)) as D0 eqn:HD0.
  remember (dayFromYear (yoe + era * 400 + 1)) as D1 eqn:HD1.
  remember (dayFromYear (yoe + era * 400 + 1 + 1)) as D2 eqn:HD2.
  remember (146097 * era) as k eqn:Hk.
  remember (yoe + era * 400) as Y eqn:HY.
  assert (Hdoy : 0 <= doy < D2 - D1) by lia.
  assert (Hl1 : 365 <= D2 - D1 <= 366)
    by (destruct (inLeapYear (Y + 1)); lia).
  assert (Hcase : mp = 0 \/ mp = 1 \/ mp = 2 \/ mp = 3 \/ mp = 4 \/ mp = 5 \/
                  mp = 6 \/ mp = 7 \/ mp = 8 \/ mp = 9 \/ mp = 10 \/ mp = 11)
    by lia.
  clear HY Hk.
  unfold daysBeforeMonth.
  destruct Hcase as [E|[E|[E|[E|[E|[E|[E|[E|[E|[E|[E|E]]]]]]]]]]];
    subst mp; simpl; rewrite ?Z.add_0_r; rewrite <- ?HD0, <- ?HD1, <- ?HD2;
    [ destruct (inLeapYear Y) ..
    | destruct (inLeapYear (Y + 1))
    | destruct (inLeapYear (Y + 1)) ];
    repeat split; Z.div_mod_to_equations; lia.
Qed.

Lemma dayFromYear_mono y y' : y <= y' -> dayFromYear y <= dayFromYear y'.
Proof.
  intros H. unfold dayFromYear. Z.div_mod_to_equations. lia.
Qed.

(** YearFromTime: the year of [civilFromDays] is the largest year that
    starts on or before the day. *)
Lemma civil_year_largest days :
  let '(y, m, d) := JsDate.civilFromDays days in
  dayFromYear y <= days /\
  forall y', dayFromYear y' <= days -> y' <= y.
Proof.
  pose proof (civil_spec days) as H.
  destruct (JsDate.civilFromDays days) as [[y m] d].
  destruct H as (_ & _ & [Hlo Hhi] & _). split; [exact Hlo|].
  intros y' Hy'. destruct (Z_le_gt_dec y' y) as [|Hgt]; [assumption|].
  pose proof (dayFromYear_mono (y + 1) y' ltac:(lia)). lia.
Qed.

End Calendar.

(* ---------------------------------------------------------------------- *)
(** ** The shape of a due date *)
(* ---------------------------------------------------------------------- *)

Module DateShape.
Open Scope Z_scope.

(** Month and day of month are in range on every day. *)
Lemma civil_month_day days :
  let '(y, m, d) := JsDate.civilFromDays days in
  1 <= m <= 12 /\ 1 <= d <= 31.
Proof.
  unfold JsDate.civilFromDays.
  set (z := days + 719468).
  assert (Hdoe : 0 <= z mod 146097 < 146097) by (apply Z.mod_pos_bound; lia).
  set (doe := z mod 146097) in *. clearbody doe. clear z.
  set (yoe := (doe - doe / 1460 + doe / 36524 - doe / 146096) / 365).
  set (doy := doe - (365 * yoe + yoe / 4 - yoe / 100)).
  assert (Hdoy : 0 <= doy <= 365)
    by (subst doy yoe; Z.div_mod_to_equations; lia).
  clearbody doy.
  set (mp := (5 * doy + 2) / 153).
  assert (Hmp : 0 <= mp <= 11) by (subst mp; Z.div_mod_to_equations; lia).
  assert (Hd : 1 <= doy - (153 * mp + 2) / 5 + 1 <= 31)
    by (subst mp; Z.div_mod_to_equations; lia).
  clearbody mp.
  destruct (Z.ltb_spec mp 10); split; lia.
Qed.

(** The days from 0000-01-01 to 9999-12-31 have a year of 0..9999. *)
Lemma civil_year days :
  -719528 <= days <= 2932896 ->
  let '(y, m, d) := JsDate.civilFromDays days in 0 <= y <= 9999.
Proof.
  intros Hdays. unfold JsDate.civilFromDays.
  set (z := days + 719468).
  assert (Hz : -60 <= z <= 3652364) by (subst z; lia). clearbody z.
  assert (Hera : -1 <= z / 146097 <= 24) by (Z.div_mod_to_equations; lia).
  assert (Hdoe : 0 <= z mod 146097 < 146097) by (apply Z.mod_pos_bound; lia).
  assert (Hlo : z / 146097 = -1 -> 146037 <= z mod 146097)
    by (Z.div_mod_to_equations; lia).
  assert (Hhi : z / 146097 = 24 -> z mod 146097 <= 146036)
    by (Z.div_mod_to_equations; lia).
  set (era := z / 146097) in *. set (doe := z mod 146097) in *.
  clearbody era doe. clear z Hz.
  set (yoe := (doe - doe / 1460 + doe / 36524 - doe / 146096) / 365).
  assert (Hyoe : 0 <= yoe <= 399)
    by (subst yoe; Z.div_mod_to_equations; lia).
  set (doy := doe - (365 * yoe + yoe / 4 - yoe / 100)).
  assert (Hdoy : 0 <= doy <= 365)
    by (subst doy yoe; Z.div_mod_to_equations; lia).
  assert (Hlast : 146037 <= doe -> yoe = 399 /\ 306 <= doy)
    by (subst doy yoe; Z.div_mod_to_equations; lia).
  assert (Hnot : doe <= 146036 -> yoe = 399 -> doy <= 305)
    by (subst doy yoe; Z.div_mod_to_equations; lia).
  clearbody doy yoe.
  set (mp := (5 * doy + 2) / 153).
  assert (Hmp : 0 <= mp <= 11) by (subst mp; Z.div_mod_to_equations; lia).
  assert (Hmp1 : 306 <= doy -> 10 <= mp)
    by (subst mp; Z.div_mod_to_equations; lia).
  assert (Hmp2 : doy <= 305 -> mp <= 9)
    by (subst mp; Z.div_mod_to_equations; lia).
  clearbody mp.
  destruct (Z.ltb_spec mp 10);
    match goal with |- context [?a <=? 2] => destruct (Z.leb_spec a 2) end;
    lia.
Qed.

Lemma allFrom_spec fuel : forall z p,
  allFrom fuel z p = true ->
  forall k, z <= k < z + Z.of_nat fuel -> p k = true.
Proof.
  induction fuel as [|fuel IH]; intros z p H k Hk; [lia|].
  cbn [allFrom] in H. apply andb_true_iff in H. destruct H as [Hz Hrest].
  destruct (Z.eq_dec k z) as [->|Hne]; [exact Hz|].
  apply (IH (z + 1) p Hrest). lia.
Qed.

Lemma allFrom_range n p :
  allFrom (Z.to_nat n) 0 p = true -> forall k, 0 <= k < n -> p k = true.
Proof.
  intros H k Hk. apply (allFrom_spec _ _ _ H). rewrite Z2Nat.id; lia.
Qed.

Lemma year_digits y :
  0 <= y <= 9999 -> fourDigits (JsDate.isoYear y) = true.
Proof.
  intros H.
  apply (allFrom_range 10000 (fun n => fourDigits (JsDate.isoYear n)));
    [vm_compute; reflexivity | lia].
Qed.

Lemma pad2_digits n :
  0 <= n <= 99 -> twoDigits (JsDate.padStart0 2 (JsDate.decimal n)) = true.
Proof.
  intros H.
  apply (allFrom_range 100
           (fun n => twoDigits (JsDate.padStart0 2 (JsDate.decimal n))));
    [vm_compute; reflexivity | lia].
Qed.

Lemma isIsoDate_parts y m d :
  fourDigits y = true -> twoDigits m = true -> twoDigits d = true ->
  isIsoDate (y ++ "-" ++ m ++ "-" ++ d)%string = true.
Proof.
  intros Hy Hm Hd.
  destruct y as [|y1 [|y2 [|y3 [|y4 [|]]]]]; try discriminate.
  destruct m as [|m1 [|m2 [|]]]; try discriminate.
  destruct d as [|d1 [|d2 [|]]]; try discriminate.
  cbn [fourDigits twoDigits] in Hy, Hm, Hd.
  apply andb_true_iff in Hy. destruct Hy as [Hy Hy4].
  apply andb_true_iff in Hy. destruct Hy as [Hy Hy3].
  apply andb_true_iff in Hy. destruct Hy as [Hy1 Hy2].
  apply andb_true_iff in Hm. destruct Hm as [Hm1 Hm2].
  apply andb_true_iff in Hd. destruct Hd as [Hd1 Hd2].
  cbn [String.append isIsoDate].
  rewrite Hy1, Hy2, Hy3, Hy4, Hm1, Hm2, Hd1, Hd2. reflexivity.
Qed.

(** In the years 0000..9999 the date has the shape YYYY-MM-DD. *)
Lemma isoDateString_shape t :
  fourDigitYear t -> isIsoDate (JsDate.isoDateString t) = true.
Proof.
  unfold fourDigitYear. intros Ht. unfold JsDate.isoDateString.
  assert (Hdays : -719528 <= t / JsDate.msPerDay <= 2932896).
  { unfold JsDate.msPerDay. cbn. Z.div_mod_to_equations; lia. }
  pose proof (civil_year _ Hdays) as Hy.
  pose proof (civil_month_day (t / JsDate.msPerDay)) as Hmd.
  destruct (JsDate.civilFromDays (t / JsDate.msPerDay)) as [[y m] d].
  apply isIsoDate_parts;
    [apply year_digits | apply pad2_digits | apply pad2_digits]; lia.
Qed.

End DateShape.

(* ---------------------------------------------------------------------- *)
(** ** Running the loops *)
(* ---------------------------------------------------------------------- *)

Module Run.
Import AIProcessor Trace Props.

Lemma advance_0 w : advance 0 0 0 w = w.
Proof. destruct w; reflexivity. Qed.

Lemma advance_advance u r c u' r' c' w :
  advance u r c (advance u' r' c' w) = advance (u + u') (r + r') (c + c') w.
Proof. unfold advance; simpl. f_equal; lia. Qed.

Lemma clockInRange_advance u r c w :
  clockInRange w -> clockInRange (advance u r c w).
Proof. intros H n; exact (H n). Qed.

Lemma forEachActionSentence_cons s rest acc w :
  forEachActionSentence (s :: rest) acc w =
  if actionMatches s
  then forEachActionSentence rest (acc ++ [actionItemOf (nextUuid w) s])%list
                             (advance 1 0 0 w)
  else forEachActionSentence rest acc w.
Proof.
  unfold actionMatches. cbn [forEachActionSentence].
  destruct (someIncluded actionKeywords (Js.toLowerCase s)); reflexivity.
Qed.

(** The loop of [extractActionItems] pushes one item per matching sentence,
    in order, each with the next uuid. *)
Lemma forEachActionSentence_run sentences : forall acc w,
  forEachActionSentence sentences acc w =
  Ok (acc ++ actionItemsFrom w (filter actionMatches sentences))%list
     (advance (List.length (filter actionMatches sentences)) 0 0 w).
Proof.
  induction sentences as [|s rest IH]; intros acc w.
  - cbn. rewrite app_nil_r, advance_0. reflexivity.
  - rewrite forEachActionSentence_cons. cbn [filter].
    destruct (actionMatches s) eqn:Hm.
    + rewrite IH. cbn [actionItemsFrom List.length].
      rewrite <- app_assoc, advance_advance. cbn [app].
      do 2 f_equal. lia.
    + apply IH.
Qed.

Lemma extractActionItems_run transcript w :
  extractActionItems transcript w =
  Ok (actionItemsIn w transcript) (advance (actionUuids transcript) 0 0 w).
Proof.
  unfold extractActionItems, actionItemsIn, actionUuids, bind.
  rewrite forEachActionSentence_run.
  destruct (filter actionMatches (splitSentences transcript)) as [|s rest].
  - reflexivity.
  - reflexivity.
Qed.

Lemma toISODate_run t w :
  (Z.abs t <= JsDate.maxTime)%Z ->
  JsDate.toISODate t w = Ok (JsDate.isoDateString t) w.
Proof.
  intros H. unfold JsDate.toISODate.
  destruct (Z.leb_spec (Z.abs t) JsDate.maxTime); [reflexivity | lia].
Qed.

Lemma forEachTaskSentence_cons assignees s rest index acc w :
  clockInRange w ->
  forEachTaskSentence assignees (s :: rest) index acc w =
  if taskMatches s
  then forEachTaskSentence assignees rest (S index)
         (acc ++ [taskOf assignees (nextUuid w) (nextRandom w) (nextClock w)
                         index s])%list
         (advance 1 1 1 w)
  else forEachTaskSentence assignees rest (S index) acc w.
Proof.
  intros Hc. unfold taskMatches. cbn [forEachTaskSentence].
  destruct (someIncluded taskKeywords (Js.toLowerCase s)); [|reflexivity].
  unfold bind at 1. unfold Date_now. unfold bind at 1. unfold Math_random.
  unfold bind at 1. rewrite toISODate_run.
  - reflexivity.
  - destruct (Hc (clockCalls w)) as [Hlo Hhi].
    apply Jitter.dueTime_inRange; try assumption.
    pose proof (Jitter.jitterDays_bounds (randomSource w (randomCalls w))) as Hj.
    unfold jitterDays in Hj. cbn [randomSource randomCalls]. lia.
Qed.

Lemma forEachTaskSentence_run assignees sentences : forall index acc w,
  clockInRange w ->
  forEachTaskSentence assignees sentences index acc w =
  Ok (acc ++ tasksFrom w assignees (matchedTasks index sentences))%list
     (let n := List.length (matchedTasks index sentences) in advance n n n w).
Proof.
  induction sentences as [|s rest IH]; intros index acc w Hc.
  - cbn. rewrite app_nil_r, advance_0. reflexivity.
  - rewrite forEachTaskSentence_cons by assumption.
    unfold matchedTasks. cbn [indexedFrom filter snd].
    fold (matchedTasks (S index) rest).
    destruct (taskMatches s) eqn:Hm.
    + rewrite IH by (apply clockInRange_advance; assumption).
      cbn [tasksFrom List.length].
      rewrite <- app_assoc, advance_advance. cbn [app].
      do 2 f_equal; lia.
    + apply IH; assumption.
Qed.

Lemma forEachDefaultTask_run assignees descs : forall index acc w,
  clockInRange w ->
  (List.length descs + index <= 4)%nat ->
  forEachDefaultTask assignees descs index acc w =
  Ok (acc ++ defaultTasksFrom w assignees (indexedFrom index descs))%list
     (advance (List.length descs) 0 (List.length descs) w).
Proof.
  induction descs as [|d rest IH]; intros index acc w Hc Hlen.
  - cbn. rewrite app_nil_r, advance_0. reflexivity.
  - cbn [forEachDefaultTask]. unfold bind at 1. unfold uuidv4.
    unfold bind at 1. unfold Date_now. unfold bind at 1.
    rewrite toISODate_run.
    + cbn [uuidSource uuidCalls randomSource randomCalls
                      clockSource clockCalls].
      change (mkWorld (uuidSource w) (S (uuidCalls w)) (randomSource w)
                      (randomCalls w) (clockSource w) (S (clockCalls w)))
        with (advance 1 0 1 w).
      rewrite IH; [|intros n; exact (Hc n)|cbn in Hlen; lia].
      cbn [indexedFrom defaultTasksFrom List.length].
      rewrite <- app_assoc, advance_advance. cbn [app].
      do 2 f_equal; lia.
    + cbn [clockSource clockCalls].
      destruct (Hc (clockCalls w)) as [Hlo Hhi].
      apply Jitter.dueTime_inRange; try assumption.
      cbn in Hlen. lia.
Qed.

Lemma tasksFrom_length assignees matched : forall w,
  List.length (tasksFrom w assignees matched) = List.length matched.
Proof.
  induction matched as [|[i s] rest IH]; intros w; simpl; [|rewrite IH];
    reflexivity.
Qed.

Lemma extractTasks_run transcript participants w :
  clockInRange w ->
  extractTasks transcript participants w =
  Ok (tasksIn w transcript participants)
     (let '(u, r, c) := taskReadings transcript in advance u r c w).
Proof.
  intros Hc. unfold extractTasks, tasksIn, taskReadings.
  unfold bind at 1. rewrite forEachTaskSentence_run by assumption.
  cbn [app]. unfold bind at 1.
  destruct (matchedTasks 0 (splitSentences transcript)) as [|[i s] rest].
  - cbn [tasksFrom List.length Nat.eqb]. rewrite advance_0.
    rewrite forEachDefaultTask_run; [reflexivity | assumption | cbn; lia].
  - reflexivity.
Qed.

(** The analysis [analyzeMeeting] returns in [w]. *)
Lemma analyzeMeeting_run transcript participants w :
  clockInRange w ->
  exists w',
    analyzeMeeting transcript participants w =
    Ok (let actionItems := actionItemsIn w transcript in
        let tasks := tasksIn (advance (actionUuids transcript) 0 0 w)
                             transcript participants in
        mkAnalysis (generateSummary transcript (sentencesOf transcript))
                   actionItems tasks
                   (keyTopicsOf (wordsOf transcript))
                   (generateNextSteps actionItems tasks))
       w'.
Proof.
  intros Hc. unfold analyzeMeeting. unfold bind at 1.
  rewrite extractActionItems_run. unfold bind at 1.
  rewrite extractTasks_run by (apply clockInRange_advance; assumption).
  eexists. reflexivity.
Qed.

End Run.

(* ---------------------------------------------------------------------- *)
(** ** Lists and priorities *)
(* ---------------------------------------------------------------------- *)

Import AIProcessor Trace Props Run.

Module Lists.

Lemma filter_none {A} (f : A -> bool) l :
  (forall x, In x l -> f x = false) -> filter f l = [].
Proof.
  induction l as [|x l IH]; intros H; simpl; [reflexivity|].
  rewrite (H x (or_introl eq_refl)). apply IH.
  intros y Hy. apply H. right. exact Hy.
Qed.

Lemma existsb_none {A} (f : A -> bool) l :
  (forall x, In x l -> f x = false) -> existsb f l = false.
Proof.
  induction l as [|x l IH]; intros H; simpl; [reflexivity|].
  rewrite (H x (or_introl eq_refl)). apply IH.
  intros y Hy. apply H. right. exact Hy.
Qed.

Lemma some_high_action items :
  Js.some (fun item => Priority_eqb (ActionItem.priority item) High) items
  = true <-> anyHighAction items.
Proof.
  unfold Js.some, anyHighAction. rewrite existsb_exists.
  split; intros [x [Hin Hx]]; exists x; split; try assumption.
  - destruct (ActionItem.priority x); try discriminate; reflexivity.
  - rewrite Hx. reflexivity.
Qed.

Lemma some_high_task tasks :
  Js.some (fun task => Priority_eqb (Task.priority task) High) tasks
  = true <-> anyHighTask tasks.
Proof.
  unfold Js.some, anyHighTask. rewrite existsb_exists.
  split; intros [x [Hin Hx]]; exists x; split; try assumption.
  - destruct (Task.priority x); try discriminate; reflexivity.
  - rewrite Hx. reflexivity.
Qed.

End Lists.

Lemma generateNextSteps_shape items tasks :
  exists pre post,
    generateNextSteps items tasks = (pre ++ baselineSteps ++ post)%list /\
    ((anyHighAction items /\ pre = [urgentActionStep]) \/
     (~ anyHighAction items /\ pre = [])) /\
    ((anyHighTask tasks /\ post = [urgentTaskStep]) \/
     (~ anyHighTask tasks /\ post = [])).
Proof.
  unfold generateNextSteps.
  pose proof (Lists.some_high_action items) as Ha.
  pose proof (Lists.some_high_task tasks) as Ht.
  destruct (Js.some _ items); destruct (Js.some _ tasks).
  - exists [urgentActionStep], [urgentTaskStep]. split; [reflexivity|].
    split; left; split; try reflexivity; [apply Ha|apply Ht]; reflexivity.
  - exists [urgentActionStep], []. split; [reflexivity|]. split.
    + left; split; [apply Ha|]; reflexivity.
    + right; split; [|reflexivity]. intros H. apply Ht in H. discriminate.
  - exists [], [urgentTaskStep]. split; [reflexivity|]. split.
    + right; split; [|reflexivity]. intros H. apply Ha in H. discriminate.
    + left; split; [apply Ht|]; reflexivity.
  - exists [], []. split; [reflexivity|]. split.
    + right; split; [|reflexivity]. intros H. apply Ha in H. discriminate.
    + right; split; [|reflexivity]. intros H. apply Ht in H. discriminate.
Qed.

(* ---------------------------------------------------------------------- *)
(** ** C1: the fallback content *)
(* ---------------------------------------------------------------------- *)

Lemma noTriggerb_sound transcript :
  noTriggerb transcript = true -> noTrigger transcript.
Proof.
  unfold noTriggerb, noTrigger. rewrite andb_true_iff, !forallb_forall.
  intros [Hs Hw]. split.
  - intros s Hin. specialize (Hs s Hin).
    rewrite !andb_true_iff, !negb_true_iff in Hs. tauto.
  - intros word topic keywords keyword Hin Hentry Hkw E.
    specialize (Hw word Hin). rewrite forallb_forall in Hw.
    specialize (Hw _ Hentry). rewrite forallb_forall in Hw.
    specialize (Hw _ Hkw). cbn in Hw. rewrite negb_true_iff in Hw.
    apply String.eqb_neq in Hw. contradiction.
Qed.

Lemma indexedFrom_In {A} (l : list A) : forall i k x,
  In (k, x) (indexedFrom i l) -> In x l.
Proof.
  induction l as [|y l IH]; intros i k x H; simpl in *; [contradiction|].
  destruct H as [H|H]; [left; congruence | right; eapply IH; exact H].
Qed.

Lemma keyTopics_none transcript :
  noTrigger transcript -> keyTopicsOf (wordsOf transcript) = [].
Proof.
  intros [_ Hw]. unfold keyTopicsOf.
  rewrite Lists.filter_none; [reflexivity|].
  intros [topic keywords] Hentry. cbn [snd]. apply Lists.existsb_none.
  intros keyword Hkw. apply Lists.existsb_none. intros word Hin.
  apply String.eqb_neq. intros E. symmetry in E. revert E.
  eapply Hw; eassumption.
Qed.

Lemma summary_generic transcript :
  noTrigger transcript ->
  generateSummary transcript (sentencesOf transcript) = genericSummary.
Proof.
  intros [Hs _]. unfold generateSummary.
  rewrite Lists.filter_none; [reflexivity|].
  intros s Hin. unfold sentencesOf in Hin. apply filter_In in Hin.
  apply Hs. tauto.
Qed.

Lemma actions_default transcript w :
  noTrigger transcript ->
  actionItemsIn w transcript = defaultActionItems (uuidAt w 0) (uuidAt w 1)
  /\ actionUuids transcript = 2%nat.
Proof.
  intros [Hs _]. unfold actionItemsIn, actionUuids.
  rewrite Lists.filter_none; [split; reflexivity|].
  intros s Hin. apply Hs. exact Hin.
Qed.

Lemma tasks_default transcript participants w :
  noTrigger transcript ->
  tasksIn (advance 2 0 0 w) transcript participants =
  fallbackTasks w (rosterOf participants).
Proof.
  intros [Hs _]. unfold tasksIn, matchedTasks.
  rewrite Lists.filter_none; [reflexivity|].
  intros [i s] Hin. cbn [snd]. apply indexedFrom_In in Hin.
  apply Hs. exact Hin.
Qed.

(** C1, amended.  For every transcript in which no sentence and no token
    matches an entry of a trigger table, [analyzeMeeting] returns the
    fallback content: the generic summary, the two default action items, the
    four default tasks, no topic, and the three baseline next steps followed
    by the high-priority task step (the first default task has priority
    High). *)
Theorem C1_fallback transcript participants w :
  noTrigger transcript ->
  clockInRange w ->
  exists w',
    analyzeMeeting transcript participants w
    = Ok (codeFallback w participants) w'.
Proof.
  intros Hn Hc.
  destruct (analyzeMeeting_run transcript participants w Hc) as [w' H].
  exists w'. rewrite H. f_equal. cbv zeta.
  destruct (actions_default transcript w Hn) as [Ha Hu].
  rewrite Hu, Ha, tasks_default, summary_generic, keyTopics_none
    by assumption.
  reflexivity.
Qed.

Lemma C1_fallback_witness :
  noTrigger "Good morning everyone." /\
  clockInRange sampleWorld /\
  exists w',
    analyzeMeeting "Good morning everyone." ["Sarah"; "Mike"] sampleWorld
    = Ok (codeFallback sampleWorld ["Sarah"; "Mike"]) w'.
Proof.
  assert (Hn : noTrigger "Good morning everyone.")
    by (apply noTriggerb_sound; vm_compute; reflexivity).
  assert (Hc : clockInRange sampleWorld)
    by (intros n; split; vm_compute; discriminate).
  split; [exact Hn|]. split; [exact Hc|].
  apply (C1_fallback _ _ _ Hn Hc).
Defined.

(** C1 as stated fails: with no trigger word at all, the next steps are not
    the three baseline steps alone. *)
Lemma C1_counterexample :
  noTrigger "Good morning everyone." /\
  clockInRange sampleWorld /\
  exists r w',
    analyzeMeeting "Good morning everyone." [] sampleWorld = Ok r w' /\
    nextSteps r = (baselineSteps ++ [urgentTaskStep])%list /\
    nextSteps r <> baselineSteps /\
    r <> specFallback sampleWorld [].
Proof.
  split; [apply noTriggerb_sound; vm_compute; reflexivity|].
  split; [intros n; split; vm_compute; discriminate|].
  eexists; eexists. split; [vm_compute; reflexivity|].
  split; [reflexivity|]. split; [discriminate|].
  intros E. apply (f_equal nextSteps) in E. discriminate E.
Qed.

(* ---------------------------------------------------------------------- *)
(** ** C2: bounds and first matches *)
(* ---------------------------------------------------------------------- *)

Lemma actionItemsFrom_descriptions matched : forall w,
  map ActionItem.description (actionItemsFrom w matched)
  = map Js.trim matched.
Proof.
  induction matched as [|s rest IH]; intros w; simpl; [|rewrite IH];
    reflexivity.
Qed.

Lemma tasksFrom_descriptions assignees matched : forall w,
  map Task.description (tasksFrom w assignees matched)
  = map Js.trim (map snd matched).
Proof.
  induction matched as [|[i s] rest IH]; intros w; simpl; [|rewrite IH];
    reflexivity.
Qed.

Lemma matchedTasks_sentences sentences : forall i,
  map snd (matchedTasks i sentences) = filter taskMatches sentences.
Proof.
  unfold matchedTasks.
  induction sentences as [|s rest IH]; intros i; simpl; [reflexivity|].
  destruct (taskMatches s); simpl; rewrite IH; reflexivity.
Qed.

Lemma actionItemsIn_length w transcript :
  (1 <= List.length (actionItemsIn w transcript) <= 6)%nat.
Proof.
  unfold actionItemsIn.
  destruct (filter actionMatches (splitSentences transcript)) as [|s rest].
  - simpl. lia.
  - split; [simpl; lia | apply firstn_le_length].
Qed.

Lemma tasksIn_length w transcript participants :
  (1 <= List.length (tasksIn w transcript participants) <= 5)%nat.
Proof.
  unfold tasksIn.
  destruct (matchedTasks 0 (splitSentences transcript)) as [|[i s] rest].
  - simpl. lia.
  - split; [simpl; lia | apply firstn_le_length].
Qed.



Lemma generateSummary_nonempty transcript sentences :
  generateSummary transcript sentences <> "".
Proof.
  unfold generateSummary.
  destruct (List.length _ =? 0)%nat; [discriminate|].
  destruct (Js.join _ _); discriminate.
Qed.

Lemma noTrigger_empty : noTrigger "".
Proof. apply noTriggerb_sound. reflexivity. Qed.

(* ---------------------------------------------------------------------- *)
(** ** C3: totality *)
(* ---------------------------------------------------------------------- *)

(** C3.  [analyzeMeeting] returns for every transcript and every list of
    participants, the empty ones included, as long as the due dates stay in
    the range of [Date]; the result has a summary, action items, tasks and
    next steps, and for the empty transcript it is the fallback content. *)
Theorem C3_total transcript participants w :
  clockInRange w ->
  exists r w',
    analyzeMeeting transcript participants w = Ok r w' /\
    summary r <> "" /\
    actionItems r <> [] /\
    tasks r <> [] /\
    (3 <= List.length (nextSteps r))%nat /\
    (transcript = "" -> r = codeFallback w participants).
Proof.
  intros Hc.
  destruct (analyzeMeeting_run transcript participants w Hc) as [w' H].
  eexists; exists w'. split; [exact H|].
  cbn [summary actionItems tasks nextSteps].
  split; [apply generateSummary_nonempty|].
  split.
  { pose proof (actionItemsIn_length w transcript) as L.
    destruct (actionItemsIn w transcript); [simpl in L; lia | discriminate]. }
  split.
  { pose proof (tasksIn_length (advance (actionUuids transcript) 0 0 w)
                               transcript participants) as L.
    destruct (tasksIn _ _ _); [simpl in L; lia | discriminate]. }
  split.
  { destruct (generateNextSteps_shape
                (actionItemsIn w transcript)
                (tasksIn (advance (actionUuids transcript) 0 0 w)
                         transcript participants))
      as (pre & post & E & _). rewrite E, !length_app. simpl. lia. }
  intros ->. unfold codeFallback.
  destruct (actions_default "" w noTrigger_empty) as [Ha Hu].
  rewrite Hu, Ha, tasks_default, summary_generic, keyTopics_none
    by exact noTrigger_empty.
  reflexivity.
Qed.

Lemma C3_total_witness :
  clockInRange sampleWorld /\
  exists r w',
    analyzeMeeting "" [] sampleWorld = Ok r w' /\
    summary r <> "" /\
    actionItems r <> [] /\
    tasks r <> [] /\
    (3 <= List.length (nextSteps r))%nat /\
    ("" = "" -> r = codeFallback sampleWorld []).
Proof.
  split.
  - intros n; split; vm_compute; discriminate.
  - apply C3_total. intros n; split; vm_compute; discriminate.
Defined.

(* ---------------------------------------------------------------------- *)
(** ** C4: next steps *)
(* ---------------------------------------------------------------------- *)

(** C4.  The next steps of every analysis are the three baseline steps in
    their fixed order, preceded by the urgent-action step exactly when some
    action item of the analysis has priority High, and followed by the
    urgent-task step exactly when some task of the analysis has priority
    High. *)
Theorem C4_next_steps transcript participants w :
  clockInRange w ->
  exists r w',
    analyzeMeeting transcript participants w = Ok r w' /\
    exists pre post,
      nextSteps r = (pre ++ baselineSteps ++ post)%list /\
      List.length baselineSteps = 3%nat /\
      ((anyHighAction (actionItems r) /\ pre = [urgentActionStep]) \/
       (~ anyHighAction (actionItems r) /\ pre = [])) /\
      ((anyHighTask (tasks r) /\ post = [urgentTaskStep]) \/
       (~ anyHighTask (tasks r) /\ post = [])).
Proof.
  intros Hc. destruct (analyzeMeeting_run transcript participants w Hc) as [w' H].
  eexists; exists w'. split; [exact H|].
  cbn [nextSteps actionItems tasks].
  destruct (generateNextSteps_shape
              (actionItemsIn w transcript)
              (tasksIn (advance (actionUuids transcript) 0 0 w)
                       transcript participants))
    as (pre & post & E & Hpre & Hpost).
  exists pre, post. repeat split; assumption.
Qed.

Lemma C4_next_steps_witness :
  clockInRange sampleWorld /\
  exists r w',
    analyzeMeeting "We must call the client asap. Bob will lead." [] sampleWorld = Ok r w' /\
    exists pre post,
      nextSteps r = (pre ++ baselineSteps ++ post)%list /\
      List.length baselineSteps = 3%nat /\
      ((anyHighAction (actionItems r) /\ pre = [urgentActionStep]) \/
       (~ anyHighAction (actionItems r) /\ pre = [])) /\
      ((anyHighTask (tasks r) /\ post = [urgentTaskStep]) \/
       (~ anyHighTask (tasks r) /\ post = [])).
Proof.
  split.
  - intros n; split; vm_compute; discriminate.
  - apply C4_next_steps. intros n; split; vm_compute; discriminate.
Defined.

(* ---------------------------------------------------------------------- *)
(** ** C5: round-robin assignment *)
(* ---------------------------------------------------------------------- *)

Lemma tasksFrom_assignees assignees matched : forall w,
  map Task.assignee (tasksFrom w assignees matched)
  = map (assigneeAt assignees) (map fst matched).
Proof.
  induction matched as [|[i s] rest IH]; intros w; simpl; [|rewrite IH];
    reflexivity.
Qed.

Lemma matchedTasks_cons i s rest :
  matchedTasks i (s :: rest) =
  if taskMatches s then (i, s) :: matchedTasks (S i) rest
  else matchedTasks (S i) rest.
Proof. reflexivity. Qed.

(** The positions of the task-triggering sentences are determined by
    [taskSentencesAt]. *)
Lemma matchedTasks_025 transcript :
  taskSentencesAt transcript [0; 2; 5]%nat ->
  map fst (matchedTasks 0 (splitSentences transcript)) = [0; 2; 5]%nat.
Proof.
  unfold taskSentencesAt. intros H.
  assert (Hyes : forall i, In i [0; 2; 5]%nat ->
            exists s, nth_error (splitSentences transcript) i = Some s /\
                      taskMatches s = true) by (intros i; apply H).
  assert (Hno : forall i s, ~ In i [0; 2; 5]%nat ->
            nth_error (splitSentences transcript) i = Some s ->
            taskMatches s = false).
  { intros i s Hi Hs. destruct (taskMatches s) eqn:E; [|reflexivity].
    exfalso. apply Hi. apply H. exists s. split; assumption. }
  clear H.
  destruct (Hyes 5%nat) as (s5 & H5 & M5); [simpl; tauto|].
  destruct (Hyes 2%nat) as (s2 & H2 & M2); [simpl; tauto|].
  destruct (Hyes 0%nat) as (s0 & H0 & M0); [simpl; tauto|].
  destruct (splitSentences transcript)
    as [|x0 [|x1 [|x2 [|x3 [|x4 [|x5 rest]]]]]]; try discriminate.
  simpl in H0, H2, H5. injection H0 as ->. injection H2 as ->.
  injection H5 as ->.
  assert (M1 : taskMatches x1 = false)
    by (apply (Hno 1%nat); [simpl; lia | reflexivity]).
  assert (M3 : taskMatches x3 = false)
    by (apply (Hno 3%nat); [simpl; lia | reflexivity]).
  assert (M4 : taskMatches x4 = false)
    by (apply (Hno 4%nat); [simpl; lia | reflexivity]).
  rewrite !matchedTasks_cons, M0, M1, M2, M3, M4, M5.
  unfold matchedTasks. rewrite Lists.filter_none; [reflexivity|].
  intros [k s] Hin. cbn [snd].
  assert (Hk : exists j, nth_error rest j = Some s).
  { apply indexedFrom_In in Hin. apply In_nth_error in Hin. exact Hin. }
  destruct Hk as [j Hj].
  apply (Hno (6 + j)%nat); [simpl; lia | exact Hj].
Qed.

(** C5, amended.  With participants Sarah, Mike, Lisa and a transcript whose
    task-triggering sentences sit at the positions 0, 2 and 5, the three
    tasks have the assignees roster[0 mod 3], roster[2 mod 3] and
    roster[5 mod 3], which are Sarah, Lisa and Lisa. *)
Theorem C5_assignees transcript w :
  clockInRange w ->
  taskSentencesAt transcript [0; 2; 5]%nat ->
  exists r w',
    analyzeMeeting transcript ["Sarah"; "Mike"; "Lisa"] w = Ok r w' /\
    map Task.assignee (tasks r)
    = map (fun i => nth (i mod 3) ["Sarah"; "Mike"; "Lisa"] "") [0; 2; 5]%nat
    /\
    map Task.assignee (tasks r) = ["Sarah"; "Lisa"; "Lisa"].
Proof.
  intros Hc Hpos.
  destruct (analyzeMeeting_run transcript ["Sarah"; "Mike"; "Lisa"] w Hc)
    as [w' H].
  eexists; exists w'. split; [exact H|]. cbn [tasks].
  pose proof (matchedTasks_025 transcript Hpos) as Hm.
  unfold tasksIn.
  destruct (matchedTasks 0 (splitSentences transcript)) as [|e rest] eqn:E;
    [discriminate|].
  assert (Hlen : (List.length (e :: rest) <= 5)%nat).
  { rewrite <- (length_map fst), Hm. simpl. lia. }
  rewrite firstn_all2 by (rewrite tasksFrom_length; exact Hlen).
  rewrite tasksFrom_assignees, Hm. split; reflexivity.
Qed.

Lemma taskSentencesAt_025 : taskSentencesAt transcript025 [0; 2; 5]%nat.
Proof.
  intros i. split.
  - intros (s & Hs & Hm).
    do 7 (destruct i as [|i];
          [cbn in Hs; injection Hs as <-;
           first [simpl; tauto | vm_compute in Hm; discriminate]|]).
    destruct i; discriminate.
  - intros Hin. simpl in Hin.
    destruct Hin as [<-|[<-|[<-|[]]]]; eexists; split;
      try (cbn; reflexivity); vm_compute; reflexivity.
Qed.

Lemma C5_assignees_witness :
  clockInRange sampleWorld /\
  taskSentencesAt transcript025 [0; 2; 5]%nat /\
  exists r w',
    analyzeMeeting transcript025 ["Sarah"; "Mike"; "Lisa"] sampleWorld
    = Ok r w' /\
    map Task.assignee (tasks r)
    = map (fun i => nth (i mod 3) ["Sarah"; "Mike"; "Lisa"] "") [0; 2; 5]%nat
    /\
    map Task.assignee (tasks r) = ["Sarah"; "Lisa"; "Lisa"].
Proof.
  assert (Hc : clockInRange sampleWorld)
    by (intros n; split; vm_compute; discriminate).
  split; [exact Hc|]. split; [exact taskSentencesAt_025|].
  exact (C5_assignees transcript025 sampleWorld Hc taskSentencesAt_025).
Defined.

(** C5 as stated fails: position 5 goes to roster[5 mod 3] = roster[2],
    which is Lisa and not Sarah. *)
Lemma C5_counterexample :
  taskSentencesAt transcript025 [0; 2; 5]%nat /\
  clockInRange sampleWorld /\
  exists r w',
    analyzeMeeting transcript025 ["Sarah"; "Mike"; "Lisa"] sampleWorld
    = Ok r w' /\
    map Task.assignee (tasks r) = ["Sarah"; "Lisa"; "Lisa"] /\
    map Task.assignee (tasks r) <> ["Sarah"; "Lisa"; "Sarah"].
Proof.
  split; [exact taskSentencesAt_025|].
  split; [intros n; split; vm_compute; discriminate|].
  eexists; eexists. split; [vm_compute; reflexivity|].
  split; [reflexivity | discriminate].
Qed.

(* ---------------------------------------------------------------------- *)
(** ** C6: classification of action items *)
(* ---------------------------------------------------------------------- *)

Lemma uuidAt_advance w u r c k :
  uuidAt (advance u r c w) k = uuidAt w (k + u).
Proof. unfold uuidAt, advance; simpl. f_equal. lia. Qed.

(** The [k]-th match becomes the [k]-th item, with the [k]-th uuid. *)
Lemma actionItemsFrom_nth matched : forall w k sentence,
  nth_error matched k = Some sentence ->
  nth_error (actionItemsFrom w matched) k
  = Some (actionItemOf (uuidAt w k) sentence).
Proof.
  induction matched as [|s rest IH]; intros w k sentence H.
  - destruct k; discriminate.
  - destruct k as [|k]; simpl in *.
    + injection H as ->. reflexivity.
    + rewrite (IH _ _ _ H), uuidAt_advance. do 3 f_equal. lia.
Qed.

Lemma actionCategory_client lowerSentence :
  Js.includes lowerSentence "client" = true ->
  actionCategory lowerSentence = "Client Relations".
Proof. intros H. unfold actionCategory. rewrite H. reflexivity. Qed.

(** C6.  A sentence that matches an action-trigger word and contains both
    'client' and 'budget', in any letter case, yields an action item of
    category 'Client Relations': the [k]-th such match (of the 6 kept) is the
    [k]-th item, described by the trimmed sentence.  [analyzeMeeting] returns
    these items unchanged. *)
Theorem C6_client_before_budget transcript participants w k sentence :
  nth_error (filter actionMatches (splitSentences transcript)) k
  = Some sentence ->
  (k < 6)%nat ->
  containsIgnoringCase sentence "client" ->
  containsIgnoringCase sentence "budget" ->
  exists items w' item,
    extractActionItems transcript w = Ok items w' /\
    nth_error items k = Some item /\
    ActionItem.description item = Js.trim sentence /\
    ActionItem.category item = "Client Relations" /\
    (clockInRange w ->
     exists r w'',
       analyzeMeeting transcript participants w = Ok r w'' /\
       actionItems r = items).
Proof.
  intros Hk Hlt Hclient _.
  exists (actionItemsIn w transcript), (advance (actionUuids transcript) 0 0 w),
         (actionItemOf (uuidAt w k) sentence).
  split; [apply extractActionItems_run|]. split.
  - unfold actionItemsIn.
    destruct (filter actionMatches (splitSentences transcript)) as [|s rest]
      eqn:E; [destruct k; discriminate|].
    rewrite nth_error_firstn.
    destruct (Nat.ltb_spec k 6); [|lia].
    apply actionItemsFrom_nth. exact Hk.
  - split; [reflexivity|]. split.
    + cbn [actionItemOf ActionItem.category].
      apply actionCategory_client. apply Strings.includes_lower_iff.
      exact Hclient.
    + intros Hc.
      destruct (analyzeMeeting_run transcript participants w Hc) as [w'' H].
      eexists; exists w''. split; [exact H | reflexivity].
Qed.

Lemma C6_client_before_budget_witness :
  let transcript := "Hello all. We must REVIEW the Client Budget today. Bye" in
  let sentence := " We must REVIEW the Client Budget today" in
  nth_error (filter actionMatches (splitSentences transcript)) 0
  = Some sentence /\
  (0 < 6)%nat /\
  containsIgnoringCase sentence "client" /\
  containsIgnoringCase sentence "budget" /\
  exists items w' item,
    extractActionItems transcript sampleWorld = Ok items w' /\
    nth_error items 0 = Some item /\
    ActionItem.description item = Js.trim sentence /\
    ActionItem.category item = "Client Relations" /\
    (clockInRange sampleWorld ->
     exists r w'',
       analyzeMeeting transcript [] sampleWorld = Ok r w'' /\
       actionItems r = items).
Proof.
  intros transcript sentence.
  assert (H1 : nth_error (filter actionMatches (splitSentences transcript)) 0
               = Some sentence) by (vm_compute; reflexivity).
  assert (H2 : (0 < 6)%nat) by lia.
  assert (H3 : containsIgnoringCase sentence "client")
    by (apply Strings.includes_lower_iff; vm_compute; reflexivity).
  assert (H4 : containsIgnoringCase sentence "budget")
    by (apply Strings.includes_lower_iff; vm_compute; reflexivity).
  split; [exact H1|]. split; [exact H2|]. split; [exact H3|].
  split; [exact H4|].
  exact (C6_client_before_budget transcript [] sampleWorld 0 sentence
                                 H1 H2 H3 H4).
Defined.

(* ---------------------------------------------------------------------- *)
(** ** C7: the summary *)
(* ---------------------------------------------------------------------- *)

Lemma nonBlank_false s : nonBlank s = false -> allWhite s = true.
Proof.
  unfold nonBlank. intros H. apply Strings.trim_empty.
  destruct (Js.trim s); [reflexivity | discriminate].
Qed.

(** A blank piece contains no keyword of a table of visible keywords. *)
Lemma someIncluded_blank keywords s :
  forallb visible keywords = true ->
  nonBlank s = false ->
  someIncluded keywords (Js.toLowerCase s) = false.
Proof.
  intros Hv Hb. apply Lists.existsb_none. intros kw Hin.
  apply Strings.includes_allWhite.
  - rewrite Strings.allWhite_lower. apply nonBlank_false. exact Hb.
  - rewrite forallb_forall in Hv. apply Hv. exact Hin.
Qed.

Lemma hasKeyPhrase_nonBlank s : hasKeyPhrase s = true -> nonBlank s = true.
Proof.
  intros H. destruct (nonBlank s) eqn:E; [reflexivity|].
  unfold hasKeyPhrase in H.
  rewrite someIncluded_blank in H; [discriminate | reflexivity | exact E].
Qed.

Lemma taskMatches_nonBlank s : taskMatches s = true -> nonBlank s = true.
Proof.
  intros H. destruct (nonBlank s) eqn:E; [reflexivity|].
  unfold taskMatches in H.
  rewrite someIncluded_blank in H; [discriminate | reflexivity | exact E].
Qed.

Lemma filter_filter_implied {A} (f g : A -> bool) l :
  (forall x, f x = true -> g x = true) ->
  filter f (filter g l) = filter f l.
Proof.
  intros H. induction l as [|x l IH]; simpl; [reflexivity|].
  destruct (g x) eqn:Eg; simpl.
  - destruct (f x); rewrite IH; reflexivity.
  - destruct (f x) eqn:Ef; [|exact IH].
    apply H in Ef. congruence.
Qed.

Lemma someIncluded_iff keywords s :
  someIncluded keywords (Js.toLowerCase s) = true <->
  exists keyword, In keyword keywords /\ containsIgnoringCase s keyword.
Proof.
  unfold someIncluded, Js.some. rewrite existsb_exists.
  split; intros [kw [Hin H]]; exists kw; split; try assumption;
    apply Strings.includes_lower_iff; exact H.
Qed.



Example summary_example :
  exists r w',
    analyzeMeeting
      "Hi all. We DISCUSSED the plan! Then lunch.  Sam proposed a fix? Ok. We agreed.We reviewed it. Ann suggested tea. Done"
      [] sampleWorld = Ok r w' /\
    summary r
    = "We DISCUSSED the plan. Sam proposed a fix. We agreed. We reviewed it.".
Proof. eexists; eexists. split; vm_compute; reflexivity. Qed.

(* ---------------------------------------------------------------------- *)
(** ** C8: two calls on the same input *)
(* ---------------------------------------------------------------------- *)

Lemma analyzeMeeting_run_world transcript participants w :
  clockInRange w ->
  analyzeMeeting transcript participants w =
  Ok (mkAnalysis (generateSummary transcript (sentencesOf transcript))
                 (actionItemsIn w transcript)
                 (tasksIn (advance (actionUuids transcript) 0 0 w)
                          transcript participants)
                 (keyTopicsOf (wordsOf transcript))
                 (generateNextSteps
                    (actionItemsIn w transcript)
                    (tasksIn (advance (actionUuids transcript) 0 0 w)
                             transcript participants)))
     (worldAfter transcript w).
Proof.
  intros Hc. unfold analyzeMeeting, worldAfter. unfold bind at 1.
  rewrite extractActionItems_run. unfold bind at 1.
  rewrite extractTasks_run by (apply clockInRange_advance; assumption).
  reflexivity.
Qed.

Lemma worldAfter_sources transcript w :
  uuidSource (worldAfter transcript w) = uuidSource w /\
  randomSource (worldAfter transcript w) = randomSource w /\
  clockSource (worldAfter transcript w) = clockSource w.
Proof.
  unfold worldAfter. destruct (taskReadings transcript) as [[u r] c].
  repeat split.
Qed.

Lemma clockInRange_after transcript w :
  clockInRange w -> clockInRange (worldAfter transcript w).
Proof.
  intros H n. destruct (worldAfter_sources transcript w) as (_ & _ & E).
  rewrite E. exact (H n).
Qed.

Lemma actionItemsFrom_erased matched : forall w,
  map eraseActionId (actionItemsFrom w matched)
  = map (actionItemOf "") matched.
Proof.
  induction matched as [|s rest IH]; intros w; simpl; [|rewrite IH];
    reflexivity.
Qed.

Lemma actionItemsIn_erased w1 w2 transcript :
  map eraseActionId (actionItemsIn w1 transcript)
  = map eraseActionId (actionItemsIn w2 transcript).
Proof.
  unfold actionItemsIn.
  destruct (filter actionMatches (splitSentences transcript)) as [|s rest];
    [reflexivity|].
  rewrite <- !firstn_map, !actionItemsFrom_erased. reflexivity.
Qed.

Lemma tasksFrom_erased assignees matched : forall w1 w2,
  map eraseTaskIdAndDueDate (tasksFrom w1 assignees matched)
  = map eraseTaskIdAndDueDate (tasksFrom w2 assignees matched).
Proof.
  induction matched as [|[i s] rest IH]; intros w1 w2; simpl;
    [|rewrite (IH (advance 1 1 1 w1) (advance 1 1 1 w2))]; reflexivity.
Qed.

Lemma defaultTasksFrom_erased assignees descs : forall w1 w2,
  map eraseTaskIdAndDueDate (defaultTasksFrom w1 assignees descs)
  = map eraseTaskIdAndDueDate (defaultTasksFrom w2 assignees descs).
Proof.
  induction descs as [|[i s] rest IH]; intros w1 w2; simpl;
    [|rewrite (IH (advance 1 0 1 w1) (advance 1 0 1 w2))]; reflexivity.
Qed.

Lemma tasksIn_erased w1 w2 transcript participants :
  map eraseTaskIdAndDueDate (tasksIn w1 transcript participants)
  = map eraseTaskIdAndDueDate (tasksIn w2 transcript participants).
Proof.
  unfold tasksIn.
  destruct (matchedTasks 0 (splitSentences transcript)) as [|e rest].
  - apply defaultTasksFrom_erased.
  - rewrite <- !firstn_map. f_equal. apply tasksFrom_erased.
Qed.

Lemma existsb_map_compose {A B} (f : B -> bool) (g : A -> B) l :
  existsb f (map g l) = existsb (fun x => f (g x)) l.
Proof.
  induction l as [|x l IH]; simpl; [|rewrite IH]; reflexivity.
Qed.

(** The next steps depend on the priorities only. *)
Lemma generateNextSteps_erased items tasks :
  generateNextSteps (map eraseActionId items)
                    (map eraseTaskIdAndDueDate tasks)
  = generateNextSteps items tasks.
Proof.
  unfold generateNextSteps, Js.some. rewrite !existsb_map_compose. reflexivity.
Qed.

Lemma generateNextSteps_same items1 items2 tasks1 tasks2 :
  map eraseActionId items1 = map eraseActionId items2 ->
  map eraseTaskIdAndDueDate tasks1 = map eraseTaskIdAndDueDate tasks2 ->
  generateNextSteps items1 tasks1 = generateNextSteps items2 tasks2.
Proof.
  intros Hi Ht.
  rewrite <- (generateNextSteps_erased items1 tasks1), Hi, Ht.
  apply generateNextSteps_erased.
Qed.

Lemma tasksFrom_dueDates_mocked assignees matched : forall w1 w2,
  randomSource w1 = randomSource w2 ->
  clockSource w1 = clockSource w2 ->
  mockedSources w1 ->
  map Task.dueDate (tasksFrom w1 assignees matched)
  = map Task.dueDate (tasksFrom w2 assignees matched).
Proof.
  induction matched as [|[i s] rest IH]; intros w1 w2 Hr Hk Hm;
    [reflexivity|].
  simpl. f_equal.
  - unfold nextClock, nextRandom. rewrite <- Hr, <- Hk.
    destruct Hm as [Hmr Hmc].
    rewrite (Hmr (randomCalls w1) (randomCalls w2)),
            (Hmc (clockCalls w1) (clockCalls w2)).
    reflexivity.
  - apply IH; assumption.
Qed.

Lemma defaultTasksFrom_dueDates_mocked assignees descs : forall w1 w2,
  clockSource w1 = clockSource w2 ->
  mockedSources w1 ->
  map Task.dueDate (defaultTasksFrom w1 assignees descs)
  = map Task.dueDate (defaultTasksFrom w2 assignees descs).
Proof.
  induction descs as [|[i s] rest IH]; intros w1 w2 Hk Hm; [reflexivity|].
  simpl. f_equal.
  - unfold nextClock. rewrite <- Hk. destruct Hm as [_ Hmc].
    rewrite (Hmc (clockCalls w1) (clockCalls w2)). reflexivity.
  - apply IH; assumption.
Qed.

Lemma tasksIn_dueDates_mocked w1 w2 transcript participants :
  randomSource w1 = randomSource w2 ->
  clockSource w1 = clockSource w2 ->
  mockedSources w1 ->
  map Task.dueDate (tasksIn w1 transcript participants)
  = map Task.dueDate (tasksIn w2 transcript participants).
Proof.
  intros Hr Hk Hm. unfold tasksIn.
  destruct (matchedTasks 0 (splitSentences transcript)) as [|e rest].
  - apply defaultTasksFrom_dueDates_mocked; assumption.
  - rewrite <- !firstn_map. f_equal.
    apply tasksFrom_dueDates_mocked; assumption.
Qed.

(** C8, amended.  Two calls of [analyzeMeeting] with the same transcript and
    the same participants return analyses that are identical except for the
    [id] fields of the action items and tasks (every call draws fresh uuids)
    and the [dueDate] fields of the tasks; when [Math.random()] and
    [Date.now()] are mocked to fixed values, the due dates are identical
    too. *)
Theorem C8_two_calls transcript participants w :
  clockInRange w ->
  exists first second w',
    analyzeTwice transcript participants w = Ok (first, second) w' /\
    withoutIdsAndDueDates first = withoutIdsAndDueDates second /\
    (mockedSources w ->
     map Task.dueDate (tasks first) = map Task.dueDate (tasks second)).
Proof.
  intros Hc. unfold analyzeTwice. unfold bind at 1.
  rewrite analyzeMeeting_run_world by assumption. unfold bind at 1.
  rewrite analyzeMeeting_run_world by (apply clockInRange_after; assumption).
  do 3 eexists. split; [reflexivity|].
  set (w1 := worldAfter transcript w).
  split.
  - unfold withoutIdsAndDueDates. cbn [summary actionItems tasks keyTopics nextSteps].
    f_equal.
    + apply actionItemsIn_erased.
    + apply tasksIn_erased.
    + apply generateNextSteps_same;
        [apply actionItemsIn_erased | apply tasksIn_erased].
  - intros Hm. cbn [tasks].
    destruct (worldAfter_sources transcript w) as (_ & Hr & Hk).
    apply tasksIn_dueDates_mocked; try (symmetry; assumption).
    exact Hm.
Qed.

Lemma C8_two_calls_witness :
  clockInRange sampleWorld /\
  exists first second w',
    analyzeTwice "Bob will lead the urgent review." ["Sarah"] sampleWorld
    = Ok (first, second) w' /\
    withoutIdsAndDueDates first = withoutIdsAndDueDates second /\
    (mockedSources sampleWorld ->
     map Task.dueDate (tasks first) = map Task.dueDate (tasks second)).
Proof.
  split.
  - intros n; split; vm_compute; discriminate.
  - apply C8_two_calls. intros n; split; vm_compute; discriminate.
Defined.

(** C8 as stated fails: with the random source and the clock mocked, two
    calls still differ outside the due dates, in the uuids of their items. *)
Lemma C8_counterexample :
  clockInRange sampleWorld /\
  mockedSources sampleWorld /\
  exists first second w',
    analyzeTwice "Bob will lead the urgent review." ["Sarah"] sampleWorld
    = Ok (first, second) w' /\
    map ActionItem.id (actionItems first)
    = ["00000000-0000-4000-8000-000000000000"] /\
    map ActionItem.id (actionItems second)
    = ["00000000-0000-4000-8000-000000000002"] /\
    withoutDueDates first <> withoutDueDates second.
Proof.
  split; [intros n; split; vm_compute; discriminate|].
  split; [split; reflexivity|].
  do 3 eexists. split; [vm_compute; reflexivity|].
  split; [reflexivity|]. split; [reflexivity|].
  intros E. apply (f_equal actionItems) in E. discriminate E.
Qed.

(* ---------------------------------------------------------------------- *)
(** ** C9: the due date of a matched task *)
(* ---------------------------------------------------------------------- *)

Lemma randomAt_advance w u r c k :
  randomAt (advance u r c w) k = randomAt w (k + r).
Proof. unfold randomAt, advance; simpl. f_equal. lia. Qed.

Lemma clockAt_advance w u r c k :
  clockAt (advance u r c w) k = clockAt w (k + c).
Proof. unfold clockAt, advance; simpl. f_equal. lia. Qed.

(** The [k]-th match becomes the [k]-th task, with the [k]-th reading of
    each source. *)
Lemma tasksFrom_nth assignees matched : forall w k i s,
  nth_error matched k = Some (i, s) ->
  nth_error (tasksFrom w assignees matched) k
  = Some (taskOf assignees (uuidAt w k) (randomAt w k) (clockAt w k) i s).
Proof.
  induction matched as [|[i0 s0] rest IH]; intros w k i s H.
  - destruct k; discriminate.
  - destruct k as [|k]; simpl in *.
    + injection H as -> ->. reflexivity.
    + rewrite (IH _ _ _ _ H), uuidAt_advance, randomAt_advance,
        clockAt_advance.
      replace (k + 1)%nat with (S k) by lia. reflexivity.
Qed.

Lemma matchedTasks_nonempty sentences s :
  In s sentences -> taskMatches s = true -> forall i,
  matchedTasks i sentences <> [].
Proof.
  induction sentences as [|x rest IH]; intros Hin Hm i; [contradiction|].
  rewrite matchedTasks_cons. destruct Hin as [->|Hin].
  - rewrite Hm. discriminate.
  - destruct (taskMatches x); [discriminate | apply IH; assumption].
Qed.



(** With [Math.random()] at 0.5 the due date is 8 days after the clock. *)
Example due_date_example :
  exists r w',
    analyzeMeeting "Status is fine. Bob will lead the rollout." []
                   sampleWorld = Ok r w' /\
    map Task.dueDate (tasks r) = ["2023-11-22"] /\
    JsDate.isoDateString 1700000000000 = "2023-11-14".
Proof. do 2 eexists. split; [vm_compute; reflexivity|]. split; reflexivity. Qed.

(* ---------------------------------------------------------------------- *)
(** ** C10: the index of the round robin *)
(* ---------------------------------------------------------------------- *)

Lemma filter_partition_length {A} (f : A -> bool) l :
  (List.length (filter f l)
   + List.length (filter (fun x => negb (f x)) l))%nat = List.length l.
Proof.
  induction l as [|x l IH]; simpl; [reflexivity|].
  destruct (f x); simpl; lia.
Qed.

Lemma rosterOf_nonempty participants : rosterOf participants <> [].
Proof.
  unfold rosterOf. destruct participants; simpl; discriminate.
Qed.

(** The filter behind [sentences] keeps the pieces with a character other than
    white space. *)
Lemma nonBlank_visible s : nonBlank s = visible s.
Proof.
  unfold visible. destruct (nonBlank s) eqn:E.
  - destruct (allWhite s) eqn:W; [|reflexivity].
    apply Strings.allWhite_trim in W. unfold nonBlank in E.
    rewrite W in E. discriminate.
  - rewrite (nonBlank_false s E). reflexivity.
Qed.

Lemma sentencesOf_visible transcript :
  sentencesOf transcript = filter visible (splitSentences transcript).
Proof.
  unfold sentencesOf. apply filter_ext. exact nonBlank_visible.
Qed.

(** The raw position is the position among the visible pieces plus the
    number of white pieces before. *)
Lemma raw_position pieces i :
  (i <= List.length pieces)%nat ->
  i = (visibleBefore i pieces + whiteBefore i pieces)%nat.
Proof.
  intros H. unfold visibleBefore, whiteBefore, visible.
  rewrite Nat.add_comm, filter_partition_length, length_firstn. lia.
Qed.

(** A piece kept by a filter is found in the filtered list after the kept
    pieces before it. *)
Lemma filter_position {A} (f : A -> bool) pieces : forall i s,
  nth_error pieces i = Some s ->
  f s = true ->
  nth_error (filter f pieces) (List.length (filter f (firstn i pieces)))
  = Some s.
Proof.
  induction pieces as [|p rest IH]; intros i s Hi Hs.
  - destruct i; discriminate.
  - destruct i as [|i]; simpl in *.
    + injection Hi as ->. rewrite Hs. reflexivity.
    + destruct (f p); simpl; apply IH; assumption.
Qed.

(** A task-triggering piece is recorded with its raw position, after the
    matches before it. *)
Lemma matchedTasks_at sentences : forall j i s,
  nth_error sentences i = Some s ->
  taskMatches s = true ->
  nth_error (matchedTasks j sentences) (matchesBefore i sentences)
  = Some ((j + i)%nat, s).
Proof.
  unfold matchesBefore.
  induction sentences as [|x rest IH]; intros j i s Hi Hs.
  - destruct i; discriminate.
  - rewrite matchedTasks_cons. destruct i as [|i]; simpl in Hi.
    + injection Hi as ->. rewrite Hs, Nat.add_0_r. reflexivity.
    + cbn [firstn filter].
      destruct (taskMatches x); cbn [List.length nth_error];
        rewrite (IH (S j) i s Hi Hs);
        replace (S j + i)%nat with (j + S i)%nat by lia; reflexivity.
Qed.

Lemma tasksFrom_nth_assignee assignees matched : forall w k i s,
  nth_error matched k = Some (i, s) ->
  exists task,
    nth_error (tasksFrom w assignees matched) k = Some task /\
    Task.description task = Js.trim s /\
    Task.assignee task = assigneeAt assignees i.
Proof.
  induction matched as [|[i0 s0] rest IH]; intros w k i s H.
  - destruct k; discriminate.
  - destruct k as [|k]; simpl in *.
    + injection H as -> ->. eexists. split; [reflexivity|]. split; reflexivity.
    + apply IH. exact H.
Qed.

(** After a run of marks, and after a piece that has begun, an empty piece
    can only be the last one. *)
Lemma splitGo_empty_last sep s : forall cur inRun j,
  cur <> "" \/ inRun = true ->
  nth_error (Js.splitGo sep s cur inRun) j = Some "" ->
  S j = List.length (Js.splitGo sep s cur inRun).
Proof.
  induction s as [|c s IH]; intros cur inRun j Hcur Hj.
  - cbn [Js.splitGo] in *. destruct j as [|j]; [|destruct j; discriminate].
    reflexivity.
  - cbn [Js.splitGo] in *. destruct (sep c).
    + destruct inRun.
      * apply IH; [right; reflexivity | exact Hj].
      * destruct Hcur as [Hcur | Hcur]; [|discriminate].
        destruct j as [|j]; simpl in Hj.
        -- injection Hj as Hj. contradiction.
        -- cbn [List.length]. f_equal.
           apply IH; [right; reflexivity | exact Hj].
    + apply IH; [left | exact Hj]. destruct cur; discriminate.
Qed.

(** A run of marks is one separator: the split has no empty piece except,
    possibly, its first and its last. *)
Lemma split_empty_ends sep s j :
  nth_error (Js.split sep s) j = Some "" ->
  j = 0%nat \/ S j = List.length (Js.split sep s).
Proof.
  unfold Js.split. destruct s as [|c s]; cbn [Js.splitGo].
  - destruct j as [|j]; [left; reflexivity | destruct j; discriminate].
  - destruct (sep c).
    + destruct j as [|j]; [left; reflexivity|]. simpl. intros H. right.
      f_equal. apply (splitGo_empty_last sep s "" true j);
        [right; reflexivity | exact H].
    + intros H. right.
      apply (splitGo_empty_last sep s _ false j); [left; discriminate|exact H].
Qed.

(** Moving on by a number that is not a multiple of the length of a roster
    of distinct names changes the name. *)
Lemma round_robin_shift (roster : list string) p b :
  roster <> [] ->
  NoDup roster ->
  (b mod List.length roster <> 0)%nat ->
  nth ((p + b) mod List.length roster) roster ""
  <> nth (p mod List.length roster) roster "".
Proof.
  intros Hne Hnd Hb E.
  assert (Hn : List.length roster <> 0%nat)
    by (destruct roster; [contradiction | discriminate]).
  apply (proj1 (NoDup_nth roster "") Hnd) in E;
    try (apply Nat.mod_upper_bound; exact Hn).
  apply Hb.
  rewrite Nat.Div0.add_mod in E.
  pose proof (Nat.mod_upper_bound b _ Hn) as Hlt.
  pose proof (Nat.div_mod_eq (p mod List.length roster
                              + b mod List.length roster)
                             (List.length roster)) as Hd.
  rewrite E in Hd.
  destruct ((p mod List.length roster + b mod List.length roster)
            / List.length roster)%nat as [|q]; nia.
Qed.

(** C10.  The round robin of [extractTasks] is indexed by the position of
    the sentence in the raw split of the transcript on runs of marks,
    whereas [sentences] in [analyzeMeeting] keeps only the pieces that have
    a character other than white space.  A piece of white space only (the
    empty piece included) never triggers a task, yet it occupies a
    position: a task-triggering sentence at raw position [i], with [b] such
    pieces before it, sits at position [p = i - b] among the sentences, and
    its assignee is roster[(p + b) mod n], which is another name than
    roster[p mod n] whenever the names are distinct and [b] is not a
    multiple of [n].  A run of marks is one separator: an empty piece can
    only be the first or the last piece of the split. *)
Theorem C10_raw_index transcript participants w i sentence :
  clockInRange w ->
  nth_error (splitSentences transcript) i = Some sentence ->
  taskMatches sentence = true ->
  (matchesBefore i (splitSentences transcript) < 5)%nat ->
  exists r w',
    analyzeMeeting transcript participants w = Ok r w' /\
    let pieces := splitSentences transcript in
    let roster := rosterOf participants in
    let p := visibleBefore i pieces in
    let b := whiteBefore i pieces in
    sentencesOf transcript = filter visible pieces /\
    (forall piece, allWhite piece = true -> taskMatches piece = false) /\
    (forall j, nth_error pieces j = Some "" ->
               j = 0%nat \/ S j = List.length pieces) /\
    nth_error (sentencesOf transcript) p = Some sentence /\
    i = (p + b)%nat /\
    exists task,
      nth_error (tasks r) (matchesBefore i pieces) = Some task /\
      Task.description task = Js.trim sentence /\
      Task.assignee task = nth ((p + b) mod List.length roster) roster "" /\
      (NoDup roster -> (b mod List.length roster <> 0)%nat ->
       Task.assignee task <> nth (p mod List.length roster) roster "").
Proof.
  intros Hc Hi Hm Hk.
  destruct (analyzeMeeting_run transcript participants w Hc) as [w' H].
  eexists; exists w'. split; [exact H|].
  cbv zeta. cbn [tasks].
  split; [apply sentencesOf_visible|]. split.
  { intros piece Hw. destruct (taskMatches piece) eqn:E; [|reflexivity].
    apply taskMatches_nonBlank in E. rewrite nonBlank_visible in E.
    unfold visible in E. rewrite Hw in E. discriminate. }
  split; [intros j; apply split_empty_ends|]. split.
  { rewrite sentencesOf_visible. apply filter_position; [exact Hi|].
    rewrite <- nonBlank_visible. apply taskMatches_nonBlank, Hm. }
  assert (Hraw : i = (visibleBefore i (splitSentences transcript)
                      + whiteBefore i (splitSentences transcript))%nat).
  { apply raw_position.
    apply Nat.lt_le_incl, nth_error_Some. rewrite Hi. discriminate. }
  split; [exact Hraw|].
  pose proof (matchedTasks_at (splitSentences transcript) 0 i sentence Hi Hm)
    as Hat.
  cbn [Nat.add] in Hat.
  unfold tasksIn.
  destruct (matchedTasks 0 (splitSentences transcript)) as [|e rest] eqn:E.
  { destruct (matchesBefore i (splitSentences transcript)); discriminate. }
  rewrite nth_error_firstn.
  destruct (Nat.ltb_spec (matchesBefore i (splitSentences transcript)) 5);
    [|lia].
  destruct (tasksFrom_nth_assignee (rosterOf participants) (e :: rest)
              (advance (actionUuids transcript) 0 0 w) _ i sentence Hat)
    as (task & Ht & Hd & Ha).
  exists task. split; [exact Ht|]. split; [exact Hd|].
  unfold assigneeAt in Ha. rewrite Hraw in Ha at 1.
  split; [exact Ha|].
  intros Hnd Hb. rewrite Ha.
  apply round_robin_shift;
    [apply rosterOf_nonempty | exact Hnd | exact Hb].
Qed.

Lemma C10_raw_index_witness :
  clockInRange sampleWorld /\
  nth_error (splitSentences transcriptWithBlank) 2
  = Some " Bob will lead the rollout" /\
  taskMatches " Bob will lead the rollout" = true /\
  (matchesBefore 2 (splitSentences transcriptWithBlank) < 5)%nat /\
  exists r w',
    analyzeMeeting transcriptWithBlank [] sampleWorld = Ok r w' /\
    let pieces := splitSentences transcriptWithBlank in
    sentencesOf transcriptWithBlank = filter visible pieces /\
    (forall piece, allWhite piece = true -> taskMatches piece = false) /\
    (forall j, nth_error pieces j = Some "" ->
               j = 0%nat \/ S j = List.length pieces) /\
    nth_error (sentencesOf transcriptWithBlank) 1
    = Some " Bob will lead the rollout" /\
    2%nat = (1 + 1)%nat /\
    exists task,
      nth_error (tasks r) 0 = Some task /\
      Task.description task = "Bob will lead the rollout" /\
      Task.assignee task = "Developer" /\
      NoDup defaultAssignees /\
      (1 mod 4 <> 0)%nat /\
      Task.assignee task <> "Project Manager".
Proof.
  assert (Hc : clockInRange sampleWorld)
    by (intros n; split; vm_compute; discriminate).
  assert (Hi : nth_error (splitSentences transcriptWithBlank) 2
               = Some " Bob will lead the rollout") by reflexivity.
  assert (Hm : taskMatches " Bob will lead the rollout" = true)
    by reflexivity.
  assert (Hk : (matchesBefore 2 (splitSentences transcriptWithBlank) < 5)%nat)
    by (vm_compute; lia).
  split; [exact Hc|]. split; [exact Hi|]. split; [exact Hm|].
  split; [exact Hk|].
  destruct (C10_raw_index transcriptWithBlank [] sampleWorld 2
              " Bob will lead the rollout" Hc Hi Hm Hk)
    as (r & w' & Hrun & Hs & Hw & He & Hp & Hraw & task & Ht & Hd & Ha
        & Hshift).
  exists r, w'. split; [exact Hrun|]. cbv zeta.
  split; [exact Hs|]. split; [exact Hw|]. split; [exact He|].
  split; [reflexivity|]. split; [reflexivity|].
  exists task. split; [exact Ht|].
  split; [rewrite Hd; vm_compute; reflexivity|].
  split; [rewrite Ha; vm_compute; reflexivity|].
  assert (Hnd : NoDup defaultAssignees).
  { unfold defaultAssignees.
    repeat (apply NoDup_cons; [simpl; intuition discriminate|]).
    apply NoDup_nil. }
  assert (Hmod : (1 mod 4 <> 0)%nat) by (vm_compute; discriminate).
  split; [exact Hnd|]. split; [exact Hmod|].
  intros E. apply (Hshift Hnd Hmod). rewrite E. vm_compute. reflexivity.
Defined.

(** C10 as stated fails: marks in a row and a mark at the end produce no
    empty piece that shifts a later sentence.  The two marks in a row are
    one separator, the only empty piece is the last one, and the task goes
    to the roster entry of the position the sentence has among the
    sentences. *)
Lemma C10_counterexample :
  splitSentences transcriptWithMarks
  = ["Kickoff went well"; " Bob will lead the rollout"; ""] /\
  sentencesOf transcriptWithMarks
  = ["Kickoff went well"; " Bob will lead the rollout"] /\
  whiteBefore 1 (splitSentences transcriptWithMarks) = 0%nat /\
  visibleBefore 1 (splitSentences transcriptWithMarks) = 1%nat /\
  exists r w',
    analyzeMeeting transcriptWithMarks [] sampleWorld = Ok r w' /\
    map Task.description (tasks r) = ["Bob will lead the rollout"] /\
    map Task.assignee (tasks r) = [nth 1 defaultAssignees ""] /\
    map Task.assignee (tasks r) <> [nth 2 defaultAssignees ""].
Proof.
  split; [reflexivity|]. split; [reflexivity|].
  split; [reflexivity|]. split; [reflexivity|].
  eexists; eexists. split; [vm_compute; reflexivity|].
  split; [reflexivity|]. split; [reflexivity | discriminate].
Qed.

(** The shift on a concrete transcript: the blank piece between the two
    sentences moves the task from the second to the third roster entry. *)
Example raw_index_shift :
  splitSentences transcriptWithBlank
  = ["Kickoff went well"; " "; " Bob will lead the rollout"; ""] /\
  sentencesOf transcriptWithBlank
  = ["Kickoff went well"; " Bob will lead the rollout"] /\
  exists r w',
    analyzeMeeting transcriptWithBlank [] sampleWorld = Ok r w' /\
    map Task.assignee (tasks r) = ["Developer"] /\
    nth 2 defaultAssignees "" = "Developer" /\
    nth 1 defaultAssignees "" = "Project Manager".
Proof.
  split; [reflexivity|]. split; [reflexivity|].
  eexists; eexists. split; [vm_compute; reflexivity|].
  repeat split.
Qed.

(* ---------------------------------------------------------------------- *)
(** ** Further properties *)
(* ---------------------------------------------------------------------- *)

Import MoreProps.

(* ---------------------------------------------------------------------- *)
(** ** Decimal numerals *)
(* ---------------------------------------------------------------------- *)

Module Decimal.
Open Scope Z_scope.

Lemma digitValue_digitChar d :
  0 <= d < 10 -> digitValue (JsDate.digitChar d) = d.
Proof.
  intros H.
  assert (C : d = 0 \/ d = 1 \/ d = 2 \/ d = 3 \/ d = 4 \/ d = 5 \/ d = 6 \/
              d = 7 \/ d = 8 \/ d = 9) by lia.
  destruct C as [->|[->|[->|[->|[->|[->|[->|[->|[->| ->]]]]]]]]];
    reflexivity.
Qed.

Lemma append_assoc (a b c : string) :
  ((a ++ b) ++ c = a ++ (b ++ c))%string.
Proof.
  induction a as [|x a IH]; cbn; [|rewrite IH]; reflexivity.
Qed.

Lemma append_empty (a : string) : (a ++ "")%string = a.
Proof.
  induction a as [|x a IH]; cbn; [|rewrite IH]; reflexivity.
Qed.

Lemma length_append (a b : string) :
  String.length (a ++ b) = (String.length a + String.length b)%nat.
Proof.
  induction a as [|x a IH]; cbn; [|rewrite IH]; reflexivity.
Qed.

Lemma decimalValueFrom_app a b v :
  decimalValueFrom (a ++ b) v = decimalValueFrom b (decimalValueFrom a v).
Proof.
  revert v. induction a as [|c a IH]; intros v; [reflexivity|].
  cbn. apply IH.
Qed.

(** The digits written in front of [acc] denote [n]. *)
Lemma decimalGo_value fuel : forall n acc,
  0 <= n < 10 ^ Z.of_nat (S fuel) ->
  exists ds,
    JsDate.decimalGo (S fuel) n acc = (ds ++ acc)%string /\
    forall v,
      decimalValueFrom ds v = v * 10 ^ Z.of_nat (String.length ds) + n.
Proof.
  induction fuel as [|fuel IH]; intros n acc Hn.
  - change (10 ^ Z.of_nat 1) with 10 in Hn.
    exists (String (JsDate.digitChar (n mod 10)) ""). split.
    + cbn [JsDate.decimalGo]. destruct (Z.ltb_spec n 10); [reflexivity|lia].
    + intros v. cbn [decimalValueFrom String.length].
      rewrite digitValue_digitChar by (apply Z.mod_pos_bound; lia).
      rewrite Z.mod_small by lia. change (10 ^ Z.of_nat 1) with 10. lia.
  - cbn [JsDate.decimalGo]. destruct (Z.ltb_spec n 10) as [Hlt|Hge].
    + exists (String (JsDate.digitChar (n mod 10)) ""). split;
        [reflexivity|].
      intros v. cbn [decimalValueFrom String.length].
      rewrite digitValue_digitChar by (apply Z.mod_pos_bound; lia).
      rewrite Z.mod_small by lia. change (10 ^ Z.of_nat 1) with 10. lia.
    + assert (Hq : 0 <= n / 10 < 10 ^ Z.of_nat (S fuel)).
      { replace (Z.of_nat (S (S fuel))) with (Z.of_nat (S fuel) + 1) in Hn
          by lia.
        rewrite Z.pow_add_r in Hn by lia. change (10 ^ 1) with 10 in Hn.
        split; [apply Z.div_pos; lia|].
        apply Z.div_lt_upper_bound; lia. }
      destruct (IH (n / 10) (String (JsDate.digitChar (n mod 10)) acc) Hq)
        as (ds & E & Hv).
      exists (ds ++ String (JsDate.digitChar (n mod 10)) ""). split.
      * change (JsDate.decimalGo (S fuel) (n / 10)
                  (String (JsDate.digitChar (n mod 10)) acc)
                = ((ds ++ String (JsDate.digitChar (n mod 10)) "") ++ acc)%string).
        rewrite E, append_assoc. reflexivity.
      * intros v. rewrite decimalValueFrom_app, Hv.
        cbn [decimalValueFrom].
        rewrite digitValue_digitChar by (apply Z.mod_pos_bound; lia).
        rewrite length_append. cbn [String.length].
        replace (Z.of_nat (String.length ds + 1)) with
          (Z.of_nat (String.length ds) + 1) by lia.
        rewrite Z.pow_add_r by lia. change (10 ^ 1) with 10.
        pose proof (Z.div_mod n 10 ltac:(lia)). nia.
Qed.

Lemma log2_fuel n : 0 <= n -> n < 10 ^ Z.of_nat (S (Z.to_nat (Z.log2 n))).
Proof.
  intros H. destruct (Z.eq_dec n 0) as [->|Hne]; [reflexivity|].
  pose proof (Z.log2_nonneg n) as Hl.
  replace (Z.of_nat (S (Z.to_nat (Z.log2 n)))) with (Z.log2 n + 1) by lia.
  assert (H2 : n < 2 ^ (Z.log2 n + 1)).
  { replace (Z.log2 n + 1) with (Z.succ (Z.log2 n)) by lia.
    apply Z.log2_spec. lia. }
  assert (H10 : 2 ^ (Z.log2 n + 1) <= 10 ^ (Z.log2 n + 1))
    by (apply Z.pow_le_mono_l; lia).
  lia.
Qed.

(** Reading back the decimal numeral of a number gives the number. *)
Lemma decimal_value n : 0 <= n -> decimalValue (JsDate.decimal n) = n.
Proof.
  intros H. unfold decimalValue, JsDate.decimal.
  destruct (decimalGo_value (Z.to_nat (Z.log2 n)) n "" (conj H (log2_fuel n H)))
    as (ds & E & Hv).
  rewrite E, append_empty, Hv. lia.
Qed.

Lemma zeros_value k s : decimalValue (JsDate.zeros k ++ s) = decimalValue s.
Proof.
  unfold decimalValue. rewrite decimalValueFrom_app. f_equal.
  induction k as [|k IH]; [reflexivity | exact IH].
Qed.

Lemma padded_decimal_injective width n m :
  0 <= n -> 0 <= m ->
  JsDate.padStart0 width (JsDate.decimal n)
  = JsDate.padStart0 width (JsDate.decimal m) ->
  n = m.
Proof.
  intros Hn Hm E. apply (f_equal decimalValue) in E.
  unfold JsDate.padStart0 in E.
  rewrite !zeros_value, !decimal_value in E by assumption. exact E.
Qed.

Lemma append_injective a x y : (a ++ x = a ++ y)%string -> x = y.
Proof.
  induction a as [|c a IH]; intros H; [exact H|].
  cbn in H. injection H as H. apply IH, H.
Qed.

Lemma uuidOfNat_injective i j : uuidOfNat i = uuidOfNat j -> i = j.
Proof.
  unfold uuidOfNat. intros H. apply append_injective in H.
  apply padded_decimal_injective in H; lia.
Qed.

End Decimal.

(* ---------------------------------------------------------------------- *)
(** ** Topics *)
(* ---------------------------------------------------------------------- *)

Lemma arrayIncludes_In words x :
  Js.arrayIncludes words x = true <-> In x words.
Proof.
  unfold Js.arrayIncludes. rewrite existsb_exists. split.
  - intros [y [Hin E]]. apply String.eqb_eq in E. subst. exact Hin.
  - intros Hin. exists x. split; [exact Hin | apply String.eqb_refl].
Qed.

Lemma keyTopicsOf_In words topic :
  In topic (keyTopicsOf words) <->
  exists keywords keyword,
    In (topic, keywords) topicKeywords /\ In keyword keywords /\
    In keyword words.
Proof.
  unfold keyTopicsOf. rewrite in_map_iff. split.
  - intros [[t kws] [E Hin]]. cbn [fst] in E. subst t.
    apply filter_In in Hin. destruct Hin as [Hin Hsome]. cbn [snd] in Hsome.
    unfold Js.some in Hsome. apply existsb_exists in Hsome.
    destruct Hsome as [kw [Hkw Hinc]]. apply arrayIncludes_In in Hinc.
    exists kws, kw. auto.
  - intros (kws & kw & Hin & Hkw & Hw). exists (topic, kws).
    split; [reflexivity|]. apply filter_In. split; [exact Hin|].
    cbn [snd]. unfold Js.some. apply existsb_exists. exists kw.
    split; [exact Hkw | apply arrayIncludes_In; exact Hw].
Qed.

(** The labels kept by a filter on a table without repeated labels are the
    labels of the table, in its order, that occur in the result. *)
Lemma filtered_labels {A} (f : string * A -> bool) (table : list (string * A)) :
  NoDup (map fst table) ->
  map fst (filter f table)
  = filter (fun label => existsb (String.eqb label) (map fst (filter f table)))
           (map fst table).
Proof.
  induction table as [|[k v] rest IH]; intros Hnd; [reflexivity|].
  inversion Hnd as [|? ? Hk Hrest]; subst. specialize (IH Hrest).
  cbn [filter map fst]. destruct (f (k, v)) eqn:Ef; cbn [map fst existsb].
  - rewrite String.eqb_refl. cbn [orb]. f_equal.
    rewrite IH at 1. apply filter_ext_in. intros label Hin.
    destruct (String.eqb_spec label k) as [->|Hne]; [contradiction|].
    reflexivity.
  - assert (Hnot : existsb (String.eqb k) (map fst (filter f rest)) = false).
    { apply Lists.existsb_none. intros x Hx. apply String.eqb_neq.
      intros ->. apply Hk. apply in_map_iff in Hx.
      destruct Hx as [e [E He]]. apply filter_In in He.
      apply in_map_iff. exists e. tauto. }
    rewrite Hnot. exact IH.
Qed.

(** X1.  A topic is reported exactly when one of its keywords is a whole
    token of the lower-cased transcript split on white space, and the topics
    come in the order of the topic table, each at most once, whatever their
    order in the transcript. *)
Theorem X1_key_topics transcript participants w :
  clockInRange w ->
  exists r w',
    analyzeMeeting transcript participants w = Ok r w' /\
    (forall topic,
        In topic (keyTopics r) <->
        exists keywords keyword,
          In (topic, keywords) topicKeywords /\ In keyword keywords /\
          In keyword (Js.split Js.isWhiteSpace (Js.toLowerCase transcript)))
    /\
    keyTopics r
    = filter (fun label => existsb (String.eqb label) (keyTopics r))
             [ "project management"; "budget & finance"; "team coordination";
               "client relations"; "technical discussion" ].
Proof.
  intros Hc. rewrite (analyzeMeeting_run_world _ _ _ Hc).
  do 2 eexists. split; [reflexivity|]. cbn [keyTopics]. split.
  - intros topic. apply keyTopicsOf_In.
  - unfold keyTopicsOf. change (fun entry : string * list string => fst entry)
      with (@fst string (list string)).
    apply (filtered_labels _ topicKeywords).
    repeat constructor; cbn; intuition discriminate.
Qed.

Lemma X1_key_topics_witness :
  clockInRange sampleWorld /\
  exists r w',
    analyzeMeeting "The CLIENT asked about cost and the project budgets."
                   [] sampleWorld = Ok r w' /\
    (forall topic,
        In topic (keyTopics r) <->
        exists keywords keyword,
          In (topic, keywords) topicKeywords /\ In keyword keywords /\
          In keyword
             (Js.split Js.isWhiteSpace
                (Js.toLowerCase
                   "The CLIENT asked about cost and the project budgets.")))
    /\
    keyTopics r
    = filter (fun label => existsb (String.eqb label) (keyTopics r))
             [ "project management"; "budget & finance"; "team coordination";
               "client relations"; "technical discussion" ].
Proof.
  split.
  - intros n; split; vm_compute; discriminate.
  - apply X1_key_topics. intros n; split; vm_compute; discriminate.
Defined.

(* ---------------------------------------------------------------------- *)
(** ** Priority and category of the items *)
(* ---------------------------------------------------------------------- *)

(** The [k]-th action-triggering sentence becomes the [k]-th item of the
    result, up to the cut at 6. *)
Lemma actionItemsIn_nth w transcript k sentence :
  nth_error (filter actionMatches (splitSentences transcript)) k
  = Some sentence ->
  (k < 6)%nat ->
  nth_error (actionItemsIn w transcript) k
  = Some (actionItemOf (uuidAt w k) sentence).
Proof.
  intros Hk Hlt. unfold actionItemsIn.
  destruct (filter actionMatches (splitSentences transcript)) as [|s rest]
    eqn:E; [destruct k; discriminate|].
  rewrite nth_error_firstn. destruct (Nat.ltb_spec k 6); [|lia].
  apply actionItemsFrom_nth. exact Hk.
Qed.

(** The [k]-th task-triggering sentence becomes the [k]-th task of the
    result, up to the cut at 5. *)
Lemma tasksIn_nth w transcript participants k i sentence :
  nth_error (matchedTasks 0 (splitSentences transcript)) k
  = Some (i, sentence) ->
  (k < 5)%nat ->
  nth_error (tasksIn w transcript participants) k
  = Some (taskOf (rosterOf participants) (uuidAt w k) (randomAt w k)
                 (clockAt w k) i sentence).
Proof.
  intros Hk Hlt. unfold tasksIn.
  destruct (matchedTasks 0 (splitSentences transcript)) as [|e rest]
    eqn:E; [destruct k; discriminate|].
  rewrite nth_error_firstn. destruct (Nat.ltb_spec k 5); [|lia].
  apply tasksFrom_nth. exact Hk.
Qed.

Lemma includes_lower_false s u :
  Js.includes (Js.toLowerCase s) u = false <-> ~ containsIgnoringCase s u.
Proof.
  rewrite <- Strings.includes_lower_iff.
  destruct (Js.includes (Js.toLowerCase s) u); split; intros H;
    try reflexivity; try discriminate; try (intros F; discriminate).
  exfalso. apply H. reflexivity.
Qed.

Lemma actionPriority_spec s :
  let p := actionPriority (Js.toLowerCase s) in
  (p = High <->
   containsIgnoringCase s "urgent" \/ containsIgnoringCase s "asap") /\
  (p = Medium <->
   ~ containsIgnoringCase s "urgent" /\ ~ containsIgnoringCase s "asap" /\
   containsIgnoringCase s "important") /\
  (p = Low <->
   ~ containsIgnoringCase s "urgent" /\ ~ containsIgnoringCase s "asap" /\
   ~ containsIgnoringCase s "important").
Proof.
  cbv zeta. unfold actionPriority.
  rewrite <- !includes_lower_false, <- !Strings.includes_lower_iff.
  destruct (Js.includes (Js.toLowerCase s) "urgent");
    destruct (Js.includes (Js.toLowerCase s) "asap");
    destruct (Js.includes (Js.toLowerCase s) "important"); cbn;
    intuition (try discriminate; try reflexivity).
Qed.

Lemma taskPriority_spec s :
  let p := taskPriority (Js.toLowerCase s) in
  (p = High <->
   containsIgnoringCase s "urgent" \/ containsIgnoringCase s "critical") /\
  (p = Medium <->
   ~ containsIgnoringCase s "urgent" /\ ~ containsIgnoringCase s "critical" /\
   containsIgnoringCase s "important") /\
  (p = Low <->
   ~ containsIgnoringCase s "urgent" /\ ~ containsIgnoringCase s "critical" /\
   ~ containsIgnoringCase s "important").
Proof.
  cbv zeta. unfold taskPriority.
  rewrite <- !includes_lower_false, <- !Strings.includes_lower_iff.
  destruct (Js.includes (Js.toLowerCase s) "urgent");
    destruct (Js.includes (Js.toLowerCase s) "critical");
    destruct (Js.includes (Js.toLowerCase s) "important"); cbn;
    intuition (try discriminate; try reflexivity).
Qed.

Lemma actionCategory_spec s :
  let c := actionCategory (Js.toLowerCase s) in
  (c = "Client Relations" <-> containsIgnoringCase s "client") /\
  (c = "Budget & Finance" <->
   ~ containsIgnoringCase s "client" /\ containsIgnoringCase s "budget") /\
  (c = "Technical" <->
   ~ containsIgnoringCase s "client" /\ ~ containsIgnoringCase s "budget" /\
   containsIgnoringCase s "technical") /\
  (c = "General" <->
   ~ containsIgnoringCase s "client" /\ ~ containsIgnoringCase s "budget" /\
   ~ containsIgnoringCase s "technical").
Proof.
  cbv zeta. unfold actionCategory.
  rewrite <- !includes_lower_false, <- !Strings.includes_lower_iff.
  destruct (Js.includes (Js.toLowerCase s) "client");
    destruct (Js.includes (Js.toLowerCase s) "budget");
    destruct (Js.includes (Js.toLowerCase s) "technical");
    intuition (try discriminate; try reflexivity).
Qed.

(** X2.  The priority of the item made from an action-triggering sentence
    is High exactly when the sentence contains 'urgent' or 'asap' in any
    letter case, Medium exactly when it contains neither but 'important',
    and Low otherwise. *)
Theorem X2_action_priority transcript participants w k sentence :
  clockInRange w ->
  nth_error (filter actionMatches (splitSentences transcript)) k
  = Some sentence ->
  (k < 6)%nat ->
  exists r w' item,
    analyzeMeeting transcript participants w = Ok r w' /\
    nth_error (actionItems r) k = Some item /\
    ActionItem.description item = Js.trim sentence /\
    (ActionItem.priority item = High <->
     containsIgnoringCase sentence "urgent" \/
     containsIgnoringCase sentence "asap") /\
    (ActionItem.priority item = Medium <->
     ~ containsIgnoringCase sentence "urgent" /\
     ~ containsIgnoringCase sentence "asap" /\
     containsIgnoringCase sentence "important") /\
    (ActionItem.priority item = Low <->
     ~ containsIgnoringCase sentence "urgent" /\
     ~ containsIgnoringCase sentence "asap" /\
     ~ containsIgnoringCase sentence "important").
Proof.
  intros Hc Hk Hlt. rewrite (analyzeMeeting_run_world _ _ _ Hc).
  do 3 eexists. split; [reflexivity|]. cbn [actionItems].
  split; [apply actionItemsIn_nth; eassumption|].
  split; [reflexivity|]. exact (actionPriority_spec sentence).
Qed.

Lemma X2_action_priority_witness :
  let transcript := "We must fix it ASAP. Bob will lead." in
  let sentence := "We must fix it ASAP" in
  clockInRange sampleWorld /\
  nth_error (filter actionMatches (splitSentences transcript)) 0
  = Some sentence /\
  (0 < 6)%nat /\
  exists r w' item,
    analyzeMeeting transcript [] sampleWorld = Ok r w' /\
    nth_error (actionItems r) 0 = Some item /\
    ActionItem.description item = Js.trim sentence /\
    (ActionItem.priority item = High <->
     containsIgnoringCase sentence "urgent" \/
     containsIgnoringCase sentence "asap") /\
    (ActionItem.priority item = Medium <->
     ~ containsIgnoringCase sentence "urgent" /\
     ~ containsIgnoringCase sentence "asap" /\
     containsIgnoringCase sentence "important") /\
    (ActionItem.priority item = Low <->
     ~ containsIgnoringCase sentence "urgent" /\
     ~ containsIgnoringCase sentence "asap" /\
     ~ containsIgnoringCase sentence "important").
Proof.
  intros transcript sentence.
  assert (Hc : clockInRange sampleWorld)
    by (intros n; split; vm_compute; discriminate).
  assert (Hk : nth_error (filter actionMatches (splitSentences transcript)) 0
               = Some sentence) by (vm_compute; reflexivity).
  assert (Hlt : (0 < 6)%nat) by lia.
  split; [exact Hc|]. split; [exact Hk|]. split; [exact Hlt|].
  exact (X2_action_priority transcript [] sampleWorld 0 sentence Hc Hk Hlt).
Defined.

(** X3.  The category of the item made from an action-triggering sentence
    is decided in the order client, budget, technical: 'Budget & Finance'
    needs 'budget' without 'client', 'Technical' needs 'technical' without
    both, 'General' is what remains, and 'Communication' is never given to
    such an item. *)
Theorem X3_action_category transcript participants w k sentence :
  clockInRange w ->
  nth_error (filter actionMatches (splitSentences transcript)) k
  = Some sentence ->
  (k < 6)%nat ->
  exists r w' item,
    analyzeMeeting transcript participants w = Ok r w' /\
    nth_error (actionItems r) k = Some item /\
    ActionItem.description item = Js.trim sentence /\
    (ActionItem.category item = "Client Relations" <->
     containsIgnoringCase sentence "client") /\
    (ActionItem.category item = "Budget & Finance" <->
     ~ containsIgnoringCase sentence "client" /\
     containsIgnoringCase sentence "budget") /\
    (ActionItem.category item = "Technical" <->
     ~ containsIgnoringCase sentence "client" /\
     ~ containsIgnoringCase sentence "budget" /\
     containsIgnoringCase sentence "technical") /\
    (ActionItem.category item = "General" <->
     ~ containsIgnoringCase sentence "client" /\
     ~ containsIgnoringCase sentence "budget" /\
     ~ containsIgnoringCase sentence "technical") /\
    ActionItem.category item <> "Communication".
Proof.
  intros Hc Hk Hlt. rewrite (analyzeMeeting_run_world _ _ _ Hc).
  do 3 eexists. split; [reflexivity|]. cbn [actionItems].
  split; [apply actionItemsIn_nth; eassumption|].
  split; [reflexivity|].
  cbn [actionItemOf ActionItem.category].
  pose proof (actionCategory_spec sentence) as H. cbv zeta in H.
  destruct H as (H1 & H2 & H3 & H4).
  repeat (split; [assumption|]).
  unfold actionCategory.
  destruct (Js.includes _ "client"); [discriminate|].
  destruct (Js.includes _ "budget"); [discriminate|].
  destruct (Js.includes _ "technical"); discriminate.
Qed.

Lemma X3_action_category_witness :
  let transcript := "Review the technical BUDGET today. Bob will lead." in
  let sentence := "Review the technical BUDGET today" in
  clockInRange sampleWorld /\
  nth_error (filter actionMatches (splitSentences transcript)) 0
  = Some sentence /\
  (0 < 6)%nat /\
  exists r w' item,
    analyzeMeeting transcript [] sampleWorld = Ok r w' /\
    nth_error (actionItems r) 0 = Some item /\
    ActionItem.description item = Js.trim sentence /\
    (ActionItem.category item = "Client Relations" <->
     containsIgnoringCase sentence "client") /\
    (ActionItem.category item = "Budget & Finance" <->
     ~ containsIgnoringCase sentence "client" /\
     containsIgnoringCase sentence "budget") /\
    (ActionItem.category item = "Technical" <->
     ~ containsIgnoringCase sentence "client" /\
     ~ containsIgnoringCase sentence "budget" /\
     containsIgnoringCase sentence "technical") /\
    (ActionItem.category item = "General" <->
     ~ containsIgnoringCase sentence "client" /\
     ~ containsIgnoringCase sentence "budget" /\
     ~ containsIgnoringCase sentence "technical") /\
    ActionItem.category item <> "Communication".
Proof.
  intros transcript sentence.
  assert (Hc : clockInRange sampleWorld)
    by (intros n; split; vm_compute; discriminate).
  assert (Hk : nth_error (filter actionMatches (splitSentences transcript)) 0
               = Some sentence) by (vm_compute; reflexivity).
  assert (Hlt : (0 < 6)%nat) by lia.
  split; [exact Hc|]. split; [exact Hk|]. split; [exact Hlt|].
  exact (X3_action_category transcript [] sampleWorld 0 sentence Hc Hk Hlt).
Defined.

(** X4.  The priority of the task made from a task-triggering sentence is
    High exactly when the sentence contains 'urgent' or 'critical' in any
    letter case ('asap' does not count here), Medium exactly when it
    contains neither but 'important', and Low otherwise. *)
Theorem X4_task_priority transcript participants w k i sentence :
  clockInRange w ->
  nth_error (matchedTasks 0 (splitSentences transcript)) k
  = Some (i, sentence) ->
  (k < 5)%nat ->
  exists r w' task,
    analyzeMeeting transcript participants w = Ok r w' /\
    nth_error (tasks r) k = Some task /\
    Task.description task = Js.trim sentence /\
    (Task.priority task = High <->
     containsIgnoringCase sentence "urgent" \/
     containsIgnoringCase sentence "critical") /\
    (Task.priority task = Medium <->
     ~ containsIgnoringCase sentence "urgent" /\
     ~ containsIgnoringCase sentence "critical" /\
     containsIgnoringCase sentence "important") /\
    (Task.priority task = Low <->
     ~ containsIgnoringCase sentence "urgent" /\
     ~ containsIgnoringCase sentence "critical" /\
     ~ containsIgnoringCase sentence "important").
Proof.
  intros Hc Hk Hlt. rewrite (analyzeMeeting_run_world _ _ _ Hc).
  do 3 eexists. split; [reflexivity|]. cbn [tasks].
  split; [apply tasksIn_nth; eassumption|].
  split; [reflexivity|]. exact (taskPriority_spec sentence).
Qed.

Lemma X4_task_priority_witness :
  let transcript := "Hello. Ann must handle this asap, it is Critical." in
  let sentence := " Ann must handle this asap, it is Critical" in
  clockInRange sampleWorld /\
  nth_error (matchedTasks 0 (splitSentences transcript)) 0
  = Some (1%nat, sentence) /\
  (0 < 5)%nat /\
  exists r w' task,
    analyzeMeeting transcript [] sampleWorld = Ok r w' /\
    nth_error (tasks r) 0 = Some task /\
    Task.description task = Js.trim sentence /\
    (Task.priority task = High <->
     containsIgnoringCase sentence "urgent" \/
     containsIgnoringCase sentence "critical") /\
    (Task.priority task = Medium <->
     ~ containsIgnoringCase sentence "urgent" /\
     ~ containsIgnoringCase sentence "critical" /\
     containsIgnoringCase sentence "important") /\
    (Task.priority task = Low <->
     ~ containsIgnoringCase sentence "urgent" /\
     ~ containsIgnoringCase sentence "critical" /\
     ~ containsIgnoringCase sentence "important").
Proof.
  intros transcript sentence.
  assert (Hc : clockInRange sampleWorld)
    by (intros n; split; vm_compute; discriminate).
  assert (Hk : nth_error (matchedTasks 0 (splitSentences transcript)) 0
               = Some (1%nat, sentence)) by (vm_compute; reflexivity).
  assert (Hlt : (0 < 5)%nat) by lia.
  split; [exact Hc|]. split; [exact Hk|]. split; [exact Hlt|].
  exact (X4_task_priority transcript [] sampleWorld 0 1 sentence Hc Hk Hlt).
Defined.

(* ---------------------------------------------------------------------- *)
(** ** Invariants of the tasks and items *)
(* ---------------------------------------------------------------------- *)

Lemma In_firstn {A} n (l : list A) x : In x (firstn n l) -> In x l.
Proof.
  revert l. induction n as [|n IH]; intros [|y l] H; simpl in *;
    try contradiction. destruct H as [H|H]; [left; exact H | right; auto].
Qed.

Lemma rosterOf_cases participants :
  (participants = [] /\ rosterOf participants = defaultAssignees) \/
  (participants <> [] /\ rosterOf participants = participants).
Proof.
  destruct participants; [left | right]; split; try reflexivity;
    discriminate.
Qed.

Lemma assigneeAt_In assignees index :
  assignees <> [] -> In (assigneeAt assignees index) assignees.
Proof.
  intros H. unfold assigneeAt. apply nth_In. apply Nat.mod_upper_bound.
  destruct assignees; [contradiction | simpl; lia].
Qed.

Lemma tasksFrom_invariant assignees matched : forall w task,
  assignees <> [] ->
  In task (tasksFrom w assignees matched) ->
  Task.status task = Pending /\ In (Task.assignee task) assignees.
Proof.
  induction matched as [|[i s] rest IH]; intros w task Hne Hin;
    [contradiction|].
  destruct Hin as [<-|Hin].
  - split; [reflexivity | apply assigneeAt_In; exact Hne].
  - eapply IH; eassumption.
Qed.

Lemma defaultTasksFrom_invariant assignees descs : forall w task,
  assignees <> [] ->
  In task (defaultTasksFrom w assignees descs) ->
  Task.status task = Pending /\ In (Task.assignee task) assignees.
Proof.
  induction descs as [|[i s] rest IH]; intros w task Hne Hin;
    [contradiction|].
  destruct Hin as [<-|Hin].
  - split; [reflexivity | apply assigneeAt_In; exact Hne].
  - eapply IH; eassumption.
Qed.

Lemma tasksIn_invariant w transcript participants task :
  In task (tasksIn w transcript participants) ->
  Task.status task = Pending /\
  In (Task.assignee task) (rosterOf participants).
Proof.
  unfold tasksIn.
  destruct (matchedTasks 0 (splitSentences transcript)) as [|e rest].
  - apply defaultTasksFrom_invariant, rosterOf_nonempty.
  - intros H. apply In_firstn in H. revert H.
    apply tasksFrom_invariant, rosterOf_nonempty.
Qed.

(** X5.  Every task of every analysis has status Pending and an assignee
    taken from the participants, or from the four default roles when no
    participant is given. *)
Theorem X5_task_invariants transcript participants w :
  clockInRange w ->
  exists r w',
    analyzeMeeting transcript participants w = Ok r w' /\
    forall task,
      In task (tasks r) ->
      Task.status task = Pending /\
      (participants <> [] -> In (Task.assignee task) participants) /\
      (participants = [] ->
       In (Task.assignee task)
          [ "Team Lead"; "Project Manager"; "Developer"; "Analyst" ]).
Proof.
  intros Hc. rewrite (analyzeMeeting_run_world _ _ _ Hc).
  do 2 eexists. split; [reflexivity|]. cbn [tasks]. intros task Hin.
  apply tasksIn_invariant in Hin. destruct Hin as [Hs Ha].
  split; [exact Hs|].
  destruct (rosterOf_cases participants) as [[E R]|[E R]]; rewrite R in Ha;
    split; intros H; try exact Ha; congruence.
Qed.

Lemma X5_task_invariants_witness :
  clockInRange sampleWorld /\
  exists r w',
    analyzeMeeting transcript025 ["Sarah"; "Mike"] sampleWorld = Ok r w' /\
    forall task,
      In task (tasks r) ->
      Task.status task = Pending /\
      (["Sarah"; "Mike"] <> [] ->
       In (Task.assignee task) ["Sarah"; "Mike"]) /\
      (["Sarah"; "Mike"] = [] ->
       In (Task.assignee task)
          [ "Team Lead"; "Project Manager"; "Developer"; "Analyst" ]).
Proof.
  split.
  - intros n; split; vm_compute; discriminate.
  - apply X5_task_invariants. intros n; split; vm_compute; discriminate.
Defined.

(* ---------------------------------------------------------------------- *)
(** ** Descriptions are trimmed *)
(* ---------------------------------------------------------------------- *)

Lemma trimStart_fixed c s :
  Js.isWhiteSpace c = false -> Js.trimStart (String c s) = String c s.
Proof. intros H. simpl. rewrite H. reflexivity. Qed.

Lemma trimStart_shape s :
  Js.trimStart s = "" \/
  exists c r, Js.trimStart s = String c r /\ Js.isWhiteSpace c = false.
Proof.
  induction s as [|c s IH]; [left; reflexivity|].
  simpl. destruct (Js.isWhiteSpace c) eqn:E; [exact IH|].
  right. exists c, s. split; [reflexivity | exact E].
Qed.

Lemma trimEnd_idempotent s : Js.trimEnd (Js.trimEnd s) = Js.trimEnd s.
Proof.
  induction s as [|c s IH]; [reflexivity|].
  simpl. destruct (Js.trimEnd s) as [|d r] eqn:E.
  - destruct (Js.isWhiteSpace c) eqn:Ec; [reflexivity|].
    simpl. rewrite Ec. reflexivity.
  - change (Js.trimEnd (String c (String d r)))
      with (match Js.trimEnd (String d r) with
            | "" => if Js.isWhiteSpace c then "" else String c ""
            | x => String c x
            end).
    rewrite IH. reflexivity.
Qed.

Lemma trimEnd_head c s :
  Js.isWhiteSpace c = false ->
  exists r, Js.trimEnd (String c s) = String c r.
Proof.
  intros H. simpl. destruct (Js.trimEnd s) as [|d r].
  - rewrite H. exists "". reflexivity.
  - exists (String d r). reflexivity.
Qed.

(** [trim] leaves a trimmed string as it is. *)
Lemma trim_idempotent s : Js.trim (Js.trim s) = Js.trim s.
Proof.
  unfold Js.trim. destruct (trimStart_shape s) as [E|(c & r & E & Hc)];
    rewrite E.
  - reflexivity.
  - destruct (trimEnd_head c r Hc) as [r' E'].
    rewrite E', trimStart_fixed by exact Hc. rewrite <- E'.
    apply trimEnd_idempotent.
Qed.

Lemma nonBlank_trim s : nonBlank s = true -> Js.trim s <> "".
Proof.
  unfold nonBlank. intros H E. rewrite E in H. discriminate.
Qed.

Lemma actionMatches_nonBlank s : actionMatches s = true -> nonBlank s = true.
Proof.
  intros H. destruct (nonBlank s) eqn:E; [reflexivity|].
  unfold actionMatches in H.
  rewrite someIncluded_blank in H; [discriminate | reflexivity | exact E].
Qed.

Lemma actionItemsIn_descriptions w transcript item :
  In item (actionItemsIn w transcript) ->
  Js.trim (ActionItem.description item) = ActionItem.description item /\
  ActionItem.description item <> "".
Proof.
  unfold actionItemsIn.
  destruct (filter actionMatches (splitSentences transcript)) as [|s rest]
    eqn:E.
  - intros [<-|[<-|[]]]; split; try reflexivity; discriminate.
  - intros Hin. apply In_firstn in Hin.
    apply (in_map ActionItem.description) in Hin.
    rewrite actionItemsFrom_descriptions, <- E in Hin.
    apply in_map_iff in Hin. destruct Hin as (x & <- & Hx).
    apply filter_In in Hx. destruct Hx as [_ Hm].
    split; [apply trim_idempotent|].
    apply nonBlank_trim, actionMatches_nonBlank, Hm.
Qed.

Lemma defaultTasksFrom_descriptions assignees descs : forall w,
  map Task.description (defaultTasksFrom w assignees descs) = map snd descs.
Proof.
  induction descs as [|[i s] rest IH]; intros w; simpl; [|rewrite IH];
    reflexivity.
Qed.

Lemma tasksIn_descriptions w transcript participants task :
  In task (tasksIn w transcript participants) ->
  Js.trim (Task.description task) = Task.description task /\
  Task.description task <> "".
Proof.
  unfold tasksIn.
  destruct (matchedTasks 0 (splitSentences transcript)) as [|e rest] eqn:E.
  - intros Hin. apply (in_map Task.description) in Hin.
    rewrite defaultTasksFrom_descriptions in Hin. simpl in Hin.
    destruct Hin as [<-|[<-|[<-|[<-|[]]]]]; split; try reflexivity;
      discriminate.
  - intros Hin. apply In_firstn in Hin.
    apply (in_map Task.description) in Hin.
    rewrite tasksFrom_descriptions, <- E, matchedTasks_sentences in Hin.
    apply in_map_iff in Hin. destruct Hin as (x & <- & Hx).
    apply filter_In in Hx. destruct Hx as [_ Hm].
    split; [apply trim_idempotent|].
    apply nonBlank_trim, taskMatches_nonBlank, Hm.
Qed.

(** X6.  The description of every action item and of every task is not
    empty and carries no white space at either end. *)
Theorem X6_descriptions_trimmed transcript participants w :
  clockInRange w ->
  exists r w',
    analyzeMeeting transcript participants w = Ok r w' /\
    (forall item,
        In item (actionItems r) ->
        Js.trim (ActionItem.description item) = ActionItem.description item /\
        ActionItem.description item <> "") /\
    (forall task,
        In task (tasks r) ->
        Js.trim (Task.description task) = Task.description task /\
        Task.description task <> "").
Proof.
  intros Hc. rewrite (analyzeMeeting_run_world _ _ _ Hc).
  do 2 eexists. split; [reflexivity|]. cbn [actionItems tasks]. split.
  - intros item. apply actionItemsIn_descriptions.
  - intros task. apply tasksIn_descriptions.
Qed.

Lemma X6_descriptions_trimmed_witness :
  clockInRange sampleWorld /\
  exists r w',
    analyzeMeeting "  We must act now .   Bob will lead  " [] sampleWorld
    = Ok r w' /\
    (forall item,
        In item (actionItems r) ->
        Js.trim (ActionItem.description item) = ActionItem.description item /\
        ActionItem.description item <> "") /\
    (forall task,
        In task (tasks r) ->
        Js.trim (Task.description task) = Task.description task /\
        Task.description task <> "").
Proof.
  split.
  - intros n; split; vm_compute; discriminate.
  - apply X6_descriptions_trimmed.
    intros n; split; vm_compute; discriminate.
Defined.

(* ---------------------------------------------------------------------- *)
(** ** Default tasks without default action items *)
(* ---------------------------------------------------------------------- *)

Lemma matchedTasks_none transcript :
  noTaskTrigger transcript ->
  matchedTasks 0 (splitSentences transcript) = [].
Proof.
  intros H. unfold matchedTasks. apply Lists.filter_none.
  intros [i s] Hin. cbn [snd]. apply indexedFrom_In in Hin. apply H, Hin.
Qed.

(** X7.  When no piece of the transcript triggers a task, the tasks are
    the four default tasks, whatever action items were found: the first has
    priority High and the others Medium, the due dates are 3, 4, 5 and 6
    days after the clock readings, the assignees go round the roster from
    its start, and the next steps end with the high-priority task step. *)
Theorem X7_default_tasks transcript participants w :
  clockInRange w ->
  noTaskTrigger transcript ->
  exists r w',
    analyzeMeeting transcript participants w = Ok r w' /\
    map Task.description (tasks r)
    = [ "Review and finalize project requirements";
        "Prepare client presentation materials";
        "Update project timeline and milestones";
        "Conduct stakeholder feedback session" ] /\
    map Task.priority (tasks r) = [High; Medium; Medium; Medium] /\
    map Task.dueDate (tasks r)
    = map (fun i => JsDate.isoDateString
                      (clockSource w (i + clockCalls w)
                       + (Z.of_nat i + 3) * (24 * 60 * 60 * 1000))%Z)
          [0; 1; 2; 3]%nat /\
    map Task.assignee (tasks r)
    = map (fun i => nth (i mod List.length (rosterOf participants))
                        (rosterOf participants) "")
          [0; 1; 2; 3]%nat /\
    exists steps, nextSteps r = (steps ++ [urgentTaskStep])%list.
Proof.
  intros Hc Hn. rewrite (analyzeMeeting_run_world _ _ _ Hc).
  do 2 eexists. split; [reflexivity|]. cbn [tasks nextSteps].
  unfold tasksIn. rewrite (matchedTasks_none _ Hn).
  split; [reflexivity|]. split; [reflexivity|].
  split; [reflexivity|]. split; [reflexivity|].
  unfold generateNextSteps.
  destruct (Js.some _ (actionItemsIn w transcript)).
  - exists (urgentActionStep :: baselineSteps). reflexivity.
  - exists baselineSteps. reflexivity.
Qed.

Lemma noTaskTrigger_sound transcript :
  forallb (fun s => negb (taskMatches s)) (splitSentences transcript) = true ->
  noTaskTrigger transcript.
Proof.
  intros H s Hin. rewrite forallb_forall in H. specialize (H s Hin).
  apply negb_true_iff in H. exact H.
Qed.

Lemma X7_default_tasks_witness :
  let transcript := "We must review the urgent budget. Thanks." in
  clockInRange sampleWorld /\
  noTaskTrigger transcript /\
  exists r w',
    analyzeMeeting transcript ["Sarah"; "Mike"] sampleWorld = Ok r w' /\
    map Task.description (tasks r)
    = [ "Review and finalize project requirements";
        "Prepare client presentation materials";
        "Update project timeline and milestones";
        "Conduct stakeholder feedback session" ] /\
    map Task.priority (tasks r) = [High; Medium; Medium; Medium] /\
    map Task.dueDate (tasks r)
    = map (fun i => JsDate.isoDateString
                      (clockSource sampleWorld (i + clockCalls sampleWorld)
                       + (Z.of_nat i + 3) * (24 * 60 * 60 * 1000))%Z)
          [0; 1; 2; 3]%nat /\
    map Task.assignee (tasks r)
    = map (fun i => nth (i mod List.length (rosterOf ["Sarah"; "Mike"]))
                        (rosterOf ["Sarah"; "Mike"]) "")
          [0; 1; 2; 3]%nat /\
    exists steps, nextSteps r = (steps ++ [urgentTaskStep])%list.
Proof.
  intros transcript.
  assert (Hc : clockInRange sampleWorld)
    by (intros n; split; vm_compute; discriminate).
  assert (Hn : noTaskTrigger transcript)
    by (apply noTaskTrigger_sound; vm_compute; reflexivity).
  split; [exact Hc|]. split; [exact Hn|].
  exact (X7_default_tasks transcript ["Sarah"; "Mike"] sampleWorld Hc Hn).
Defined.

(* ---------------------------------------------------------------------- *)
(** ** Distinct ids *)
(* ---------------------------------------------------------------------- *)

Lemma firstn_seq n : forall a m, firstn n (seq a m) = seq a (Nat.min n m).
Proof.
  induction n as [|n IH]; intros a [|m]; simpl; try reflexivity.
  rewrite IH. reflexivity.
Qed.

Lemma actionItemsFrom_ids matched : forall w,
  map ActionItem.id (actionItemsFrom w matched)
  = map (fun k => uuidSource w (k + uuidCalls w))
        (seq 0 (List.length matched)).
Proof.
  induction matched as [|s rest IH]; intros w; [reflexivity|].
  cbn [actionItemsFrom map List.length seq]. f_equal.
  rewrite IH, <- seq_shift, map_map. apply map_ext. intros k.
  cbn. f_equal. lia.
Qed.

Lemma tasksFrom_ids assignees matched : forall w,
  map Task.id (tasksFrom w assignees matched)
  = map (fun k => uuidSource w (k + uuidCalls w))
        (seq 0 (List.length matched)).
Proof.
  induction matched as [|[i s] rest IH]; intros w; [reflexivity|].
  cbn [tasksFrom map List.length seq]. f_equal.
  rewrite IH, <- seq_shift, map_map. apply map_ext. intros k.
  cbn. f_equal. lia.
Qed.

Lemma defaultTasksFrom_ids assignees descs : forall w,
  map Task.id (defaultTasksFrom w assignees descs)
  = map (fun k => uuidSource w (k + uuidCalls w))
        (seq 0 (List.length descs)).
Proof.
  induction descs as [|[i s] rest IH]; intros w; [reflexivity|].
  cbn [defaultTasksFrom map List.length seq]. f_equal.
  rewrite IH, <- seq_shift, map_map. apply map_ext. intros k.
  cbn. f_equal. lia.
Qed.

(** The ids of the action items are the first uuids drawn, in order. *)
Lemma actionItemsIn_ids w transcript :
  exists n,
    (n <= actionUuids transcript)%nat /\
    map ActionItem.id (actionItemsIn w transcript)
    = map (fun k => uuidSource w (k + uuidCalls w)) (seq 0 n).
Proof.
  unfold actionItemsIn, actionUuids.
  destruct (filter actionMatches (splitSentences transcript)) as [|s rest].
  - exists 2%nat. split; [lia | reflexivity].
  - exists (Nat.min 6 (List.length (s :: rest))). split; [lia|].
    rewrite <- firstn_map, actionItemsFrom_ids, firstn_map, firstn_seq.
    reflexivity.
Qed.

(** The ids of the tasks are the uuids drawn from [w] on, in order. *)
Lemma tasksIn_ids w transcript participants :
  exists n,
    map Task.id (tasksIn w transcript participants)
    = map (fun k => uuidSource w (k + uuidCalls w)) (seq 0 n).
Proof.
  unfold tasksIn.
  destruct (matchedTasks 0 (splitSentences transcript)) as [|e rest].
  - exists 4%nat. apply defaultTasksFrom_ids.
  - exists (Nat.min 5 (List.length (e :: rest))).
    rewrite <- firstn_map, tasksFrom_ids, firstn_map, firstn_seq.
    reflexivity.
Qed.

Lemma NoDup_map_injective {A B} (f : A -> B) l :
  (forall x y, f x = f y -> x = y) -> NoDup l -> NoDup (map f l).
Proof.
  intros Hinj Hnd. induction Hnd as [|x l Hx Hnd IH]; [constructor|].
  cbn. constructor; [|exact IH].
  intros Hin. apply in_map_iff in Hin. destruct Hin as (y & E & Hy).
  apply Hinj in E. subst. contradiction.
Qed.

Lemma map_seq_shift {B} (g : nat -> B) (u m : nat) : forall a,
  map (fun k => g (k + u)%nat) (seq a m) = map g (seq (a + u) m).
Proof.
  induction m as [|m IH]; intros a; [reflexivity|].
  cbn [seq map]. f_equal. apply (IH (S a)).
Qed.

(** X8.  When the uuid source never repeats itself, the ids of the action
    items and of the tasks of an analysis are pairwise distinct. *)
Theorem X8_distinct_ids transcript participants w :
  clockInRange w ->
  freshUuids w ->
  exists r w',
    analyzeMeeting transcript participants w = Ok r w' /\
    NoDup (map ActionItem.id (actionItems r) ++ map Task.id (tasks r)).
Proof.
  intros Hc Hfresh. rewrite (analyzeMeeting_run_world _ _ _ Hc).
  do 2 eexists. split; [reflexivity|]. cbn [actionItems tasks].
  destruct (actionItemsIn_ids w transcript) as (n & Hn & ->).
  destruct (tasksIn_ids (advance (actionUuids transcript) 0 0 w)
                        transcript participants) as (m & ->).
  cbn [advance uuidSource uuidCalls].
  set (U := actionUuids transcript) in *.
  assert (E : map (fun k => uuidSource w (k + (U + uuidCalls w))) (seq 0 m)
              = map (fun k => uuidSource w (k + uuidCalls w)) (seq U m)).
  { change (seq U m) with (seq (0 + U) m).
    rewrite <- (map_seq_shift (fun k => uuidSource w (k + uuidCalls w)) U m 0).
    apply map_ext. intros k. f_equal. lia. }
  rewrite E, <- map_app.
  apply NoDup_map_injective.
  - intros x y Hxy. apply Hfresh in Hxy. lia.
  - apply NoDup_app; try apply seq_NoDup.
    intros a Ha Hb. apply in_seq in Ha. apply in_seq in Hb. lia.
Qed.

Lemma sampleWorld_fresh : freshUuids sampleWorld.
Proof. intros i j H. apply Decimal.uuidOfNat_injective. exact H. Qed.

Lemma X8_distinct_ids_witness :
  clockInRange sampleWorld /\
  freshUuids sampleWorld /\
  exists r w',
    analyzeMeeting transcript025 [] sampleWorld = Ok r w' /\
    NoDup (map ActionItem.id (actionItems r) ++ map Task.id (tasks r)).
Proof.
  assert (Hc : clockInRange sampleWorld)
    by (intros n; split; vm_compute; discriminate).
  split; [exact Hc|]. split; [exact sampleWorld_fresh|].
  exact (X8_distinct_ids transcript025 [] sampleWorld Hc sampleWorld_fresh).
Defined.

(* ---------------------------------------------------------------------- *)
(** ** Beyond the range of Date *)
(* ---------------------------------------------------------------------- *)

Lemma toISODate_throws t w :
  (JsDate.maxTime < t)%Z -> JsDate.toISODate t w = Throw RangeError.
Proof.
  intros H. unfold JsDate.toISODate.
  destruct (Z.leb_spec (Z.abs t) JsDate.maxTime); [lia | reflexivity].
Qed.

Lemma forEachTaskSentence_throws assignees sentences : forall index acc w,
  clockTooLate w ->
  (exists s, In s sentences /\ taskMatches s = true) ->
  forEachTaskSentence assignees sentences index acc w = Throw RangeError.
Proof.
  induction sentences as [|s rest IH]; intros index acc w Hc (x & Hin & Hx).
  - contradiction.
  - cbn [forEachTaskSentence]. fold (taskMatches s).
    destruct (taskMatches s) eqn:Hm.
    + unfold bind at 1. unfold Date_now. unfold bind at 1. unfold Math_random.
      unfold bind at 1. rewrite toISODate_throws; [reflexivity|].
      cbn [randomSource randomCalls].
      pose proof Hc as Hlate. unfold clockTooLate in Hlate.
      pose proof (Jitter.jitterDays_bounds (randomSource w (randomCalls w)))
        as Hj.
      unfold jitterDays in Hj. unfold JsDate.msPerDay, JsDate.maxTime in *.
      nia.
    + apply IH; [exact Hc|]. destruct Hin as [->|Hin]; [congruence|].
      exists x. split; assumption.
Qed.

Lemma forEachTaskSentence_quiet assignees sentences : forall index acc w,
  (forall s, In s sentences -> taskMatches s = false) ->
  forEachTaskSentence assignees sentences index acc w = Ok acc w.
Proof.
  induction sentences as [|s rest IH]; intros index acc w H; [reflexivity|].
  cbn [forEachTaskSentence]. fold (taskMatches s).
  rewrite (H s (or_introl eq_refl)). apply IH.
  intros x Hx. apply H. right. exact Hx.
Qed.

Lemma forEachDefaultTask_throws assignees d rest index acc w :
  clockTooLate w ->
  forEachDefaultTask assignees (d :: rest) index acc w = Throw RangeError.
Proof.
  intros Hc. cbn [forEachDefaultTask]. unfold bind at 1. unfold uuidv4.
  unfold bind at 1. unfold Date_now. unfold bind at 1.
  rewrite toISODate_throws; [reflexivity|].
  cbn [clockSource clockCalls]. pose proof Hc as Hlate. unfold clockTooLate in Hlate.
  unfold JsDate.msPerDay, JsDate.maxTime in *. lia.
Qed.

Lemma extractTasks_throws transcript participants w :
  clockTooLate w ->
  extractTasks transcript participants w = Throw RangeError.
Proof.
  intros Hc. unfold extractTasks. unfold bind at 1.
  destruct (existsb taskMatches (splitSentences transcript)) eqn:E.
  - apply existsb_exists in E.
    rewrite forEachTaskSentence_throws; [reflexivity | exact Hc | exact E].
  - rewrite forEachTaskSentence_quiet.
    + unfold bind at 1. cbn [List.length Nat.eqb].
      unfold defaultTasks. rewrite forEachDefaultTask_throws by exact Hc.
      reflexivity.
    + intros s Hs. destruct (taskMatches s) eqn:Em; [|reflexivity].
      assert (F : existsb taskMatches (splitSentences transcript) = true)
        by (apply existsb_exists; exists s; auto).
      congruence.
Qed.

(** X9.  When the clock is past the last time value of [Date], every call
    of [analyzeMeeting] throws a RangeError, whatever the transcript: at
    least one due date is always converted. *)
Theorem X9_range_error transcript participants w :
  clockTooLate w ->
  analyzeMeeting transcript participants w = Throw RangeError.
Proof.
  intros Hc. unfold analyzeMeeting. unfold bind at 1.
  rewrite extractActionItems_run. unfold bind at 1.
  rewrite extractTasks_throws; [reflexivity|]. exact Hc.
Qed.

Lemma X9_range_error_witness :
  let w := mkWorld uuidOfNat 0 (fun _ => 0%Z) 0
                   (fun _ => 8640000000000001%Z) 0 in
  clockTooLate w /\
  analyzeMeeting "Bob will lead." [] w = Throw RangeError.
Proof.
  intros w.
  assert (Hc : clockTooLate w) by (vm_compute; reflexivity).
  split; [exact Hc|].
  exact (X9_range_error "Bob will lead." [] w Hc).
Defined.

(* ---------------------------------------------------------------------- *)
(** ** InputSection: the participants field *)
(* ---------------------------------------------------------------------- *)

Module Input.
Import InputSection.

Lemma includes_char s c : Js.includes s (String c "") = hasChar c s.
Proof.
  induction s as [|a s IH]; [reflexivity|].
  cbn [Js.includes Js.startsWith hasChar]. rewrite IH, andb_true_r.
  reflexivity.
Qed.

Lemma hasChar_app c a b : hasChar c (a ++ b) = hasChar c a || hasChar c b.
Proof.
  induction a as [|x a IH]; [reflexivity|].
  cbn. rewrite IH, orb_assoc. reflexivity.
Qed.

(** The pieces of a split do not contain the separator. *)
Lemma splitOnGo_pieces sep s : forall cur p,
  hasChar sep cur = false ->
  In p (JsMore.splitOnGo sep s cur) -> hasChar sep p = false.
Proof.
  induction s as [|c s IH]; intros cur p Hcur Hin.
  - destruct Hin as [<-|[]]. exact Hcur.
  - cbn [JsMore.splitOnGo] in Hin. destruct (Ascii.eqb c sep) eqn:E.
    + destruct Hin as [<-|Hin]; [exact Hcur|].
      apply (IH "" p); [reflexivity | exact Hin].
    + apply (IH (cur ++ String c "") p); [|exact Hin].
      rewrite hasChar_app, Hcur. cbn. rewrite E. reflexivity.
Qed.

Lemma trimStart_chars c s :
  hasChar c s = false -> hasChar c (Js.trimStart s) = false.
Proof.
  induction s as [|a s IH]; [reflexivity|]. intros H.
  cbn in H. apply orb_false_iff in H. destruct H as [Ha Hs].
  cbn. destruct (Js.isWhiteSpace a); [apply IH, Hs|].
  cbn. rewrite Ha, Hs. reflexivity.
Qed.

Lemma trimEnd_chars c s :
  hasChar c s = false -> hasChar c (Js.trimEnd s) = false.
Proof.
  induction s as [|a s IH]; [reflexivity|]. intros H.
  cbn in H. apply orb_false_iff in H. destruct H as [Ha Hs].
  specialize (IH Hs). cbn. destruct (Js.trimEnd s) as [|d r].
  - destruct (Js.isWhiteSpace a); [reflexivity|]. cbn. rewrite Ha.
    reflexivity.
  - cbn [hasChar]. rewrite Ha. exact IH.
Qed.

Lemma trim_chars c s : hasChar c s = false -> hasChar c (Js.trim s) = false.
Proof. intros H. apply trimEnd_chars, trimStart_chars, H. Qed.

Lemma truthy_nonempty s : JsMore.truthy s = true <-> s <> "".
Proof.
  destruct s; cbn; split; intros H; try discriminate; try reflexivity.
  exfalso. apply H. reflexivity.
Qed.

(** X10.  Every participant the form passes on is a non-empty name without
    white space at its ends and without a comma. *)
Theorem X10_participants_clean field name :
  In name (parseParticipants field) ->
  name <> "" /\ Js.trim name = name /\ Js.includes name "," = false.
Proof.
  unfold parseParticipants. intros H. apply filter_In in H.
  destruct H as [Hin Ht]. apply in_map_iff in Hin.
  destruct Hin as (piece & <- & Hp).
  split; [apply truthy_nonempty, Ht|]. split; [apply trim_idempotent|].
  rewrite includes_char. apply trim_chars.
  apply (splitOnGo_pieces "," field "" piece); [reflexivity | exact Hp].
Qed.

Lemma X10_participants_clean_witness :
  In "Mike Chen" (parseParticipants " Sarah ,, Mike Chen ,Lisa,") /\
  "Mike Chen" <> "" /\ Js.trim "Mike Chen" = "Mike Chen" /\
  Js.includes "Mike Chen" "," = false.
Proof.
  assert (H : In "Mike Chen" (parseParticipants " Sarah ,, Mike Chen ,Lisa,"))
    by (vm_compute; tauto).
  split; [exact H|].
  exact (X10_participants_clean _ _ H).
Defined.

Lemma trim_empty_iff s : Js.trim s = "" <-> allWhite s = true.
Proof. split; [apply Strings.trim_empty | apply Strings.allWhite_trim]. Qed.

Lemma allWhite_snoc cur c :
  allWhite (cur ++ String c "") = allWhite cur && Js.isWhiteSpace c.
Proof.
  rewrite Strings.allWhite_app. cbn. rewrite andb_true_r. reflexivity.
Qed.

(** Every piece is blank exactly when the field has white space and commas
    only. *)
Lemma splitOnGo_blank s : forall cur,
  forallb allWhite (JsMore.splitOnGo "," s cur)
  = allWhite cur && onlyWhiteOrCommas s.
Proof.
  induction s as [|c s IH]; intros cur.
  - cbn. rewrite !andb_true_r. reflexivity.
  - cbn [JsMore.splitOnGo onlyWhiteOrCommas].
    destruct (Ascii.eqb c ",") eqn:E.
    + cbn [forallb]. rewrite IH. cbn [allWhite]. rewrite orb_true_r.
      reflexivity.
    + rewrite IH, allWhite_snoc, orb_false_r, andb_assoc. reflexivity.
Qed.

Lemma filter_truthy_nil pieces :
  filter (fun p => JsMore.truthy p) (map (fun p => Js.trim p) pieces) = []
  <-> forallb allWhite pieces = true.
Proof.
  induction pieces as [|p rest IH]; [split; reflexivity|].
  cbn [map filter forallb].
  destruct (Js.trim p) as [|c r] eqn:E; cbn [JsMore.truthy].
  - rewrite (proj1 (trim_empty_iff p) E). exact IH.
  - split; [discriminate|]. intros H. apply andb_true_iff in H.
    destruct H as [H _]. apply trim_empty_iff in H. congruence.
Qed.

(** X11.  The form passes on no participant at all exactly when the field
    holds nothing but white space and commas. *)
Theorem X11_no_participants field :
  parseParticipants field = [] <-> onlyWhiteOrCommas field = true.
Proof.
  unfold parseParticipants, JsMore.splitOn.
  rewrite filter_truthy_nil, splitOnGo_blank. reflexivity.
Qed.

Lemma truthy_trim_nonBlank s :
  JsMore.truthy (Js.trim s) = nonBlank s.
Proof. unfold nonBlank. destruct (Js.trim s); reflexivity. Qed.

Lemma simulatedTranscript_nonBlank name :
  nonBlank (simulatedTranscript name) = true.
Proof.
  unfold nonBlank, simulatedTranscript, Js.trim.
  cbn [String.append]. rewrite trimStart_fixed by reflexivity.
  match goal with
  | |- context [Js.trimEnd (String ?c ?r)] =>
      destruct (trimEnd_head c r eq_refl) as [r' E]; rewrite E
  end.
  reflexivity.
Qed.

(** X12.  [handleSubmit] never passes on a blank transcript.  On the audio
    tab with a file chosen it passes on the made-up transcript for the name
    of the file and ignores the text typed; otherwise it passes on the text
    as typed, not trimmed, and does nothing when that text is blank.  The
    participants are parsed in either case. *)
Theorem X12_submission activeTab audioFile transcript field :
  match handleSubmit activeTab audioFile transcript field with
  | Some (submitted, participants) =>
      nonBlank submitted = true /\
      participants = parseParticipants field /\
      ((exists name,
           activeTab = audio /\ audioFile = Some name /\
           submitted = simulatedTranscript name) \/
       ((activeTab <> audio \/ audioFile = None) /\ submitted = transcript))
  | None =>
      (activeTab <> audio \/ audioFile = None) /\ Js.trim transcript = ""
  end.
Proof.
  unfold handleSubmit.
  destruct activeTab, audioFile as [name|];
    try (rewrite truthy_trim_nonBlank; destruct (nonBlank transcript) eqn:E;
         [split; [exact E|]; split; [reflexivity|]; right;
          split; [|reflexivity]
         |split; [|unfold nonBlank in E;
                   destruct (Js.trim transcript); [reflexivity|discriminate]]];
         first [left; discriminate | right; reflexivity]).
  split; [apply simulatedTranscript_nonBlank|]. split; [reflexivity|].
  left. exists name. repeat split.
Qed.

End Input.

(* ---------------------------------------------------------------------- *)
(** ** DashboardPage: what the page shows after a submission *)
(* ---------------------------------------------------------------------- *)

Module Dashboard.
Import DashboardPage.

Lemma toISOString_run t w :
  (Z.abs t <= JsDate.maxTime)%Z ->
  exists text, JsMore.toISOString t w = Ok text w.
Proof.
  intros H. unfold JsMore.toISOString.
  destruct (Z.leb_spec (Z.abs t) JsDate.maxTime); [|lia].
  eexists. reflexivity.
Qed.

Lemma toISOString_throws t w :
  (JsDate.maxTime < t)%Z -> JsMore.toISOString t w = Throw RangeError.
Proof.
  intros H. unfold JsMore.toISOString.
  destruct (Z.leb_spec (Z.abs t) JsDate.maxTime); [lia | reflexivity].
Qed.

(** The roster the page hands to the analyzer. *)
Lemma page_roster participants :
  (if (0 <? List.length participants)%nat then participants
   else defaultParticipants)
  = match participants with [] => defaultParticipants | _ => participants end.
Proof. destruct participants; reflexivity. Qed.

Lemma processMeeting_run toLocaleDateString transcript participants w :
  clockInRange w ->
  exists meeting w',
    processMeeting toLocaleDateString transcript participants w
    = Ok (meeting,
          mkAnalysis
            (generateSummary transcript (sentencesOf transcript))
            (actionItemsIn (advance 1 0 3 w) transcript)
            (tasksIn (advance (actionUuids transcript) 0 0 (advance 1 0 3 w))
                     transcript (DashboardPage.participants meeting))
            (keyTopicsOf (wordsOf transcript))
            (generateNextSteps
               (actionItemsIn (advance 1 0 3 w) transcript)
               (tasksIn (advance (actionUuids transcript) 0 0
                                 (advance 1 0 3 w))
                        transcript (DashboardPage.participants meeting))))
         w' /\
    DashboardPage.id meeting = uuidSource w (uuidCalls w) /\
    DashboardPage.transcript meeting = transcript /\
    DashboardPage.participants meeting
    = match participants with [] => defaultParticipants | _ => participants end.
Proof.
  intros Hc. unfold processMeeting.
  unfold bind at 1. unfold uuidv4.
  unfold bind at 1. unfold Date_now.
  unfold bind at 1. unfold bind at 1. unfold bind at 1.
  cbn [uuidSource uuidCalls randomSource randomCalls clockSource clockCalls].
  destruct (toISOString_run
              (clockSource w (S (S (clockCalls w))))
              (mkWorld (uuidSource w) (S (uuidCalls w)) (randomSource w)
                       (randomCalls w) (clockSource w)
                       (S (S (S (clockCalls w))))))
    as [text E].
  { destruct (Hc (S (S (clockCalls w)))) as [Hlo Hhi].
    unfold JsDate.maxTime, JsDate.msPerDay in *. lia. }
  rewrite E. unfold bind at 1.
  change (mkWorld (uuidSource w) (S (uuidCalls w)) (randomSource w)
                  (randomCalls w) (clockSource w) (S (S (S (clockCalls w)))))
    with (advance 1 0 3 w).
  rewrite analyzeMeeting_run_world
    by (apply clockInRange_advance; exact Hc).
  do 2 eexists. split; [reflexivity|].
  cbn [DashboardPage.id DashboardPage.transcript DashboardPage.participants].
  split; [reflexivity|]. split; [reflexivity|]. apply page_roster.
Qed.

(** X13.  When every clock reading stays in the range of dates, a
    submission ends with the page no longer loading and showing a meeting
    and its analysis: the meeting keeps the transcript as submitted, its
    participants are the submitted ones, or Sarah Johnson, Mike Chen and
    Lisa Rodriguez when none was submitted, and every task of the analysis
    is assigned to one of the meeting's participants. *)
Theorem X13_page_after_success toLocaleDateString transcript participants
        st w :
  clockInRange w ->
  exists meeting shown,
    handleTranscriptSubmit toLocaleDateString transcript participants st w
    = mkState false (Some meeting) (Some shown) /\
    DashboardPage.transcript meeting = transcript /\
    DashboardPage.participants meeting
    = match participants with
      | [] => [ "Sarah Johnson"; "Mike Chen"; "Lisa Rodriguez" ]
      | _ => participants
      end /\
    (forall task,
        In task (tasks shown) ->
        In (Task.assignee task) (DashboardPage.participants meeting)).
Proof.
  intros Hc. unfold handleTranscriptSubmit.
  destruct (processMeeting_run toLocaleDateString transcript participants w Hc)
    as (meeting & w' & E & Hid & Ht & Hp).
  rewrite E. do 2 eexists. split; [reflexivity|].
  split; [exact Ht|]. split; [exact Hp|]. cbn [tasks].
  intros task Hin. apply tasksIn_invariant in Hin. destruct Hin as [_ Hin].
  unfold rosterOf in Hin. rewrite Hp in *.
  destruct participants; exact Hin.
Qed.

Lemma X13_page_after_success_witness :
  clockInRange sampleWorld /\
  exists meeting shown,
    handleTranscriptSubmit JsDate.isoDateString "Bob will lead the review."
                           [] (mkState true None None) sampleWorld
    = mkState false (Some meeting) (Some shown) /\
    DashboardPage.transcript meeting = "Bob will lead the review." /\
    DashboardPage.participants meeting
    = [ "Sarah Johnson"; "Mike Chen"; "Lisa Rodriguez" ] /\
    (forall task,
        In task (tasks shown) ->
        In (Task.assignee task) (DashboardPage.participants meeting)).
Proof.
  assert (Hc : clockInRange sampleWorld)
    by (intros n; split; vm_compute; discriminate).
  split; [exact Hc|].
  exact (X13_page_after_success JsDate.isoDateString
           "Bob will lead the review." [] (mkState true None None)
           sampleWorld Hc).
Defined.

(** X14.  When every clock reading stays in the range of dates and the
    uuid source never repeats, the id of the meeting the page shows differs
    from the id of every action item and of every task of its analysis. *)
Theorem X14_meeting_id_apart toLocaleDateString transcript participants
        st w :
  clockInRange w ->
  freshUuids w ->
  exists meeting shown,
    handleTranscriptSubmit toLocaleDateString transcript participants st w
    = mkState false (Some meeting) (Some shown) /\
    ~ In (DashboardPage.id meeting)
         (map ActionItem.id (actionItems shown)
          ++ map Task.id (tasks shown)).
Proof.
  intros Hc Hfresh. unfold handleTranscriptSubmit.
  destruct (processMeeting_run toLocaleDateString transcript participants w Hc)
    as (meeting & w' & E & Hid & Ht & Hp).
  rewrite E. do 2 eexists. split; [reflexivity|]. cbn [tasks actionItems].
  intros Hin. rewrite Hid in Hin.
  destruct (actionItemsIn_ids (advance 1 0 3 w) transcript)
    as (n & Hn & Ea).
  destruct (tasksIn_ids (advance (actionUuids transcript) 0 0
                                 (advance 1 0 3 w))
                        transcript (DashboardPage.participants meeting))
    as (m & Et).
  rewrite Ea, Et in Hin. cbn [advance uuidSource uuidCalls] in Hin.
  apply in_app_or in Hin.
  destruct Hin as [Hin|Hin]; apply in_map_iff in Hin;
    destruct Hin as (k & Ek & _); apply Hfresh in Ek; lia.
Qed.

Lemma X14_meeting_id_apart_witness :
  clockInRange sampleWorld /\
  freshUuids sampleWorld /\
  exists meeting shown,
    handleTranscriptSubmit JsDate.isoDateString "Bob will lead the review."
                           ["Bob"] (mkState true None None) sampleWorld
    = mkState false (Some meeting) (Some shown) /\
    ~ In (DashboardPage.id meeting)
         (map ActionItem.id (actionItems shown)
          ++ map Task.id (tasks shown)).
Proof.
  assert (Hc : clockInRange sampleWorld)
    by (intros n; split; vm_compute; discriminate).
  split; [exact Hc|]. split; [exact sampleWorld_fresh|].
  exact (X14_meeting_id_apart JsDate.isoDateString
           "Bob will lead the review." ["Bob"] (mkState true None None)
           sampleWorld Hc sampleWorld_fresh).
Defined.

(** X15.  When the clock reading taken for the creation time of the
    meeting, or the one after it, which the analyzer takes for its first
    due date, is past the last time value of Date, the handler catches the
    RangeError: the page is no longer loading and still shows the meeting
    and the analysis it showed before. *)
Theorem X15_page_after_error toLocaleDateString transcript participants
        st w :
  (JsDate.maxTime < clockAt w 2 \/ JsDate.maxTime < clockAt w 3)%Z ->
  handleTranscriptSubmit toLocaleDateString transcript participants st w
  = mkState false (currentMeeting st) (analysis st).
Proof.
  intros H. unfold handleTranscriptSubmit.
  assert (E : exists e,
             processMeeting toLocaleDateString transcript participants w
             = Throw e).
  { unfold processMeeting.
    unfold bind at 1. unfold uuidv4.
    unfold bind at 1. unfold Date_now.
    unfold bind at 1. unfold bind at 1. unfold bind at 1.
    cbn [uuidSource uuidCalls randomSource randomCalls clockSource
         clockCalls].
    unfold JsMore.toISOString.
    destruct (Z.leb_spec (Z.abs (clockSource w (S (S (clockCalls w)))))
                         JsDate.maxTime) as [Hok|Hbad].
    - unfold ret at 1. unfold bind at 1.
      unfold analyzeMeeting. unfold bind at 1.
      rewrite extractActionItems_run. unfold bind at 1.
      rewrite extractTasks_throws; [eexists; reflexivity|].
      unfold clockTooLate. cbn [advance clockSource clockCalls].
      unfold clockAt in H. destruct H as [H|H]; [|exact H]. cbn [Nat.add] in H. lia.
    - eexists. reflexivity. }
  destruct E as [e E]. rewrite E. reflexivity.
Qed.

Lemma X15_page_after_error_witness :
  let w := mkWorld uuidOfNat 0 (fun _ => 0%Z) 0
                   (fun n => if (n <? 3)%nat then 1700000000000%Z
                             else 8640000000000001%Z) 0 in
  let st := mkState true None None in
  (JsDate.maxTime < clockAt w 2 \/ JsDate.maxTime < clockAt w 3)%Z /\
  handleTranscriptSubmit JsDate.isoDateString "Bob will lead the review."
                         [] st w
  = mkState false None None.
Proof.
  intros w st.
  assert (H : (JsDate.maxTime < clockAt w 2 \/ JsDate.maxTime < clockAt w 3)%Z)
    by (right; vm_compute; reflexivity).
  split; [exact H|].
  exact (X15_page_after_error JsDate.isoDateString
           "Bob will lead the review." [] st w H).
Defined.

End Dashboard.

(* ---------------------------------------------------------------------- *)
(** ** AuthContext: logging in, signing up, logging out *)
(* ---------------------------------------------------------------------- *)

Module Auth.
Import AuthContext AuthTrace.

(** The first piece of a split at [sep] is the text before the first
    [sep]. *)
Lemma splitOnGo_first sep s : forall cur,
  hasChar sep s = true ->
  exists p rest,
    JsMore.first (JsMore.splitOnGo sep s cur) = cur ++ p /\
    s = p ++ String sep rest /\
    hasChar sep p = false.
Proof.
  induction s as [|c s IH]; intros cur H; [discriminate|].
  cbn [JsMore.splitOnGo]. cbn [hasChar] in H.
  destruct (Ascii.eqb c sep) eqn:E.
  - apply Ascii.eqb_eq in E. subst c. exists "", s.
    cbn [JsMore.first]. rewrite Decimal.append_empty. repeat split.
  - cbn [orb] in H. destruct (IH (cur ++ String c "") H)
      as (p & rest & Hf & Hs & Hp).
    exists (String c p), rest. rewrite Hf, Decimal.append_assoc.
    cbn [String.append hasChar]. rewrite E, Hp, Hs. repeat split.
Qed.

(** X16.  [login] looks at nothing but whether the email has an [@] and the
    password has six characters or more.  When both hold it resolves to
    true whatever the session was, and the user has id 1, the email as
    typed, and as name the text of the email before its first [@]; the
    stored item is the JSON text of that user.  Otherwise it resolves to
    false and leaves the session as it was. *)
Theorem X16_login stringify email password s :
  if hasChar "@" email && (6 <=? String.length password)%nat
  then exists u rest,
      login stringify email password s
      = (true, mkSession (Some u) (Some (stringify u))) /\
      AuthContext.id u = "1" /\
      AuthContext.email u = email /\
      email = AuthContext.name u ++ "@" ++ rest /\
      hasChar "@" (AuthContext.name u) = false
  else login stringify email password s = (false, s).
Proof.
  unfold login. rewrite Input.includes_char.
  destruct (hasChar "@" email) eqn:E; [|reflexivity].
  destruct (6 <=? String.length password)%nat; [|reflexivity].
  cbn [andb].
  destruct (splitOnGo_first "@" email "" E) as (p & rest & Hf & Hs & Hp).
  unfold JsMore.splitOn. rewrite Hf. cbn [String.append].
  eexists. exists rest. split; [reflexivity|].
  cbn [AuthContext.id AuthContext.email AuthContext.name].
  repeat split; assumption.
Qed.

Lemma login_consistent stringify email password s :
  consistent stringify s ->
  consistent stringify (snd (login stringify email password s)).
Proof.
  intros H. unfold login.
  destruct (Js.includes email "@" && (6 <=? String.length password)%nat);
    [reflexivity | exact H].
Qed.

Lemma signup_run stringify name email password company s w :
  exists r,
    (signup stringify name email password company s w = Ok r w /\
     r = (false, s)) \/
    (signup stringify name email password company s w
     = Ok r (advance 0 0 1 w) /\
     exists u, r = (true, mkSession (Some u) (Some (stringify u))) /\
               AuthContext.id u = JsMore.numberToString (nextClock w) /\
               AuthContext.name u = name /\
               AuthContext.email u = email /\
               AuthContext.company u = company).
Proof.
  unfold signup.
  destruct (JsMore.truthy name && Js.includes email "@"
            && (6 <=? String.length password)%nat && JsMore.truthy company).
  - eexists. right. split; [reflexivity|]. eexists. split; [reflexivity|].
    repeat split.
  - eexists. left. split; reflexivity.
Qed.

Lemma advance_clock a b w :
  advance 0 0 a (advance 0 0 b w) = advance 0 0 (a + b) w.
Proof.
  unfold advance. cbn [uuidSource uuidCalls randomSource randomCalls
                       clockSource clockCalls Nat.add].
  f_equal. lia.
Qed.

Lemma advance_none w : advance 0 0 0 w = w.
Proof. destruct w; reflexivity. Qed.

Lemma signup_consistent stringify name email password company s w :
  consistent stringify s ->
  exists s' readings,
    step stringify (Signup name email password company) s w
    = Ok s' (advance 0 0 readings w) /\
    consistent stringify s' /\ (readings <= 1)%nat.
Proof.
  intros H. cbn [step]. unfold bind.
  destruct (signup_run stringify name email password company s w)
    as (r & [[E ->] | [E (u & -> & _)]]); rewrite E.
  - exists s, 0%nat. rewrite advance_none. repeat split; [exact H | lia].
  - eexists. exists 1%nat. split; [reflexivity|]. split; [reflexivity | lia].
Qed.

(** X17.  Whatever sequence of logins, signups and logouts is made, from a
    session whose stored item is the JSON text of its user, no call throws,
    the stored item stays the JSON text of the current user and is absent
    when there is none, no uuid or random number is drawn, and the clock is
    read at most once for each signup. *)
Theorem X17_session_consistent stringify ops : forall s w,
  consistent stringify s ->
  exists s' readings,
    runOps stringify ops s w = Ok s' (advance 0 0 readings w) /\
    consistent stringify s' /\
    (readings <= List.length (filter isSignup ops))%nat.
Proof.
  induction ops as [|op rest IH]; intros s w H.
  - exists s, 0%nat. cbn [runOps]. unfold ret. rewrite advance_none.
    repeat split; [exact H | cbn; lia].
  - cbn [runOps]. unfold bind at 1. destruct op as [e p|n e p c|].
    + cbn [step]. unfold ret at 1.
      destruct (IH _ w (login_consistent stringify e p s H))
        as (s' & k & E & Hs & Hk).
      exists s', k. cbn [filter isSignup]. repeat split; assumption.
    + destruct (signup_consistent stringify n e p c s w H)
        as (s1 & k1 & E1 & H1 & Hk1).
      rewrite E1.
      destruct (IH s1 (advance 0 0 k1 w) H1) as (s' & k & E & Hs & Hk).
      exists s', (k + k1)%nat. rewrite E, advance_clock.
      cbn [filter isSignup List.length]. repeat split; [exact Hs | lia].
    + cbn [step]. unfold ret at 1.
      destruct (IH (logout s) w eq_refl) as (s' & k & E & Hs & Hk).
      exists s', k. cbn [filter isSignup]. repeat split; assumption.
Qed.

Lemma X17_session_consistent_witness :
  let ops := [ Signup "Ann" "ann@x.org" "secret1" "X";
               Logout;
               Login "bob@x.org" "12345";
               Login "bob@x.org" "123456" ] in
  consistent AuthContext.email (mkSession None None) /\
  exists s' readings,
    runOps AuthContext.email ops (mkSession None None) sampleWorld
    = Ok s' (advance 0 0 readings sampleWorld) /\
    consistent AuthContext.email s' /\
    (readings <= List.length (filter isSignup ops))%nat.
Proof.
  intros ops.
  assert (H : consistent AuthContext.email (mkSession None None))
    by reflexivity.
  split; [exact H|].
  exact (X17_session_consistent AuthContext.email ops
           (mkSession None None) sampleWorld H).
Defined.

Lemma numberToString_injective n m :
  (0 <= n)%Z -> (0 <= m)%Z ->
  JsMore.numberToString n = JsMore.numberToString m -> n = m.
Proof.
  intros Hn Hm. unfold JsMore.numberToString.
  destruct (Z.ltb_spec n 0); [lia|]. destruct (Z.ltb_spec m 0); [lia|].
  intros E. apply (f_equal decimalValue) in E.
  rewrite !Decimal.decimal_value in E by assumption. exact E.
Qed.

(** X18.  The id of a new user is the decimal text of the clock reading of
    the signup: two signups made one after the other get the same id
    exactly when the clock gave both the same millisecond. *)
Theorem X18_signup_ids stringify n1 e1 p1 c1 n2 e2 p2 c2 s w s1 w1 s2 w2
        u1 u2 :
  (0 <= clockAt w 0 <= JsDate.maxTime)%Z ->
  (0 <= clockAt w 1 <= JsDate.maxTime)%Z ->
  signup stringify n1 e1 p1 c1 s w = Ok (true, s1) w1 ->
  signup stringify n2 e2 p2 c2 s1 w1 = Ok (true, s2) w2 ->
  user s1 = Some u1 ->
  user s2 = Some u2 ->
  (AuthContext.id u1 = AuthContext.id u2 <-> clockAt w 0 = clockAt w 1).
Proof.
  intros H0 H1 E1 E2 Hu1 Hu2.
  destruct (signup_run stringify n1 e1 p1 c1 s w)
    as (r1 & [[F1 ->] | [F1 (v1 & -> & Hid1 & _)]]);
    rewrite F1 in E1; [discriminate|].
  injection E1 as <- <-.
  destruct (signup_run stringify n2 e2 p2 c2
              (mkSession (Some v1) (Some (stringify v1))) (advance 0 0 1 w))
    as (r2 & [[F2 ->] | [F2 (v2 & -> & Hid2 & _)]]);
    rewrite F2 in E2; [discriminate|].
  injection E2 as <- <-.
  cbn [user] in Hu1, Hu2. injection Hu1 as <-. injection Hu2 as <-.
  rewrite Hid1, Hid2.
  change (nextClock w) with (clockAt w 0).
  change (nextClock (advance 0 0 1 w)) with (clockAt w 1).
  split; [|intros ->; reflexivity].
  apply numberToString_injective; lia.
Qed.

Lemma X18_signup_ids_witness :
  let w := mkWorld uuidOfNat 0 (fun _ => 0%Z) 0
                   (fun n => (1700000000000 + Z.of_nat n)%Z) 0 in
  let u1 := mkUser "1700000000000" "ann@x.org" "Ann" "Team Member" "X" in
  let u2 := mkUser "1700000000001" "bob@x.org" "Bob" "Team Member" "Y" in
  let s1 := mkSession (Some u1) (Some "ann@x.org") in
  let s2 := mkSession (Some u2) (Some "bob@x.org") in
  (0 <= clockAt w 0 <= JsDate.maxTime)%Z /\
  (0 <= clockAt w 1 <= JsDate.maxTime)%Z /\
  signup AuthContext.email "Ann" "ann@x.org" "secret1" "X"
         (mkSession None None) w = Ok (true, s1) (advance 0 0 1 w) /\
  signup AuthContext.email "Bob" "bob@x.org" "secret2" "Y" s1
         (advance 0 0 1 w) = Ok (true, s2) (advance 0 0 2 w) /\
  (AuthContext.id u1 = AuthContext.id u2 <-> clockAt w 0 = clockAt w 1).
Proof.
  intros w u1 u2 s1 s2.
  assert (H0 : (0 <= clockAt w 0 <= JsDate.maxTime)%Z)
    by (split; vm_compute; discriminate).
  assert (H1 : (0 <= clockAt w 1 <= JsDate.maxTime)%Z)
    by (split; vm_compute; discriminate).
  assert (E1 : signup AuthContext.email "Ann" "ann@x.org" "secret1" "X"
                      (mkSession None None) w = Ok (true, s1) (advance 0 0 1 w))
    by reflexivity.
  assert (E2 : signup AuthContext.email "Bob" "bob@x.org" "secret2" "Y" s1
                      (advance 0 0 1 w) = Ok (true, s2) (advance 0 0 2 w))
    by reflexivity.
  split; [exact H0|]. split; [exact H1|]. split; [exact E1|].
  split; [exact E2|].
  exact (X18_signup_ids AuthContext.email _ _ _ _ _ _ _ _ _ w s1 _ s2 _ u1 u2
           H0 H1 E1 E2 eq_refl eq_refl).
Defined.

End Auth.

(* ---------------------------------------------------------------------- *)
(** ** From the form to the page *)
(* ---------------------------------------------------------------------- *)

Module Form.
Import InputSection DashboardPage.

(** X19.  Nothing is submitted exactly when the test of the submit button
    fails, or when a file is chosen while another tab than the audio tab is
    active and the text is blank: there the button is enabled and a click
    does nothing. *)
Theorem X19_button_and_submit activeTab audioFile transcript field :
  handleSubmit activeTab audioFile transcript field = None <->
  submitDisabled false transcript audioFile = true \/
  (activeTab <> audio /\ audioFile <> None /\ Js.trim transcript = "").
Proof.
  unfold handleSubmit, submitDisabled. cbn [orb].
  destruct activeTab, audioFile as [name|];
    destruct (Js.trim transcript) as [|c r]; cbn [JsMore.truthy negb andb];
    split;
    try (intros _; first
           [ left; reflexivity
           | right; repeat split; discriminate ]);
    try discriminate;
    try (intros [H | (H1 & H2 & H3)]; first
           [ discriminate
           | exfalso; apply H1; reflexivity
           | exfalso; apply H2; reflexivity ]);
    intros _; reflexivity.
Qed.

(** X20.  Whatever the form submits, and whenever every clock reading stays
    in the range of dates, the page ends up showing a meeting whose
    transcript is not blank and whose participants are the names parsed
    from the field, or the three default names when the field holds white
    space and commas only; every participant shown is a non-empty name
    without a comma and without white space at its ends, and every task is
    assigned to one of them. *)
Theorem X20_form_to_page toLocaleDateString activeTab audioFile transcript
        field submitted names st w :
  clockInRange w ->
  handleSubmit activeTab audioFile transcript field
  = Some (submitted, names) ->
  exists meeting shown,
    handleTranscriptSubmit toLocaleDateString submitted names st w
    = mkState false (Some meeting) (Some shown) /\
    nonBlank (DashboardPage.transcript meeting) = true /\
    DashboardPage.participants meeting
    = (if onlyWhiteOrCommas field
       then [ "Sarah Johnson"; "Mike Chen"; "Lisa Rodriguez" ]
       else parseParticipants field) /\
    (forall name,
        In name (DashboardPage.participants meeting) ->
        name <> "" /\ Js.trim name = name /\ hasChar "," name = false) /\
    (forall task,
        In task (tasks shown) ->
        In (Task.assignee task) (DashboardPage.participants meeting)).
Proof.
  intros Hc Hs.
  assert (Hsub : nonBlank submitted = true /\ names = parseParticipants field).
  { unfold handleSubmit in Hs.
    destruct activeTab, audioFile as [name|];
      try (rewrite Input.truthy_trim_nonBlank in Hs;
           destruct (nonBlank transcript) eqn:E; [|discriminate];
           injection Hs as <- <-; split; [exact E | reflexivity]).
    injection Hs as <- <-.
    split; [apply Input.simulatedTranscript_nonBlank | reflexivity]. }
  destruct Hsub as [Hnb ->].
  unfold handleTranscriptSubmit.
  destruct (Dashboard.processMeeting_run toLocaleDateString submitted
              (parseParticipants field) w Hc)
    as (meeting & w' & E & _ & Ht & Hp).
  rewrite E. do 2 eexists. split; [reflexivity|].
  split; [rewrite Ht; exact Hnb|].
  assert (Hroster :
            DashboardPage.participants meeting
            = if onlyWhiteOrCommas field
              then [ "Sarah Johnson"; "Mike Chen"; "Lisa Rodriguez" ]
              else parseParticipants field).
  { rewrite Hp. destruct (onlyWhiteOrCommas field) eqn:Eo.
    - replace (parseParticipants field) with (@nil string); [reflexivity|].
      symmetry. unfold parseParticipants, JsMore.splitOn.
      rewrite Input.filter_truthy_nil, Input.splitOnGo_blank. exact Eo.
    - destruct (parseParticipants field) eqn:Ep; [|reflexivity].
      exfalso. unfold parseParticipants, JsMore.splitOn in Ep.
      rewrite Input.filter_truthy_nil, Input.splitOnGo_blank in Ep.
      cbn [allWhite andb] in Ep. congruence. }
  split; [exact Hroster|]. split.
  - rewrite Hroster. intros name Hin.
    destruct (onlyWhiteOrCommas field).
    + destruct Hin as [<-|[<-|[<-|[]]]];
        (split; [discriminate | split; reflexivity]).
    + unfold parseParticipants in Hin. apply filter_In in Hin.
      destruct Hin as [Hin Htr]. apply in_map_iff in Hin.
      destruct Hin as (piece & <- & Hpiece).
      split; [apply Input.truthy_nonempty, Htr|].
      split; [apply trim_idempotent|].
      apply Input.trim_chars.
      apply (Input.splitOnGo_pieces "," field "" piece);
        [reflexivity | exact Hpiece].
  - cbn [tasks]. intros task Hin. apply tasksIn_invariant in Hin.
    destruct Hin as [_ Hin]. unfold rosterOf in Hin.
    destruct (DashboardPage.participants meeting) eqn:Em; [|exact Hin].
    exfalso. rewrite Hp in Em.
    destruct (parseParticipants field); discriminate.
Qed.

Lemma X20_form_to_page_witness :
  clockInRange sampleWorld /\
  handleSubmit audio (Some "standup.mp3") "" " Ann , ,Bob"
  = Some (simulatedTranscript "standup.mp3", ["Ann"; "Bob"]) /\
  exists meeting shown,
    handleTranscriptSubmit JsDate.isoDateString
                           (simulatedTranscript "standup.mp3") ["Ann"; "Bob"]
                           (mkState true None None) sampleWorld
    = mkState false (Some meeting) (Some shown) /\
    nonBlank (DashboardPage.transcript meeting) = true /\
    DashboardPage.participants meeting
    = (if onlyWhiteOrCommas " Ann , ,Bob"
       then [ "Sarah Johnson"; "Mike Chen"; "Lisa Rodriguez" ]
       else parseParticipants " Ann , ,Bob") /\
    (forall name,
        In name (DashboardPage.participants meeting) ->
        name <> "" /\ Js.trim name = name /\ hasChar "," name = false) /\
    (forall task,
        In task (tasks shown) ->
        In (Task.assignee task) (DashboardPage.participants meeting)).
Proof.
  assert (Hc : clockInRange sampleWorld)
    by (intros n; split; vm_compute; discriminate).
  assert (Hs : handleSubmit audio (Some "standup.mp3") "" " Ann , ,Bob"
               = Some (simulatedTranscript "standup.mp3", ["Ann"; "Bob"]))
    by (vm_compute; reflexivity).
  split; [exact Hc|]. split; [exact Hs|].
  exact (X20_form_to_page JsDate.isoDateString audio (Some "standup.mp3") ""
           " Ann , ,Bob" _ _ (mkState true None None) sampleWorld Hc Hs).
Defined.

(** A word between two white-space characters is a token of the split. *)
Lemma splitGo_word w : forall cur inRun c rest,
  noWhite w = true -> Js.isWhiteSpace c = true ->
  w <> "" \/ inRun = false ->
  Js.splitGo Js.isWhiteSpace (w ++ String c rest) cur inRun
  = (cur ++ w) :: Js.splitGo Js.isWhiteSpace rest "" true.
Proof.
  induction w as [|x w IH]; intros cur inRun c rest Hw Hc Hne.
  - destruct Hne as [Hne | ->]; [contradiction Hne; reflexivity|].
    cbn [String.append Js.splitGo]. rewrite Hc, Decimal.append_empty.
    reflexivity.
  - cbn [noWhite] in Hw. apply andb_true_iff in Hw. destruct Hw as [Hx Hw].
    apply negb_true_iff in Hx. cbn [String.append Js.splitGo]. rewrite Hx.
    rewrite (IH _ false c rest Hw Hc (or_intror eq_refl)).
    rewrite Decimal.append_assoc. reflexivity.
Qed.

Lemma splitGo_In before : forall cur inRun c1 w c2 rest,
  Js.isWhiteSpace c1 = true -> Js.isWhiteSpace c2 = true ->
  noWhite w = true -> w <> "" ->
  In w (Js.splitGo Js.isWhiteSpace
                   (before ++ String c1 (w ++ String c2 rest)) cur inRun).
Proof.
  induction before as [|x before IH];
    intros cur inRun c1 w c2 rest H1 H2 Hw Hne.
  - cbn [String.append Js.splitGo]. rewrite H1.
    rewrite (splitGo_word w "" true c2 rest Hw H2 (or_introl Hne)).
    destruct inRun; [left; reflexivity | right; left; reflexivity].
  - cbn [String.append Js.splitGo].
    destruct (Js.isWhiteSpace x); [destruct inRun; [|right]|];
      apply IH; assumption.
Qed.

(** The words of the transcript made up for an audio file: a word of the
    fixed text after the name is a token whatever the name. *)
Lemma audio_word name before w rest :
  Js.toLowerCase
    ". Discussion covered project milestones, budget allocation, and team assignments. Action items include reviewing client requirements, preparing presentation materials, and scheduling follow-up meetings. Team leads will coordinate with respective departments to ensure timely completion of deliverables."
  = before ++ String " " (w ++ String " " rest) ->
  noWhite w = true -> w <> "" ->
  In w (wordsOf (simulatedTranscript name)).
Proof.
  intros E Hw Hne. unfold wordsOf, simulatedTranscript, Js.split.
  rewrite !Strings.toLowerCase_app, E, <- !Decimal.append_assoc.
  apply splitGo_In; [reflexivity | reflexivity | exact Hw | exact Hne].
Qed.

Lemma some_keyword words keywords keyword :
  In keyword keywords -> In keyword words ->
  Js.some (fun k => Js.arrayIncludes words k) keywords = true.
Proof.
  intros Hk Hw. unfold Js.some. apply existsb_exists. exists keyword.
  split; [exact Hk | apply arrayIncludes_In, Hw].
Qed.

Lemma audio_keyTopics name :
  exists more,
    keyTopicsOf (wordsOf (simulatedTranscript name))
    = ([ "project management"; "budget & finance"; "team coordination";
         "client relations" ] ++ more)%list /\
    (more = [] \/ more = [ "technical discussion" ]).
Proof.
  unfold keyTopicsOf, topicKeywords. cbn [filter snd].
  rewrite (some_keyword _ _ "project"); [|cbn; tauto|].
  2: { apply (audio_word name ". discussion covered" "project"
                "milestones, budget allocation, and team assignments. action items include reviewing client requirements, preparing presentation materials, and scheduling follow-up meetings. team leads will coordinate with respective departments to ensure timely completion of deliverables.");
       [reflexivity | reflexivity | discriminate]. }
  rewrite (some_keyword _ _ "budget"); [|cbn; tauto|].
  2: { apply (audio_word name ". discussion covered project milestones,"
                "budget"
                "allocation, and team assignments. action items include reviewing client requirements, preparing presentation materials, and scheduling follow-up meetings. team leads will coordinate with respective departments to ensure timely completion of deliverables.");
       [reflexivity | reflexivity | discriminate]. }
  rewrite (some_keyword _ _ "team"); [|cbn; tauto|].
  2: { apply (audio_word name
                ". discussion covered project milestones, budget allocation, and"
                "team"
                "assignments. action items include reviewing client requirements, preparing presentation materials, and scheduling follow-up meetings. team leads will coordinate with respective departments to ensure timely completion of deliverables.");
       [reflexivity | reflexivity | discriminate]. }
  rewrite (some_keyword _ _ "client"); [|cbn; tauto|].
  2: { apply (audio_word name
                ". discussion covered project milestones, budget allocation, and team assignments. action items include reviewing"
                "client"
                "requirements, preparing presentation materials, and scheduling follow-up meetings. team leads will coordinate with respective departments to ensure timely completion of deliverables.");
       [reflexivity | reflexivity | discriminate]. }
  match goal with
  | |- context [if ?b then _ else _] => destruct b
  end; cbn [map fst]; eexists; (split; [reflexivity|]); tauto.
Qed.

(** X21.  The analysis of an audio upload does not depend on the recording:
    whatever the name of the file, the topics reported are project
    management, budget & finance, team coordination and client relations,
    in this order, followed at most by technical discussion. *)
Theorem X21_audio_topics name participants w :
  clockInRange w ->
  exists r w',
    analyzeMeeting (simulatedTranscript name) participants w = Ok r w' /\
    (keyTopics r
     = [ "project management"; "budget & finance"; "team coordination";
         "client relations" ] \/
     keyTopics r
     = [ "project management"; "budget & finance"; "team coordination";
         "client relations"; "technical discussion" ]).
Proof.
  intros Hc. rewrite analyzeMeeting_run_world by exact Hc.
  do 2 eexists. split; [reflexivity|]. cbn [keyTopics].
  destruct (audio_keyTopics name) as (more & E & [-> | ->]); rewrite E;
    [left | right]; reflexivity.
Qed.

Lemma X21_audio_topics_witness :
  clockInRange sampleWorld /\
  exists r w',
    analyzeMeeting (simulatedTranscript "technical review.mp3") []
                   sampleWorld = Ok r w' /\
    (keyTopics r
     = [ "project management"; "budget & finance"; "team coordination";
         "client relations" ] \/
     keyTopics r
     = [ "project management"; "budget & finance"; "team coordination";
         "client relations"; "technical discussion" ]).
Proof.
  assert (Hc : clockInRange sampleWorld)
    by (intros n; split; vm_compute; discriminate).
  split; [exact Hc|].
  exact (X21_audio_topics "technical review.mp3" [] sampleWorld Hc).
Defined.

End Form.

(* ---------------------------------------------------------------------- *)
(** ** What an analysis costs, and what it never contains *)
(* ---------------------------------------------------------------------- *)

Module Readings.

Lemma length_matchedTasks sentences i :
  List.length (matchedTasks i sentences)
  = List.length (filter taskMatches sentences).
Proof.
  rewrite <- (matchedTasks_sentences sentences i), length_map. reflexivity.
Qed.

(** X22.  An analysis draws one uuid for every piece that triggers an
    action item and one uuid, one random number and one clock reading for
    every piece that triggers a task, also for the pieces beyond the limits
    of 6 items and 5 tasks; with no action piece it draws 2 uuids, and with
    no task piece 4 uuids and 4 clock readings and no random number. *)
Theorem X22_readings transcript participants w :
  clockInRange w ->
  exists r w',
    analyzeMeeting transcript participants w = Ok r w' /\
    let a := List.length (filter actionMatches (splitSentences transcript)) in
    let t := List.length (filter taskMatches (splitSentences transcript)) in
    uuidCalls w'
    = (uuidCalls w + (if (a =? 0)%nat then 2 else a)
       + (if (t =? 0)%nat then 4 else t))%nat /\
    randomCalls w' = (randomCalls w + t)%nat /\
    clockCalls w'
    = (clockCalls w + (if (t =? 0)%nat then 4 else t))%nat.
Proof.
  intros Hc. rewrite (analyzeMeeting_run_world _ _ _ Hc).
  do 2 eexists. split; [reflexivity|]. cbv zeta.
  unfold worldAfter, taskReadings, actionUuids.
  rewrite <- (length_matchedTasks (splitSentences transcript) 0).
  destruct (matchedTasks 0 (splitSentences transcript)) as [|e rest];
    destruct (filter actionMatches (splitSentences transcript)) as [|s more];
    cbn [advance uuidCalls randomCalls clockCalls List.length Nat.eqb];
    repeat split; lia.
Qed.

Lemma X22_readings_witness :
  let transcript := "We must act. Bob will lead. Ann will handle it." in
  clockInRange sampleWorld /\
  exists r w',
    analyzeMeeting transcript [] sampleWorld = Ok r w' /\
    let a := List.length (filter actionMatches (splitSentences transcript)) in
    let t := List.length (filter taskMatches (splitSentences transcript)) in
    uuidCalls w'
    = (uuidCalls sampleWorld + (if (a =? 0)%nat then 2 else a)
       + (if (t =? 0)%nat then 4 else t))%nat /\
    randomCalls w' = (randomCalls sampleWorld + t)%nat /\
    clockCalls w'
    = (clockCalls sampleWorld + (if (t =? 0)%nat then 4 else t))%nat.
Proof.
  intros transcript.
  assert (Hc : clockInRange sampleWorld)
    by (intros n; split; vm_compute; discriminate).
  split; [exact Hc|].
  exact (X22_readings transcript [] sampleWorld Hc).
Defined.

(** No piece of a split holds a separator. *)
Lemma splitGo_sep_free sep c (Hc : sep c = true) s : forall cur inRun p,
  hasChar c cur = false ->
  In p (Js.splitGo sep s cur inRun) ->
  hasChar c p = false.
Proof.
  induction s as [|x s IH]; intros cur inRun p Hcur Hin.
  - destruct Hin as [<-|[]]. exact Hcur.
  - cbn [Js.splitGo] in Hin. destruct (sep x) eqn:Ex.
    + destruct inRun.
      * apply (IH "" true p eq_refl Hin).
      * destruct Hin as [<-|Hin]; [exact Hcur|].
        apply (IH "" true p eq_refl Hin).
    + apply (IH (cur ++ String x "") false p); [|exact Hin].
      rewrite Input.hasChar_app, Hcur. cbn [hasChar orb].
      destruct (Ascii.eqb_spec x c) as [->|]; [congruence | reflexivity].
Qed.


Lemma sentence_free c s :
  Js.isSentenceEnd c = true ->
  forall transcript, In s (splitSentences transcript) ->
  hasChar c (Js.trim s) = false.
Proof.
  intros Hc transcript Hin. apply Input.trim_chars.
  apply (splitGo_sep_free Js.isSentenceEnd c Hc transcript "" false s);
    [reflexivity | exact Hin].
Qed.

Lemma isSentenceEnd_cases c :
  Js.isSentenceEnd c = true -> c = "."%char \/ c = "!"%char \/ c = "?"%char.
Proof.
  destruct c as [[] [] [] [] [] [] [] []]; cbn; intros H;
    try discriminate; tauto.
Qed.

Lemma hasChar_join c sep pieces :
  hasChar c sep = false ->
  (forall p, In p pieces -> hasChar c p = false) ->
  hasChar c (Js.join sep pieces) = false.
Proof.
  intros Hsep. induction pieces as [|p rest IH]; intros H; [reflexivity|].
  destruct rest as [|q rest].
  - apply H. left. reflexivity.
  - change (Js.join sep (p :: q :: rest))
      with (p ++ sep ++ Js.join sep (q :: rest)).
    rewrite !Input.hasChar_app, Hsep, (H p (or_introl eq_refl)), IH;
      [reflexivity|].
    intros x Hx. apply H. right. exact Hx.
Qed.

Lemma summary_marks c transcript :
  c = "!"%char \/ c = "?"%char ->
  hasChar c (generateSummary transcript (sentencesOf transcript)) = false.
Proof.
  intros Hc. unfold generateSummary.
  destruct (List.length _ =? 0)%nat.
  - destruct Hc as [-> | ->]; reflexivity.
  - rewrite Input.hasChar_app, hasChar_join.
    + destruct Hc as [-> | ->]; reflexivity.
    + destruct Hc as [-> | ->]; reflexivity.
    + intros p Hin. apply in_map_iff in Hin. destruct Hin as (s & <- & Hs).
      unfold Js.slice0 in Hs. apply In_firstn in Hs.
      apply filter_In in Hs. destruct Hs as [Hs _].
      unfold sentencesOf in Hs. apply filter_In in Hs.
      destruct Hs as [Hs _].
      apply (sentence_free c s) with (transcript := transcript);
        [destruct Hc as [-> | ->]; reflexivity | exact Hs].
Qed.

Lemma actionItemsIn_marks c w transcript item :
  Js.isSentenceEnd c = true ->
  In item (actionItemsIn w transcript) ->
  hasChar c (ActionItem.description item) = false.
Proof.
  intros Hc. unfold actionItemsIn.
  destruct (filter actionMatches (splitSentences transcript)) as [|s rest]
    eqn:E.
  - apply isSentenceEnd_cases in Hc.
    intros [<-|[<-|[]]]; destruct Hc as [-> | [-> | ->]]; reflexivity.
  - intros Hin. apply In_firstn in Hin.
    apply (in_map ActionItem.description) in Hin.
    rewrite actionItemsFrom_descriptions, <- E in Hin.
    apply in_map_iff in Hin. destruct Hin as (x & <- & Hx).
    apply filter_In in Hx. destruct Hx as [Hx _].
    apply (sentence_free c x Hc transcript Hx).
Qed.

Lemma tasksIn_marks c w transcript participants task :
  Js.isSentenceEnd c = true ->
  In task (tasksIn w transcript participants) ->
  hasChar c (Task.description task) = false.
Proof.
  intros Hc. unfold tasksIn.
  destruct (matchedTasks 0 (splitSentences transcript)) as [|e rest] eqn:E.
  - intros Hin. apply (in_map Task.description) in Hin.
    rewrite defaultTasksFrom_descriptions in Hin. simpl in Hin.
    apply isSentenceEnd_cases in Hc.
    destruct Hin as [<-|[<-|[<-|[<-|[]]]]];
      destruct Hc as [-> | [-> | ->]]; reflexivity.
  - intros Hin. apply In_firstn in Hin.
    apply (in_map Task.description) in Hin.
    rewrite tasksFrom_descriptions, <- E, matchedTasks_sentences in Hin.
    apply in_map_iff in Hin. destruct Hin as (x & <- & Hx).
    apply filter_In in Hx. destruct Hx as [Hx _].
    apply (sentence_free c x Hc transcript Hx).
Qed.

(** X23.  No sentence mark of the transcript survives the analysis: the
    description of an action item or of a task holds no full stop, no
    exclamation mark and no question mark, and the summary holds no
    exclamation mark and no question mark. *)
Theorem X23_no_sentence_marks transcript participants w :
  clockInRange w ->
  exists r w',
    analyzeMeeting transcript participants w = Ok r w' /\
    hasChar "!" (summary r) = false /\
    hasChar "?" (summary r) = false /\
    (forall item c,
        In item (actionItems r) -> Js.isSentenceEnd c = true ->
        hasChar c (ActionItem.description item) = false) /\
    (forall task c,
        In task (tasks r) -> Js.isSentenceEnd c = true ->
        hasChar c (Task.description task) = false).
Proof.
  intros Hc. rewrite (analyzeMeeting_run_world _ _ _ Hc).
  do 2 eexists. split; [reflexivity|]. cbn [summary actionItems tasks].
  split; [apply summary_marks; left; reflexivity|].
  split; [apply summary_marks; right; reflexivity|]. split.
  - intros item c Hin Hm. exact (actionItemsIn_marks c _ _ item Hm Hin).
  - intros task c Hin Hm. exact (tasksIn_marks c _ _ _ task Hm Hin).
Qed.

Lemma X23_no_sentence_marks_witness :
  clockInRange sampleWorld /\
  exists r w',
    analyzeMeeting "We agreed! Who should lead? Bob will handle it."
                   [] sampleWorld = Ok r w' /\
    hasChar "!" (summary r) = false /\
    hasChar "?" (summary r) = false /\
    (forall item c,
        In item (actionItems r) -> Js.isSentenceEnd c = true ->
        hasChar c (ActionItem.description item) = false) /\
    (forall task c,
        In task (tasks r) -> Js.isSentenceEnd c = true ->
        hasChar c (Task.description task) = false).
Proof.
  assert (Hc : clockInRange sampleWorld)
    by (intros n; split; vm_compute; discriminate).
  split; [exact Hc|].
  exact (X23_no_sentence_marks
           "We agreed! Who should lead? Bob will handle it." [] sampleWorld
           Hc).
Defined.

End Readings.
